(** * jose-universal: JWE / JWS container assembly, checked against its specification

    A shallow embedding of the TypeScript sources of the library (header
    merging, [crit] validation, Concat-KDF, ECDH-ES key agreement, the
    flattened JWE encrypt / decrypt pipelines and the flattened JWS sign /
    verify pipelines), followed by the theorems that settle the claims of
    the specification.

    Conventions of the embedding:
    - JavaScript values are the inductive [JsValue]; a plain object is a
      finite map from property names to values ([gmap string JsValue]).
      Only own properties are modelled (no prototype chain).
    - A JavaScript string is a Rocq [string], read as the UTF-8 encoding of
      the text, so that [TextEncoder.encode] is [list_byte_of_string].
    - A JavaScript number is a rational ([Q]); NaN and the infinities are
      not modelled.
    - [throw] is the [Throw] constructor of [result]; [try]/[catch] is
      [try_catch].
    - Calls to the external collaborators (curve provider, AEAD provider,
      timers, random sources) are recorded in a trace of [Event]s by the
      writer monad [M]. Diagnostic logging ([console.log]) is not modelled. *)

From Stdlib Require Import ZArith QArith Lqa String Ascii.
From Stdlib.Strings Require Import Byte.
From stdpp Require Import gmap strings list.

Set Warnings "-register-all,-clear-no-such-hyp".
#[local] Open Scope string_scope.
#[local] Open Scope list_scope.
#[local] Open Scope Z_scope.

(** ** JavaScript values *)

Abbreviation bytes := (list byte).

Inductive JsValue : Type :=
  | JUndefined
  | JNull
  | JBool (b : bool)
  | JNum (q : Q)
  | JStr (s : string)
  | JBytes (bs : bytes)                 (* a Uint8Array *)
  | JArr (items : list JsValue)
  | JObj (props : gmap string JsValue)  (* a plain object *)
  | JExotic.                            (* any other object: class instance, Map, Date, function *)

Abbreviation Header := (gmap string JsValue).

(** [Boolean(v)], the truthiness used by [if (!v)], [&&] and [filter(Boolean)]. *)
Definition truthy (v : JsValue) : bool :=
  match v with
  | JUndefined | JNull => false
  | JBool b => b
  | JNum q => negb (Qeq_bool q 0)
  | JStr s => negb (String.eqb s "")
  | JBytes _ | JArr _ | JObj _ | JExotic => true
  end.

(** [v === undefined] and [v == null]. *)
Definition is_undefined (v : JsValue) : bool :=
  match v with JUndefined => true | _ => false end.

Definition is_nullish (v : JsValue) : bool :=
  match v with JUndefined | JNull => true | _ => false end.

(** src/utils/isPlainObject.ts *)
Definition isPlainObject (v : JsValue) : bool :=
  match v with JObj _ => true | _ => false end.

(** [isUint8Array] of u8a-utils. *)
Definition isUint8Array (v : JsValue) : bool :=
  match v with JBytes _ => true | _ => false end.

(** Property read [o[k]] on an object: a missing property reads as [undefined]. *)
Definition prop (o : Header) (k : string) : JsValue :=
  default JUndefined (o !! k).

(** [v?.k] and [v.k] on a value that is known to be an object or undefined. *)
Definition get (v : JsValue) (k : string) : JsValue :=
  match v with JObj o => prop o k | _ => JUndefined end.

(** The own enumerable properties copied by an object spread [{...v}].
    Every value that reaches a spread in the sources is either falsy or a
    plain object (the checks of [verifyJweHeaders] / [verifyJwsHeaders]
    come first); on those this definition is exact. *)
Definition own_props (v : JsValue) : Header :=
  match v with JObj o => o | _ => ∅ end.

(** [Object.keys(v)] as a set, under the same proviso as [own_props]. *)
Definition Object_keys (v : JsValue) : gset string := dom (own_props v).

(** A name between double quotes, as the error messages print it. *)
Definition quoted (s : string) : string :=
  String "034"%char (s +:+ String "034"%char "").

(** ** Errors (unnamed/part_001, errors.ts) *)

Inductive ErrorCode : Type :=
  | ERR_JOSE_GENERIC
  | ERR_JOSE_INVALID
  | ERR_JOSE_NOT_SUPPORTED
  | ERR_JWE_INVALID
  | ERR_JWE_NOT_SUPPORTED
  | ERR_JWS_INVALID
  | ERR_JWS_NOT_SUPPORTED
  | ERR_JWS_SIGNATURE_VERIFICATION_FAILED.

(** What a [throw] can carry: an instance of one of the library's error
    classes, a built-in error, or an exception raised inside an external
    provider (which never is an instance of a class of this library). *)
Inductive Exn : Type :=
  | JoseError (code : ErrorCode) (message : string)
  | RangeError (message : string)
  | TypeError (message : string)
  | PlainError (message : string)
  | ProviderError (message : string).

Definition JoseInvalid := JoseError ERR_JOSE_INVALID.
Definition JweInvalid := JoseError ERR_JWE_INVALID.
Definition JweNotSupported := JoseError ERR_JWE_NOT_SUPPORTED.
Definition JwsInvalid := JoseError ERR_JWS_INVALID.
Definition JwsNotSupported := JoseError ERR_JWS_NOT_SUPPORTED.
Definition JwsSignatureVerificationFailed :=
  JoseError ERR_JWS_SIGNATURE_VERIFICATION_FAILED "JWS signature verification failed".

(** The taxonomy of section 7 of the specification. *)
Definition is_invalid (e : Exn) : bool :=
  match e with
  | JoseError (ERR_JOSE_INVALID | ERR_JWE_INVALID | ERR_JWS_INVALID) _ => true
  | _ => false
  end.

Definition is_not_supported (e : Exn) : bool :=
  match e with
  | JoseError (ERR_JOSE_NOT_SUPPORTED | ERR_JWE_NOT_SUPPORTED | ERR_JWS_NOT_SUPPORTED) _ => true
  | _ => false
  end.

(** [error instanceof JwsSignatureVerificationFailed] *)
Definition is_signature_verification_failed (e : Exn) : bool :=
  match e with
  | JoseError ERR_JWS_SIGNATURE_VERIFICATION_FAILED _ => true
  | _ => false
  end.

Inductive result (A : Type) : Type :=
  | Ok (a : A)
  | Throw (e : Exn).
Arguments Ok {A} a.
Arguments Throw {A} e.

#[global] Instance result_ret : MRet result := λ A a, Ok a.
#[global] Instance result_bind : MBind result :=
  λ A B f r, match r with Ok a => f a | Throw e => Throw e end.

Definition is_ok {A} (r : result A) : bool :=
  match r with Ok _ => true | Throw _ => false end.

(** The outcome of a call into an external provider. *)
Inductive provided (A : Type) : Type :=
  | Returned (a : A)
  | Raised (message : string).
Arguments Returned {A} a.
Arguments Raised {A} message.

Definition of_provider {A} (p : provided A) : result A :=
  match p with Returned a => Ok a | Raised m => Throw (ProviderError m) end.

(** ** Numbers *)

(** [Number.isInteger] *)
Definition Number_isInteger (q : Q) : bool :=
  (Qnum q mod Z.pos (Qden q) =? 0)%Z.

(** The integer value of an integral number. *)
Definition Q_to_Z (q : Q) : Z := (Qnum q / Z.pos (Qden q))%Z.

(** ToInt32: wrap to the signed 32-bit range. *)
Definition to_int32 (z : Z) : Z := (z + 2 ^ 31) mod 2 ^ 32 - 2 ^ 31.

(** [z >> n] on an integral number. *)
Definition js_shr (z : Z) (n : Z) : Z := Z.shiftr (to_int32 z) n.

(** [Math.ceil(a / b)] for integers [a] and positive [b]. *)
Definition ceil_div (a b : Z) : Z := - ((- a) / b).

(** ** Byte-array helpers (u8a-utils and the Uint8Array built-ins) *)

Definition byte_of_Z (z : Z) : byte :=
  default x00 (Byte.of_N (Z.to_N (z mod 256))).

Definition Z_of_byte (b : byte) : Z := Z.of_N (Byte.to_N b).

(** [toUint32BE]: the four bytes of [n] modulo 2^32, most significant first. *)
Definition toUint32BE (n : Z) : bytes :=
  [ byte_of_Z (Z.shiftr n 24); byte_of_Z (Z.shiftr n 16);
    byte_of_Z (Z.shiftr n 8); byte_of_Z n ].

(** [new TextEncoder().encode(s)] *)
Definition utf8 (s : string) : bytes := list_byte_of_string s.

(** [new Uint8Array(n)] *)
Definition u8_alloc (n : Z) : result bytes :=
  if n <? 0 then Throw (RangeError "Invalid typed array length")
  else Ok (replicate (Z.to_nat n) x00).

(** [dst.set(src, off)] *)
Definition u8_set (dst src : bytes) (off : nat) : result bytes :=
  if decide (off + length src ≤ length dst)%nat
  then Ok (take off dst ++ src ++ drop (off + length src) dst)
  else Throw (RangeError "offset is out of bounds").

(** [b.slice(0, e)] *)
Definition u8_slice0 (b : bytes) (e : Z) : bytes :=
  take (Z.to_nat (if e <? 0 then Z.max (Z.of_nat (length b) + e) 0 else e)) b.

(** [encodeBase64Url] of u8a-utils: RFC 4648 section 5, without padding. *)
Definition b64u_alphabet : string :=
  "ABCDEFGHIJKLMNOPQRSTUVWXYZabcdefghijklmnopqrstuvwxyz0123456789-_".

Definition b64u_char (i : Z) : string :=
  match String.get (Z.to_nat i) b64u_alphabet with
  | Some c => String c ""
  | None => ""
  end.

Fixpoint b64u_groups (fuel : nat) (bs : list Z) : string :=
  match fuel, bs with
  | S fuel', b0 :: b1 :: b2 :: rest =>
      b64u_char (b0 / 4) +:+ b64u_char ((b0 mod 4) * 16 + b1 / 16)
      +:+ b64u_char ((b1 mod 16) * 4 + b2 / 64) +:+ b64u_char (b2 mod 64)
      +:+ b64u_groups fuel' rest
  | _, [b0; b1] =>
      b64u_char (b0 / 4) +:+ b64u_char ((b0 mod 4) * 16 + b1 / 16)
      +:+ b64u_char ((b1 mod 16) * 4)
  | _, [b0] => b64u_char (b0 / 4) +:+ b64u_char ((b0 mod 4) * 16)
  | _, _ => ""
  end.

Definition encodeBase64Url (bs : bytes) : string :=
  b64u_groups (length bs) (Z_of_byte <$> bs).


(** A [for] loop over a list that threads a value and stops at the first throw. *)
Fixpoint for_each {A S : Type} (body : S → A → result S) (s : S) (l : list A) : result S :=
  match l with
  | [] => Ok s
  | x :: l' => s' ← body s x; for_each body s' l'
  end.

(** ** Concat-KDF and OtherInfo *)

(** [isEnc] of the aes-universal package is not part of the repository; it is
    the membership test of the content-encryption registry of the
    specification (section 6): the six AES-GCM and AES-CBC-HMAC names. *)
Definition isEnc (enc : string) : bool :=
  bool_decide (enc ∈ ["A128GCM"; "A192GCM"; "A256GCM";
                      "A128CBC-HS256"; "A192CBC-HS384"; "A256CBC-HS512"]).

(** src/jwe/key-management/ecdhes/cekBitLengthByEnc.ts *)
Definition cekBitLengthByEnc (enc : string) : result Z :=
  if String.eqb enc "A128GCM" then Ok 128
  else if String.eqb enc "A192GCM" then Ok 192
  else if String.eqb enc "A256GCM" || String.eqb enc "A128CBC-HS256" then Ok 256
  else if String.eqb enc "A192CBC-HS384" then Ok 384
  else if String.eqb enc "A256CBC-HS512" then Ok 512
  else Throw (PlainError ("Unsupported JWE Encryption Algorithm: " +:+ enc)).

(** unnamed/part_003, lengthAndInput.ts *)
Definition lengthAndInput (input : bytes) : result bytes :=
  if Z.of_nat (length input) >? 4294967295 then Throw (RangeError "Input too large")
  else Ok (toUint32BE (Z.of_nat (length input)) ++ input).

(** unnamed/part_004, buildKdfOtherInfo.ts.  [apu] and [apv] are [None]
    when the caller passes [undefined]; the parameter defaults then
    substitute [new Uint8Array()]. *)
Definition buildKdfOtherInfo (algorithm : string) (apu apv : option bytes)
    (keyBitLength : Z) : result bytes :=
  let apu := default [] apu in
  let apv := default [] apv in
  if (Z.of_nat (length apu) >? 32) || (Z.of_nat (length apv) >? 32)
  then Throw (JweInvalid "APU/APV must be ≤32 bytes")
  else if negb (isEnc algorithm)
  then Throw (JweNotSupported (quoted "enc" +:+ " (Content Encryption Algorithm) is not supported"))
  else
    algID ← lengthAndInput (utf8 algorithm);
    partyU ← lengthAndInput apu;
    partyV ← lengthAndInput apv;
    Ok (algID ++ partyU ++ partyV ++ toUint32BE keyBitLength).

Section ConcatKdf.
(** [sha256] of @noble/hashes, an external primitive. *)
Variable sha256 : bytes → bytes.

(** The hash input assembled in one iteration:
    [buf = counter || sharedSecret || otherInfo]. *)
Definition concatKdf_buf (sharedSecret otherInfo : bytes) (iter : nat) : result bytes :=
  buf ← u8_alloc (4 + Z.of_nat (length sharedSecret) + Z.of_nat (length otherInfo));
  buf ← u8_set buf (toUint32BE (Z.of_nat iter + 1)) 0;
  buf ← u8_set buf sharedSecret 4;
  u8_set buf otherInfo (4 + length sharedSecret).

(** The body of the [for] loop. *)
Definition concatKdf_round (sharedSecret otherInfo : bytes)
    (res : bytes) (iter : nat) : result bytes :=
  buf ← concatKdf_buf sharedSecret otherInfo iter;
  u8_set res (sha256 buf) (iter * 32).

(** src/jwe/key-management/ecdhes/cekBitLengthByEnc.ts, second part (concatKdf.ts) *)
Definition concatKdf (sharedSecret : bytes) (keyBitLength : Q) (otherInfo : bytes)
    : result bytes :=
  if negb (Number_isInteger keyBitLength) || Qle_bool keyBitLength 0
  then Throw (RangeError "keyBitLength must be a positive integer")
  else
    let keydatalen := js_shr (Q_to_Z keyBitLength) 3 in
    let iterations := ceil_div keydatalen 32 in
    res ← u8_alloc (iterations * 32);
    res ← for_each (concatKdf_round sharedSecret otherInfo) res
            (seq 0 (Z.to_nat iterations));
    Ok (u8_slice0 res keydatalen).
End ConcatKdf.

(** ** Header composition *)

(** unnamed/part_026, areDisjoint.ts: the loop over [sources[1..]], with the
    accumulated set of names. *)
Fixpoint areDisjoint_from (acc : gset string) (sources : list JsValue) : bool :=
  match sources with
  | [] => true
  | source :: rest =>
      let parameters := Object_keys source in
      let hasDuplicate := existsb (λ parameter, bool_decide (parameter ∈ acc)) (elements parameters) in
      if hasDuplicate then false
      else areDisjoint_from (acc ∪ parameters) rest
  end.

Definition areDisjoint (headers : list JsValue) : bool :=
  match filter (λ h, truthy h = true) headers with
  | [] | [_] => true
  | first :: rest => areDisjoint_from (Object_keys first) rest
  end.

(** unnamed/part_007, verifyJweHeaders.ts *)
Definition verifyJweHeaders (protectedHeader sharedUnprotectedHeader unprotectedHeader : JsValue)
    : result unit :=
  if negb (truthy protectedHeader) then
    Throw (JweInvalid "JWE Protected Header is missing")
  else if negb (isPlainObject protectedHeader) then
    Throw (JweInvalid "JWE Protected Header is not a plain object")
  else if bool_decide (Object_keys protectedHeader = ∅) then
    Throw (JweInvalid "JWE Protected Header is empty")
  else if truthy sharedUnprotectedHeader && negb (isPlainObject sharedUnprotectedHeader) then
    Throw (JweInvalid "JWE Shared Unprotected Header is not a plain object")
  else if truthy unprotectedHeader && negb (isPlainObject unprotectedHeader) then
    Throw (JweInvalid "JWE Per-Recipient Unprotected Header is not a plain object")
  else if negb (areDisjoint [protectedHeader; sharedUnprotectedHeader; unprotectedHeader]) then
    Throw (JweInvalid "JWE Protected, JWE Shared Unprotected and JWE Per-Recipient Header Parameter names must be disjoint")
  else Ok ().

(** The object literal [{ ...a, ...b, ...c }]: later spreads win. *)
Definition spread3 (a b c : JsValue) : Header :=
  own_props c ∪ (own_props b ∪ own_props a).

Definition spread2 (a b : JsValue) : Header :=
  own_props b ∪ own_props a.

(** src/jwe/flattened/FlattenedDecrypter.ts, second part (mergeJweHeaders.ts) *)
Definition mergeJweHeaders (protectedHeader sharedUnprotectedHeader unprotectedHeader : JsValue)
    : result Header :=
  _ ← verifyJweHeaders protectedHeader sharedUnprotectedHeader unprotectedHeader;
  let joseHeader := spread3 unprotectedHeader sharedUnprotectedHeader protectedHeader in
  if negb (is_undefined (prop joseHeader "zip")) then
    Throw (JweNotSupported ("JWE " +:+ quoted "zip" +:+ " (Compression Algorithm) Header Parameter is not supported."))
  else Ok joseHeader.

(** unnamed/part_028, verifyJwsHeaders.ts *)
Definition verifyJwsHeaders (protectedHeader unprotectedHeader : JsValue) : result unit :=
  if negb (truthy protectedHeader) then
    Throw (JwsInvalid "JWS Protected Header is missing")
  else if negb (isPlainObject protectedHeader) then
    Throw (JwsInvalid "JWS Protected Header is not a plain object")
  else if bool_decide (Object_keys protectedHeader = ∅) then
    Throw (JwsInvalid "JWS Protected Header is empty")
  else if truthy unprotectedHeader && negb (isPlainObject unprotectedHeader) then
    Throw (JwsInvalid "JWS Unprotected Header is not a plain object")
  else if negb (areDisjoint [protectedHeader; unprotectedHeader]) then
    Throw (JwsInvalid "JWS Protected and JWS Unprotected Header Parameter names must be disjoint")
  else Ok ().

(** src/jws/flattened/utils/mergeJwsHeaders.ts *)
Definition mergeJwsHeaders (protectedHeader unprotectedHeader : JsValue) : result Header :=
  _ ← verifyJwsHeaders protectedHeader unprotectedHeader;
  Ok (spread2 unprotectedHeader protectedHeader).

(** ** The [crit] rule (src/utils/validateCrit.ts) *)

(** [new Map(entries)]: entries are inserted in order, a later entry for
    the same key replaces the earlier one. *)
Definition js_Map {V : Type} (entries : list (string * V)) : gmap string V :=
  foldl (λ m kv, <[kv.1 := kv.2]> m) ∅ entries.

(** [Object.entries] of a record of flags. *)
Definition Object_entries {V : Type} (o : gmap string V) : list (string * V) :=
  map_to_list o.

(** The map [recognized] built from the default and the option set. *)
Definition recognized_map (recognizedDefault recognizedOption : gmap string bool)
    : gmap string bool :=
  js_Map (Object_entries recognizedDefault ++ Object_entries recognizedOption).

(** [typeof input !== 'string' || input.length === 0] *)
Definition not_nonempty_string (input : JsValue) : bool :=
  match input with
  | JStr s => String.eqb s ""
  | _ => true
  end.

(** The names of a [crit] array that has passed the shape check. *)
Definition crit_names (items : list JsValue) : list string :=
  omap (λ v, match v with JStr s => Some s | _ => None end) items.

(** The body of [for (const parameter of protectedHeader.crit)]: returns the
    first error, if any. *)
Fixpoint validateCrit_loop (Err : string → Exn) (recognized : gmap string bool)
    (protectedHeader joseHeader : Header) (parameters : list string) : result unit :=
  match parameters with
  | [] => Ok ()
  | parameter :: rest =>
      if negb (bool_decide (is_Some (recognized !! parameter))) then
        Throw (Err (quoted "crit" +:+ " (Critical) header parameter "
                    +:+ quoted parameter +:+ " is not recognized"))
      else if is_undefined (prop joseHeader parameter) then
        Throw (Err (quoted "crit" +:+ " (Critical) header parameter "
                    +:+ quoted parameter +:+ " is missing in the JOSE header"))
      else if default false (recognized !! parameter)
              && is_nullish (prop protectedHeader parameter) then
        Throw (Err (quoted "crit" +:+ " (Critical) header parameter "
                    +:+ quoted parameter +:+ " MUST be integrity protected"))
      else validateCrit_loop Err recognized protectedHeader joseHeader rest
  end.

(** [Err] is the error class to throw ([JweInvalid] or [JwsInvalid]);
    [recognizedDefault] and [recognizedOption] are [None] when the caller
    passes [undefined], and then default to the empty record. *)
Definition validateCrit (Err : string → Exn)
    (recognizedDefault recognizedOption : option (gmap string bool))
    (protectedHeader : JsValue) (joseHeader : Header) : result (gset string) :=
  let recognizedDefault := default ∅ recognizedDefault in
  let recognizedOption := default ∅ recognizedOption in
  if negb (is_undefined (prop joseHeader "crit")) && is_undefined (get protectedHeader "crit") then
    Throw (Err (quoted "crit" +:+ " (Critical) Header Parameter MUST be integrity protected"))
  else if negb (truthy protectedHeader) || is_undefined (get protectedHeader "crit") then
    Ok ∅
  else
    match get protectedHeader "crit" with
    | JArr ((_ :: _) as items) =>
        if existsb not_nonempty_string items then
          Throw (Err (quoted "crit" +:+ " (Critical) Header Parameter MUST be an array of non-empty strings when present"))
        else
          let recognized := recognized_map recognizedDefault recognizedOption in
          _ ← validateCrit_loop Err recognized (own_props protectedHeader) joseHeader
                (crit_names items);
          Ok (list_to_set (crit_names items))
    | _ =>
        Throw (Err (quoted "crit" +:+ " (Critical) Header Parameter MUST be an array of non-empty strings when present"))
    end.

(** ** External collaborators (section 4.12 of the specification) *)

(** The ECDH curve provider of noble-curves-extended.  A value a provider
    draws at random is the draw of the run being modelled. *)
Record EcdhCurve : Type := {
  curveName : string;
  randomPrivateKey : provided bytes;
  getPublicKey : bytes → provided bytes;
  toJwkPublicKey : bytes → provided JsValue;
  toRawPublicKey : JsValue → provided bytes;
  toRawPrivateKey : JsValue → provided bytes;
  getSharedSecret : bytes → bytes → provided bytes; (* privateKey, publicKey *)
  randomBytes : Z → bytes
}.

(** The signature curve provider. *)
Record SignatureCurve : Type := {
  signatureAlgorithmName : string;
  sig_toRawPublicKey : JsValue → provided bytes;
  sig_toRawPrivateKey : JsValue → provided bytes;
  sig_sign : bytes → bytes → provided bytes;        (* privateKey, message *)
  sig_verify : bytes → bytes → bytes → provided bool (* publicKey, message, signature *)
}.

(** The AEAD provider of aes-universal. *)
Record AesCipher : Type := {
  (* enc, plaintext, cek, aad; returns ciphertext, tag, iv *)
  aes_encrypt : string → bytes → bytes → bytes → provided (bytes * bytes * bytes);
  (* enc, cek, ciphertext, iv, tag, aad *)
  aes_decrypt : string → bytes → bytes → bytes → bytes → bytes → provided bytes;
  aes_randomBytes : Z → bytes
}.

(** The run-time platform and the remaining external packages. *)
Record Platform : Type := {
  sha256 : bytes → bytes;                       (* @noble/hashes *)
  decodeB64U : string → provided bytes;         (* decodeBase64Url of u8a-utils *)
  JSON_stringify : JsValue → string;
  JSON_parse : string → provided JsValue;
  Math_random : Q;                              (* the draw of this run *)
  createEcdhCurve : JsValue → (Z → bytes) → provided EcdhCurve;
  createSignatureCurve : JsValue → (Z → bytes) → provided SignatureCurve
}.

(** ** Traces of external calls *)

Inductive Event : Type :=
  | EvCreateCurve (crv : JsValue)
  | EvToRawPublicKey (jwk : JsValue)
  | EvToRawPrivateKey (jwk : JsValue)
  | EvRandomPrivateKey
  | EvGetPublicKey (privateKey : bytes)
  | EvToJwkPublicKey (publicKey : bytes)
  | EvGetSharedSecret (privateKey publicKey : bytes)
  | EvConcatKdf (sharedSecret : bytes) (keyBitLength : Z) (otherInfo : bytes)
  | EvAeadEncrypt (enc : string) (plaintext cek aad : bytes)
  | EvAeadDecrypt (enc : string) (cek ciphertext iv tag aad : bytes)
  | EvMathRandom
  | EvSleep (ms : Q)
  | EvRandomBytes (n : Z)
  | EvSign (privateKey message : bytes)
  | EvVerify (publicKey message signature : bytes).

(** A computation that records its external calls and may throw. *)
Definition M (A : Type) : Type := (list Event * result A)%type.

Definition M_ret {A : Type} (a : A) : M A := ([], Ok a).

Definition M_bind {A B : Type} (m : M A) (k : A → M B) : M B :=
  match m with
  | (t1, Ok a) => let '(t2, r) := k a in (t1 ++ t2, r)
  | (t1, Throw e) => (t1, Throw e)
  end.

Notation "x ⇐ m ; k" := (M_bind m (λ x, k))
  (at level 20, m at level 100, k at level 200, only parsing).
Notation "' pat ⇐ m ; k" := (M_bind m (λ x, match x with pat => k end))
  (at level 20, pat pattern, m at level 100, k at level 200, only parsing).

(** A step that calls nothing. *)
Definition lift {A : Type} (r : result A) : M A := ([], r).

(** A call into an external collaborator. *)
Definition call {A : Type} (ev : Event) (p : provided A) : M A := ([ev], of_provider p).

(** [try { m } catch (e) { handler e }] *)
Definition try_catch {A : Type} (m : M A) (handler : Exn → M A) : M A :=
  match m with
  | (t1, Ok a) => (t1, Ok a)
  | (t1, Throw e) => let '(t2, r) := handler e in (t1 ++ t2, r)
  end.

Definition result_catch {A : Type} (r : result A) (handler : Exn → result A) : result A :=
  match r with
  | Ok a => Ok a
  | Throw e => handler e
  end.

(** ** Algorithm and party-info validation *)

(** unnamed/part_011, isJweAlg.ts *)
Definition isJweAlg (alg : string) : bool := String.eqb alg "ECDH-ES".

(** unnamed/part_012, validateJweAlg.ts *)
Definition validateJweAlg (alg : JsValue) : result string :=
  let invalid := Throw (JweInvalid (quoted "alg" +:+ " (Key Management Algorithm) is invalid")) in
  if is_nullish alg then invalid
  else match alg with
       | JStr "" => invalid
       | JStr s =>
           if negb (isJweAlg s) then
             Throw (JweNotSupported ("The specified " +:+ quoted "alg"
                                     +:+ " (Key Management Algorithm) is not supported"))
           else Ok s
       | _ => invalid
       end.

(** src/jwe/utils/validateJweEnc.ts *)
Definition validateJweEnc (enc : JsValue) : result string :=
  let invalid := Throw (JweInvalid (quoted "enc" +:+ " (Content Encryption Algorithm) is invalid")) in
  if is_nullish enc then invalid
  else match enc with
       | JStr "" => invalid
       | JStr s =>
           if negb (isEnc s) then
             Throw (JweNotSupported ("The specified " +:+ quoted "enc"
                                     +:+ " (Content Encryption Algorithm) is not supported"))
           else Ok s
       | _ => invalid
       end.

(** src/jwe/utils/validateJweApi.ts *)
Definition validatePartyInfo (value : JsValue) (label : string) : result (option bytes) :=
  if negb (truthy value) then Ok None
  else match value with
       | JBytes valueU8a =>
           if Z.of_nat (length valueU8a) >? 32 then
             Throw (JweInvalid (label +:+ " must be less than or equal to 32 bytes"))
           else Ok (Some valueU8a)
       | _ => Throw (JweInvalid (label +:+ " must be a Uint8Array"))
       end.

Definition validateJweApu (apu : JsValue) : result (option bytes) :=
  validatePartyInfo apu (quoted "apu (Agreement PartyUInfo)").

Definition validateJweApv (apv : JsValue) : result (option bytes) :=
  validatePartyInfo apv (quoted "apv (Agreement PartyVInfo)").

(** src/jwe/utils/validateJweEnc.ts, second part (isJweCrv.ts) *)
Definition isJweCrv (crv : JsValue) : bool :=
  match crv with
  | JStr s => bool_decide (s ∈ ["P-256"; "P-384"; "P-521"; "X25519"])
  | _ => false
  end.

(** src/utils/keyLengthByCrv.ts *)
Definition keyLengthByCrv (crv : string) : result Z :=
  if String.eqb crv "P-256" then Ok 32
  else if String.eqb crv "P-384" then Ok 48
  else if String.eqb crv "P-521" then Ok 66
  else if String.eqb crv "secp256k1" then Ok 32
  else if String.eqb crv "Ed25519" then Ok 32
  else if String.eqb crv "X25519" then Ok 32
  else Throw (JoseError ERR_JOSE_NOT_SUPPORTED
                ("The specified " +:+ quoted "crv" +:+ " (Curve) is not supported: " +:+ crv)).

(** src/utils/validateKeyLengthByCrv.ts *)
Definition validateKeyLengthByCrv (key : bytes) (crv : string) (label : string) : result unit :=
  expected ← keyLengthByCrv crv;
  if negb (Z.of_nat (length key) =? expected) then
    Throw (JoseInvalid (quoted label +:+ " is invalid"))
  else Ok ().

(** unnamed/part_026, validateStringArrayAsSet.ts *)
Definition validateStringArrayAsSet (value : JsValue) (name : string)
    : result (option (gset string)) :=
  match value with
  | JUndefined => Ok None
  | JArr items =>
      if existsb (λ v, match v with JStr _ => false | _ => true end) items then
        Throw (TypeError (name +:+ " must be an array of strings"))
      else Ok (Some (list_to_set (crit_names items)))
  | _ => Throw (TypeError (name +:+ " must be an array"))
  end.

(** src/jwe/flattened/utils/checkJweAlgAllowed.ts *)
Definition checkJweAlgAllowed (alg : string) (keyManagementAlgorithms : JsValue) : result unit :=
  allowedAlgorithms ← validateStringArrayAsSet keyManagementAlgorithms "keyManagementAlgorithms";
  let rejected :=
    match allowedAlgorithms with
    | Some allowed => negb (bool_decide (alg ∈ allowed))
    | None => String.prefix "PBES2" alg
    end in
  if rejected then
    Throw (JweInvalid ("The specified " +:+ quoted "alg"
                       +:+ " (Key Management Algorithm) is not allowed"))
  else Ok ().

(** src/jwe/flattened/utils/checkJweEncAllowed.ts *)
Definition checkJweEncAllowed (enc : string) (contentEncryptionAlgorithms : JsValue)
    : result unit :=
  allowedAlgorithms ← validateStringArrayAsSet contentEncryptionAlgorithms
                        "contentEncryptionAlgorithms";
  match allowedAlgorithms with
  | Some allowed =>
      if negb (bool_decide (enc ∈ allowed)) then
        Throw (JweInvalid ("The specified " +:+ quoted "enc"
                           +:+ " (Content Encryption Algorithm) is not allowed"))
      else Ok ()
  | None => Ok ()
  end.

(** src/jwe/flattened/utils/encodeAesAad.ts.  [aadB64U] is [None] for
    [undefined]; the condition [aadB64U ? ... : ...] is the truthiness of a
    string, which is false for the empty string. *)
Definition encodeAesAad (protectedHeaderB64U : string) (aadB64U : option string) : bytes :=
  let aadString :=
    match aadB64U with
    | Some aad =>
        if truthy (JStr aad) then protectedHeaderB64U +:+ "." +:+ aad
        else protectedHeaderB64U
    | None => protectedHeaderB64U
    end in
  utf8 aadString.

(** The options record of the four operations; [noOptions] is an absent
    [options] argument. *)
Record Options : Type := {
  opt_crit : option (gmap string bool);
  opt_keyManagementAlgorithms : JsValue;
  opt_contentEncryptionAlgorithms : JsValue
}.

Definition noOptions : Options :=
  {| opt_crit := None;
     opt_keyManagementAlgorithms := JUndefined;
     opt_contentEncryptionAlgorithms := JUndefined |}.

Section Pipelines.
Context (Pf : Platform).

(** ** Codec helpers *)

(** [new TextDecoder().decode(b)]; strings are UTF-8 byte sequences here. *)
Definition utf8_decode (b : bytes) : string := string_of_list_byte b.

(** src/utils/decodeBase64Url.ts *)
Definition decodeBase64Url (b64u : JsValue) (label : string) (required : bool)
    : result (option bytes) :=
  if is_nullish b64u then
    if required then Throw (JoseInvalid (quoted label +:+ " is missing"))
    else Ok None
  else match b64u with
       | JStr s =>
           result_catch (b ← of_provider (decodeB64U Pf s); Ok (Some b))
             (λ _, Throw (JoseInvalid ("Failed to base64url decode " +:+ quoted label)))
       | _ => Throw (JoseInvalid (quoted label +:+ " must be a string"))
       end.

Definition decodeOptionalBase64Url (b64u : JsValue) (label : string) : result (option bytes) :=
  decodeBase64Url b64u label false.

(** With [required] set the result is never [undefined]. *)
Definition decodeRequiredBase64Url (b64u : JsValue) (label : string) : result bytes :=
  r ← decodeBase64Url b64u label true;
  match r with
  | Some b => Ok b
  | None => Throw (TypeError "unreachable: required value is undefined")
  end.

(** unnamed/part_021, parseBase64UrlHeader.ts *)
Definition parseBase64UrlHeader (headerB64U : JsValue) (label : string) : result JsValue :=
  protectedHeader ← decodeRequiredBase64Url headerB64U label;
  result_catch
    (parsed ← of_provider (JSON_parse Pf (utf8_decode protectedHeader));
     if isPlainObject parsed then Ok parsed
     else Throw (JoseInvalid (quoted label +:+ " must be a plain object")))
    (λ _, Throw (JoseInvalid ("Failed to parse base64url encoded " +:+ quoted label))).

(** src/utils/encodeBase64UrlHeader.ts *)
Definition encodeBase64UrlHeader (header : JsValue) : string :=
  if negb (truthy header) then ""
  else encodeBase64Url (utf8 (JSON_stringify Pf header)).

(** src/jwe/utils/validateJweEpk.ts *)
Definition validateJweEpk (epk : JsValue) : result JsValue :=
  if is_nullish epk then
    Throw (JweInvalid (quoted "epk" +:+ " (Ephemeral Public Key) is missing"))
  else if negb (isPlainObject epk) then
    Throw (JweInvalid (quoted "epk" +:+ " (Ephemeral Public Key) is not a plain object"))
  else
    let is_kty (name : string) :=
      match get epk "kty" with JStr s => String.eqb s name | _ => false end in
    if negb (is_kty "EC") && negb (is_kty "OKP") then
      Throw (JweInvalid ("The kty of " +:+ quoted "epk" +:+ " (Ephemeral Public Key) is invalid"))
    else if negb (isJweCrv (get epk "crv")) then
      Throw (JweInvalid ("The crv of " +:+ quoted "epk" +:+ " (Ephemeral Public Key) is invalid"))
    else
      let crv := match get epk "crv" with JStr s => s | _ => "" end in
      let label_x := "The x of " +:+ quoted "epk" +:+ " (Ephemeral Public Key)" in
      let label_y := "The y of " +:+ quoted "epk" +:+ " (Ephemeral Public Key)" in
      x ← decodeRequiredBase64Url (get epk "x") label_x;
      _ ← validateKeyLengthByCrv x crv label_x;
      _ ← (if is_kty "EC" then
             y ← decodeRequiredBase64Url (get epk "y") label_y;
             validateKeyLengthByCrv y crv label_y
           else Ok ());
      Ok epk.

(** ** ECDH-ES key agreement *)

(** src/jwe/key-management/ecdhes/cekBitLengthByEnc.ts, third part
    (ecdhesDeriveEncryptKey.ts).  Returns [cek], [encryptedKey] and
    [parameters]. *)
Definition ecdhesDeriveEncryptionKey (enc : string) (curve : EcdhCurve)
    (yourPublicKey : bytes) (providedParameters : JsValue)
    : M (bytes * option bytes * Header) :=
  myPrivateKey ⇐ call EvRandomPrivateKey (randomPrivateKey curve);
  myPublicKey ⇐ call (EvGetPublicKey myPrivateKey) (getPublicKey curve myPrivateKey);
  epk ⇐ call (EvToJwkPublicKey myPublicKey) (toJwkPublicKey curve myPublicKey);
  let parameters : Header := {[ "epk" := epk ]} in
  apu ⇐ lift (validateJweApu (get providedParameters "apu"));
  apv ⇐ lift (validateJweApv (get providedParameters "apv"));
  let parameters :=
    match apu with
    | Some apu => <[ "apu" := JStr (encodeBase64Url apu) ]> parameters
    | None => parameters
    end in
  let parameters :=
    match apv with
    | Some apv => <[ "apv" := JStr (encodeBase64Url apv) ]> parameters
    | None => parameters
    end in
  enc ⇐ lift (validateJweEnc (JStr enc));
  keyBitLength ⇐ lift (cekBitLengthByEnc enc);
  sharedSecret ⇐ call (EvGetSharedSecret myPrivateKey yourPublicKey)
                   (getSharedSecret curve myPrivateKey yourPublicKey);
  otherInfo ⇐ lift (buildKdfOtherInfo enc apu apv keyBitLength);
  cek ⇐ ([EvConcatKdf sharedSecret keyBitLength otherInfo],
          concatKdf (sha256 Pf) sharedSecret (inject_Z keyBitLength) otherInfo);
  M_ret (cek, None, parameters).

(** src/jwe/key-management/deriveEncryptionKey.ts *)
Definition deriveEncryptionKey (alg enc : string) (curve : EcdhCurve)
    (yourPublicKey : bytes) (providedParameters : JsValue)
    : M (bytes * option bytes * Header) :=
  if String.eqb alg "ECDH-ES" then
    ecdhesDeriveEncryptionKey enc curve yourPublicKey providedParameters
  else lift (Throw (JweNotSupported "Unsupported JWE Key Management Algorithm")).

(** unnamed/part_002, ecdhesDriveDecryptionKey.ts *)
Definition ecdhesDeriveDecryptionKey (enc : string) (curve : EcdhCurve)
    (myPrivateKey : bytes) (protectedHeader : JsValue) : M bytes :=
  epk ⇐ lift (validateJweEpk (get protectedHeader "epk"));
  yourPublicKey ⇐ call (EvToRawPublicKey epk) (toRawPublicKey curve epk);
  apu ⇐ lift (decodeOptionalBase64Url (get protectedHeader "apu") "apu (Agreement PartyUInfo)");
  apv ⇐ lift (decodeOptionalBase64Url (get protectedHeader "apv") "apv (Agreement PartyVInfo)");
  _ ⇐ lift (match apu with Some apu => validateJweApu (JBytes apu) | None => Ok None end);
  _ ⇐ lift (match apv with Some apv => validateJweApv (JBytes apv) | None => Ok None end);
  enc ⇐ lift (validateJweEnc (JStr enc));
  keyBitLength ⇐ lift (cekBitLengthByEnc enc);
  sharedSecret ⇐ call (EvGetSharedSecret myPrivateKey yourPublicKey)
                   (getSharedSecret curve myPrivateKey yourPublicKey);
  otherInfo ⇐ lift (buildKdfOtherInfo enc apu apv keyBitLength);
  ([EvConcatKdf sharedSecret keyBitLength otherInfo],
   concatKdf (sha256 Pf) sharedSecret (inject_Z keyBitLength) otherInfo).

(** src/jwe/key-management/deriveDecryptionKey.ts *)
Definition deriveDecryptionKey (alg enc : string) (curve : EcdhCurve)
    (myPrivateKey : bytes) (encryptedKey : option bytes) (protectedHeader : JsValue)
    : M bytes :=
  if String.eqb alg "ECDH-ES" then
    ecdhesDeriveDecryptionKey enc curve myPrivateKey protectedHeader
  else lift (Throw (JweNotSupported "Unsupported JWE key management algorithm")).

(** ** Timing mitigation (RFC 7516 section 11.5) *)

(** unnamed/part_027, sleep.ts *)
Definition sleep (ms : Q) : M unit := ([EvSleep ms], Ok ()).

(** src/jwe/key-management/generateMitigatedCek.ts *)
Definition generateMitigatedCek (curve : EcdhCurve) (enc : string) : M bytes :=
  r ⇐ ([EvMathRandom], Ok (Math_random Pf));
  _ ⇐ sleep (200 + r * 300)%Q;
  cekBitLength ⇐ lift (cekBitLengthByEnc enc);
  ([EvRandomBytes (js_shr cekBitLength 3)], Ok (randomBytes curve (js_shr cekBitLength 3))).

(** unnamed/part_005, deriveDecryptionKeyWithMitigation.ts *)
Definition deriveDecryptionKeyWithMitigation (alg enc : string) (curve : EcdhCurve)
    (myPrivateKey : bytes) (encryptedKey : option bytes) (protectedHeader : JsValue)
    : M bytes :=
  try_catch (deriveDecryptionKey alg enc curve myPrivateKey encryptedKey protectedHeader)
    (λ _, generateMitigatedCek curve enc).

(** ** JWE flattened encryption (src/jwe/flattened/FlattenedEncrypter.ts) *)

(** The private fields of a [FlattenedEncrypter]; an unset field is [undefined]. *)
Record FlattenedEncrypter : Type := {
  fe_aes : AesCipher;
  fe_protectedHeader : JsValue;
  fe_sharedUnprotectedHeader : JsValue;
  fe_unprotectedHeader : JsValue;
  fe_aad : option bytes;
  fe_keyManagementParameters : JsValue
}.

Definition newFlattenedEncrypter (aes : AesCipher) : FlattenedEncrypter :=
  {| fe_aes := aes;
     fe_protectedHeader := JUndefined;
     fe_sharedUnprotectedHeader := JUndefined;
     fe_unprotectedHeader := JUndefined;
     fe_aad := None;
     fe_keyManagementParameters := JUndefined |}.

Definition with_protectedHeader (this : FlattenedEncrypter) (h : JsValue) : FlattenedEncrypter :=
  {| fe_aes := fe_aes this;
     fe_protectedHeader := h;
     fe_sharedUnprotectedHeader := fe_sharedUnprotectedHeader this;
     fe_unprotectedHeader := fe_unprotectedHeader this;
     fe_aad := fe_aad this;
     fe_keyManagementParameters := fe_keyManagementParameters this |}.

Definition fe_set_keyManagementParameters (this : FlattenedEncrypter) (parameters : JsValue)
    : result FlattenedEncrypter :=
  if truthy (fe_keyManagementParameters this) then
    Throw (JweInvalid "keyManagementParameters can only be called once")
  else Ok {| fe_aes := fe_aes this;
             fe_protectedHeader := fe_protectedHeader this;
             fe_sharedUnprotectedHeader := fe_sharedUnprotectedHeader this;
             fe_unprotectedHeader := fe_unprotectedHeader this;
             fe_aad := fe_aad this;
             fe_keyManagementParameters := parameters |}.

Definition fe_set_protectedHeader (this : FlattenedEncrypter) (protectedHeader : JsValue)
    : result FlattenedEncrypter :=
  if truthy (fe_protectedHeader this) then
    Throw (JweInvalid "protectedHeader can only be called once")
  else Ok (with_protectedHeader this protectedHeader).

Definition fe_set_sharedUnprotectedHeader (this : FlattenedEncrypter) (h : JsValue)
    : result FlattenedEncrypter :=
  if truthy (fe_sharedUnprotectedHeader this) then
    Throw (JweInvalid "sharedUnprotectedHeader can only be called once")
  else Ok {| fe_aes := fe_aes this;
             fe_protectedHeader := fe_protectedHeader this;
             fe_sharedUnprotectedHeader := h;
             fe_unprotectedHeader := fe_unprotectedHeader this;
             fe_aad := fe_aad this;
             fe_keyManagementParameters := fe_keyManagementParameters this |}.

Definition fe_set_unprotectedHeader (this : FlattenedEncrypter) (h : JsValue)
    : result FlattenedEncrypter :=
  if truthy (fe_unprotectedHeader this) then
    Throw (JweInvalid "unprotectedHeader can only be called once")
  else Ok {| fe_aes := fe_aes this;
             fe_protectedHeader := fe_protectedHeader this;
             fe_sharedUnprotectedHeader := fe_sharedUnprotectedHeader this;
             fe_unprotectedHeader := h;
             fe_aad := fe_aad this;
             fe_keyManagementParameters := fe_keyManagementParameters this |}.

Definition fe_additionalAuthenticatedData (this : FlattenedEncrypter) (aad : bytes)
    : FlattenedEncrypter :=
  {| fe_aes := fe_aes this;
     fe_protectedHeader := fe_protectedHeader this;
     fe_sharedUnprotectedHeader := fe_sharedUnprotectedHeader this;
     fe_unprotectedHeader := fe_unprotectedHeader this;
     fe_aad := Some aad;
     fe_keyManagementParameters := fe_keyManagementParameters this |}.

(** [updateProtectedHeader]: [{ ...this.#protectedHeader, ...parameters }]. *)
Definition updateProtectedHeader (this : FlattenedEncrypter) (parameters : JsValue)
    : result FlattenedEncrypter :=
  if truthy parameters then
    if negb (truthy (fe_protectedHeader this)) then
      fe_set_protectedHeader this parameters
    else
      Ok (with_protectedHeader this (JObj (spread2 (fe_protectedHeader this) parameters)))
  else Ok this.

(** The assembled flattened JWE. *)
Definition assemble_jwe (this : FlattenedEncrypter) (ciphertext iv tag : bytes)
    (protectedHeaderB64U : string) (encryptedKey : option bytes) (aadB64U : option string)
    : Header :=
  let jwe : Header :=
    {[ "ciphertext" := JStr (encodeBase64Url ciphertext);
       "iv" := JStr (encodeBase64Url iv);
       "tag" := JStr (encodeBase64Url tag);
       "protected" := JStr protectedHeaderB64U ]} in
  let jwe :=
    match encryptedKey with
    | Some k => <[ "encrypted_key" := JStr (encodeBase64Url k) ]> jwe
    | None => jwe
    end in
  let jwe :=
    match fe_aad this with
    | Some _ => <[ "aad" := from_option JStr JUndefined aadB64U ]> jwe
    | None => jwe
    end in
  let jwe :=
    if truthy (fe_sharedUnprotectedHeader this)
    then <[ "unprotected" := fe_sharedUnprotectedHeader this ]> jwe else jwe in
  if truthy (fe_unprotectedHeader this)
  then <[ "header" := fe_unprotectedHeader this ]> jwe else jwe.

(** The [try] block of [encrypt].  Returns the encrypter with its
    protected header updated, and the flattened JWE. *)
Definition encrypt_try (this : FlattenedEncrypter) (plaintext : bytes)
    (yourJwkPublicKey : JsValue) (options : Options) : M (FlattenedEncrypter * JsValue) :=
  ecdhCurve ⇐ call (EvCreateCurve (get yourJwkPublicKey "crv"))
                (createEcdhCurve Pf (get yourJwkPublicKey "crv") (aes_randomBytes (fe_aes this)));
  yourPublicKey ⇐ call (EvToRawPublicKey yourJwkPublicKey)
                    (toRawPublicKey ecdhCurve yourJwkPublicKey);
  joseHeader ⇐ lift (mergeJweHeaders (fe_protectedHeader this)
                       (fe_sharedUnprotectedHeader this) (fe_unprotectedHeader this));
  _ ⇐ lift (validateCrit JweInvalid None (opt_crit options)
              (fe_protectedHeader this) joseHeader);
  alg ⇐ lift (validateJweAlg (get (fe_protectedHeader this) "alg"));
  enc ⇐ lift (validateJweEnc (get (fe_protectedHeader this) "enc"));
  ' (cek, encryptedKey, parameters) ⇐
      deriveEncryptionKey alg enc ecdhCurve yourPublicKey (fe_keyManagementParameters this);
  this' ⇐ lift (updateProtectedHeader this (JObj parameters));
  let protectedHeaderB64U := encodeBase64UrlHeader (fe_protectedHeader this') in
  let aadB64U := encodeBase64Url <$> fe_aad this' in
  let aad := encodeAesAad protectedHeaderB64U aadB64U in
  ' (ciphertext, tag, iv) ⇐
      call (EvAeadEncrypt enc plaintext cek aad)
        (aes_encrypt (fe_aes this) enc plaintext cek aad);
  M_ret (this', JObj (assemble_jwe this' ciphertext iv tag protectedHeaderB64U
                        encryptedKey aadB64U)).

Definition encrypt (this : FlattenedEncrypter) (plaintext yourJwkPublicKey : JsValue)
    (options : Options) : M (FlattenedEncrypter * JsValue) :=
  if negb (truthy plaintext) then
    lift (Throw (JweInvalid "plaintext is missing"))
  else match plaintext with
  | JBytes plaintext =>
      if negb (truthy yourJwkPublicKey) then
        lift (Throw (JweInvalid "yourJwkPublicKey is missing"))
      else if negb (isPlainObject yourJwkPublicKey) then
        lift (Throw (JweInvalid "yourJwkPublicKey must be a plain object"))
      else if negb (truthy (get yourJwkPublicKey "crv")) then
        lift (Throw (JweInvalid "yourJwkPublicKey.crv is missing"))
      else
        try_catch (encrypt_try this plaintext yourJwkPublicKey options)
          (λ _, lift (Throw (JweInvalid "Failed to encrypt plaintext")))
  | _ => lift (Throw (JweInvalid "plaintext must be a Uint8Array"))
  end.

(** ** JWE flattened decryption *)

Record ValidatedJwe : Type := {
  vj_iv : bytes;
  vj_ciphertext : bytes;
  vj_tag : bytes;
  vj_encryptedKey : option bytes;
  vj_aad : option bytes;
  vj_joseHeader : Header;
  vj_parsedProtected : JsValue
}.

(** src/jwe/flattened/utils/validateFlattenedJwe.ts *)
Definition validateFlattenedJwe (jwe : JsValue) : result ValidatedJwe :=
  if is_nullish jwe then Throw (JweInvalid "Flattened JWE is missing")
  else if negb (isPlainObject jwe) then Throw (JweInvalid "Flattened JWE must be a plain object")
  else
    iv ← decodeRequiredBase64Url (get jwe "iv") "JWE Initialization Vector";
    ciphertext ← decodeRequiredBase64Url (get jwe "ciphertext") "JWE Ciphertext";
    tag ← decodeRequiredBase64Url (get jwe "tag") "JWE Authentication Tag";
    encryptedKey ← decodeOptionalBase64Url (get jwe "encrypted_key") "JWE Encrypted Key";
    aad ← decodeOptionalBase64Url (get jwe "aad") "JWE Additional Authenticated Data";
    if negb (is_undefined (get jwe "header")) && negb (isPlainObject (get jwe "header")) then
      Throw (JweInvalid "JWE Per-Recipient Unprotected Header is invalid")
    else if negb (is_undefined (get jwe "unprotected"))
            && negb (isPlainObject (get jwe "unprotected")) then
      Throw (JweInvalid "JWE Shared Unprotected Header is invalid")
    else
      parsedProtected ← parseBase64UrlHeader (get jwe "protected") "JWE Protected Header";
      joseHeader ← mergeJweHeaders parsedProtected (get jwe "unprotected") (get jwe "header");
      Ok {| vj_iv := iv; vj_ciphertext := ciphertext; vj_tag := tag;
            vj_encryptedKey := encryptedKey; vj_aad := aad;
            vj_joseHeader := joseHeader; vj_parsedProtected := parsedProtected |}.

(** A value typed [string | undefined], as an optional string. *)
Definition optional_string (v : JsValue) : option string :=
  match v with JStr s => Some s | _ => None end.

(** The result object of [decrypt]. *)
Definition assemble_decrypt_result (jwe : JsValue) (plaintext : bytes) (v : ValidatedJwe)
    : Header :=
  let result : Header :=
    {[ "plaintext" := JBytes plaintext; "protectedHeader" := vj_parsedProtected v ]} in
  let result :=
    if negb (is_undefined (get jwe "aad"))
    then <[ "additionalAuthenticatedData" := from_option JBytes JUndefined (vj_aad v) ]> result
    else result in
  let result :=
    if negb (is_undefined (get jwe "unprotected"))
    then <[ "sharedUnprotectedHeader" := get jwe "unprotected" ]> result else result in
  if negb (is_undefined (get jwe "header"))
  then <[ "unprotectedHeader" := get jwe "header" ]> result else result.

(** The [try] block of [FlattenedDecrypter.decrypt]. *)
Definition decrypt_try (aes : AesCipher) (jwe myJwkPrivateKey : JsValue) (options : Options)
    : M JsValue :=
  ecdhCurve ⇐ call (EvCreateCurve (get myJwkPrivateKey "crv"))
                (createEcdhCurve Pf (get myJwkPrivateKey "crv") (aes_randomBytes aes));
  myPrivateKey ⇐ call (EvToRawPrivateKey myJwkPrivateKey)
                   (toRawPrivateKey ecdhCurve myJwkPrivateKey);
  v ⇐ lift (validateFlattenedJwe jwe);
  _ ⇐ lift (validateCrit JweInvalid None (opt_crit options)
              (vj_parsedProtected v) (vj_joseHeader v));
  alg ⇐ lift (validateJweAlg (prop (vj_joseHeader v) "alg"));
  enc ⇐ lift (validateJweEnc (prop (vj_joseHeader v) "enc"));
  _ ⇐ lift (checkJweAlgAllowed alg (opt_keyManagementAlgorithms options));
  _ ⇐ lift (checkJweEncAllowed enc (opt_contentEncryptionAlgorithms options));
  cek ⇐ deriveDecryptionKeyWithMitigation alg enc ecdhCurve myPrivateKey
          (vj_encryptedKey v) (vj_parsedProtected v);
  let aesAad := encodeAesAad (default "" (optional_string (get jwe "protected")))
                  (optional_string (get jwe "aad")) in
  plaintext ⇐ call (EvAeadDecrypt enc cek (vj_ciphertext v) (vj_iv v) (vj_tag v) aesAad)
                (aes_decrypt aes enc cek (vj_ciphertext v) (vj_iv v) (vj_tag v) aesAad);
  M_ret (JObj (assemble_decrypt_result jwe plaintext v)).

(** src/jwe/flattened/FlattenedDecrypter.ts *)
Definition decrypt (aes : AesCipher) (jwe myJwkPrivateKey : JsValue) (options : Options)
    : M JsValue :=
  if negb (truthy jwe) then
    lift (Throw (JweInvalid "Flattened JWE is missing"))
  else if negb (isPlainObject jwe) then
    lift (Throw (JweInvalid "Flattened JWE must be a plain object"))
  else if negb (truthy myJwkPrivateKey) then
    lift (Throw (JweInvalid "myJwkPrivateKey is missing"))
  else if negb (isPlainObject myJwkPrivateKey) then
    lift (Throw (JweInvalid "myJwkPrivateKey must be a plain object"))
  else if negb (truthy (get myJwkPrivateKey "crv")) then
    lift (Throw (JweInvalid "myJwkPrivateKey.crv is missing"))
  else
    try_catch (decrypt_try aes jwe myJwkPrivateKey options)
      (λ _, lift (Throw (JweInvalid "Failed to decrypt JWE"))).

(** ** JWS flattened signing and verification *)

(** src/jws/utils/isJwsAlg.ts with src/jws/constants/index.ts *)
Definition JWS_ALGS : list string := ["ES256"; "ES384"; "ES512"; "ES256K"; "EdDSA"].

Definition isJwsAlg (alg : string) : bool := bool_decide (alg ∈ JWS_ALGS).

(** src/jws/utils/validateJwsAlg.ts *)
Definition validateJwsAlg (alg : JsValue) (expectedAlg : string) : result string :=
  if is_nullish alg then Throw (JwsInvalid (quoted "alg" +:+ " (Algorithm) is missing"))
  else match alg with
       | JStr "" => Throw (JwsInvalid (quoted "alg" +:+ " (Algorithm) is empty"))
       | JStr s =>
           if negb (isJwsAlg s) then
             Throw (JwsNotSupported ("The specified " +:+ quoted "alg"
                                     +:+ " (Algorithm) is not supported"))
           else if negb (String.eqb s expectedAlg) then
             Throw (JwsInvalid (quoted "alg" +:+ " (Algorithm) does not match JWK parameters"))
           else Ok s
       | _ => Throw (JwsInvalid (quoted "alg" +:+ " (Algorithm) must be a string"))
       end.

(** unnamed/part_029, parseB64.ts *)
Definition parseB64 (b64 : JsValue) (criticalParamNames : gset string) : result bool :=
  if bool_decide ("b64" ∈ criticalParamNames) then
    let b64 := if is_nullish b64 then JBool true else b64 in
    match b64 with
    | JBool b => Ok b
    | _ => Throw (JwsInvalid ("The " +:+ quoted "b64"
                              +:+ " (base64url-encode payload) Header Parameter must be a boolean"))
    end
  else Ok true.

(** src/jws/flattened/utils/encodeSignTarget.ts.  Returns [signTarget],
    [protectedHeaderB64U] and [payloadB64U]. *)
Definition encodeSignTarget (protectedHeader : JsValue) (payload : bytes) (b64 : bool)
    : bytes * string * string :=
  let protectedHeaderB64U := encodeBase64UrlHeader protectedHeader in
  if b64 then
    let payloadB64U := encodeBase64Url payload in
    (utf8 (protectedHeaderB64U +:+ "." +:+ payloadB64U), protectedHeaderB64U, payloadB64U)
  else
    (utf8 (protectedHeaderB64U +:+ ".") ++ payload, protectedHeaderB64U, "").

(** unnamed/part_031, encodeVerifyTarget.ts.  Returns [verifyTarget] and
    the decoded [payload]. *)
Definition encodeVerifyTarget (protectedHeaderB64U : string) (payload : JsValue) (b64 : bool)
    : result (bytes * bytes) :=
  if b64 then
    match payload with
    | JStr payloadB64U =>
        decoded ← of_provider (decodeB64U Pf payloadB64U);
        Ok (utf8 (protectedHeaderB64U +:+ "." +:+ payloadB64U), decoded)
    | _ => Throw (PlainError "Payload must be a string when b64=true")
    end
  else
    match payload with
    | JBytes payloadU8A => Ok (utf8 (protectedHeaderB64U +:+ ".") ++ payloadU8A, payloadU8A)
    | _ => Throw (PlainError "Payload must be a Uint8Array when b64=false")
    end.

(** unnamed/part_030, validateFlattenedJws.ts.  Returns [signature],
    [joseHeader] and [parsedProtected]. *)
Definition validateFlattenedJws (jws : JsValue) : result (bytes * Header * JsValue) :=
  if is_nullish jws then Throw (JwsInvalid "Flattened JWS is missing")
  else if negb (isPlainObject jws) then Throw (JwsInvalid "Flattened JWS must be a plain object")
  else
    signature ← decodeRequiredBase64Url (get jws "signature") "JWS Signature";
    if negb (is_undefined (get jws "header")) && negb (isPlainObject (get jws "header")) then
      Throw (JwsInvalid "JWS Unprotected Header is invalid")
    else
      parsedProtected ← parseBase64UrlHeader (get jws "protected") "JWS Protected Header";
      joseHeader ← mergeJwsHeaders parsedProtected (get jws "header");
      if is_nullish (get jws "payload") then Throw (JwsInvalid "JWS Payload is missing")
      else match get jws "payload" with
           | JStr _ | JBytes _ => Ok (signature, joseHeader, parsedProtected)
           | _ => Throw (JwsInvalid "JWS Payload must be a string or Uint8Array")
           end.

(** The private fields of a [FlattenedSigner] (unnamed/part_033). *)
Record FlattenedSigner : Type := {
  fs_randomBytes : Z → bytes;
  fs_protectedHeader : JsValue;
  fs_unprotectedHeader : JsValue
}.

Definition newFlattenedSigner (randomBytes : Z → bytes) : FlattenedSigner :=
  {| fs_randomBytes := randomBytes;
     fs_protectedHeader := JUndefined;
     fs_unprotectedHeader := JUndefined |}.

Definition fs_set_protectedHeader (this : FlattenedSigner) (h : JsValue)
    : result FlattenedSigner :=
  if truthy (fs_protectedHeader this) then
    Throw (JwsInvalid "protectedHeader can only be called once")
  else Ok {| fs_randomBytes := fs_randomBytes this;
             fs_protectedHeader := h;
             fs_unprotectedHeader := fs_unprotectedHeader this |}.

Definition fs_set_unprotectedHeader (this : FlattenedSigner) (h : JsValue)
    : result FlattenedSigner :=
  if truthy (fs_unprotectedHeader this) then
    Throw (JwsInvalid "unprotectedHeader can only be called once")
  else Ok {| fs_randomBytes := fs_randomBytes this;
             fs_protectedHeader := fs_protectedHeader this;
             fs_unprotectedHeader := h |}.

(** The [crit] step of [sign]: note the JWE-flavoured error class. *)
Definition sign_validateCrit (this : FlattenedSigner) (options : Options)
    (joseHeader : Header) : result (gset string) :=
  validateCrit JweInvalid (Some {[ "b64" := true ]}) (opt_crit options)
    (fs_protectedHeader this) joseHeader.

(** The [try] block of [FlattenedSigner.sign]. *)
Definition sign_try (this : FlattenedSigner) (payload : bytes) (jwkPrivateKey : JsValue)
    (options : Options) : M JsValue :=
  signatureCurve ⇐ call (EvCreateCurve (get jwkPrivateKey "crv"))
                     (createSignatureCurve Pf (get jwkPrivateKey "crv") (fs_randomBytes this));
  privateKey ⇐ call (EvToRawPrivateKey jwkPrivateKey)
                 (sig_toRawPrivateKey signatureCurve jwkPrivateKey);
  joseHeader ⇐ lift (mergeJwsHeaders (fs_protectedHeader this) (fs_unprotectedHeader this));
  criticalParamNames ⇐ lift (sign_validateCrit this options joseHeader);
  b64 ⇐ lift (parseB64 (get (fs_protectedHeader this) "b64") criticalParamNames);
  _ ⇐ lift (validateJwsAlg (get (fs_protectedHeader this) "alg")
              (signatureAlgorithmName signatureCurve));
  let '(signTarget, protectedHeaderB64U, payloadB64U) :=
    encodeSignTarget (fs_protectedHeader this) payload b64 in
  signature ⇐ call (EvSign privateKey signTarget)
                (sig_sign signatureCurve privateKey signTarget);
  let jws : Header :=
    {[ "signature" := JStr (encodeBase64Url signature);
       "protected" := JStr protectedHeaderB64U;
       "payload" := JStr payloadB64U ]} in
  let jws :=
    if truthy (fs_unprotectedHeader this)
    then <[ "header" := fs_unprotectedHeader this ]> jws else jws in
  M_ret (JObj jws).

Definition sign (this : FlattenedSigner) (payload jwkPrivateKey : JsValue) (options : Options)
    : M JsValue :=
  if is_nullish payload then lift (Throw (JwsInvalid "payload is missing"))
  else match payload with
  | JBytes payload =>
      if is_nullish jwkPrivateKey then
        lift (Throw (JwsInvalid "jwkPrivateKey is missing"))
      else if negb (isPlainObject jwkPrivateKey) then
        lift (Throw (JwsInvalid "jwkPrivateKey must be a plain object"))
      else if negb (truthy (get jwkPrivateKey "crv")) then
        lift (Throw (JwsInvalid "jwkPrivateKey.crv is missing"))
      else
        try_catch (sign_try this payload jwkPrivateKey options)
          (λ _, lift (Throw (JwsInvalid "Failed to sign payload")))
  | _ => lift (Throw (JwsInvalid "payload must be a Uint8Array"))
  end.

(** What the [try] block of [FlattenedVerifier.verify] computes before it
    calls the signature primitive. *)
Record VerifyInput : Type := {
  vi_curve : SignatureCurve;
  vi_publicKey : bytes;
  vi_verifyTarget : bytes;
  vi_signature : bytes;
  vi_payload : bytes;
  vi_parsedProtected : JsValue
}.

Definition verify_prepare (randomBytes : Z → bytes) (jws jwkPublicKey : JsValue)
    (options : Options) : M VerifyInput :=
  signatureCurve ⇐ call (EvCreateCurve (get jwkPublicKey "crv"))
                     (createSignatureCurve Pf (get jwkPublicKey "crv") randomBytes);
  publicKey ⇐ call (EvToRawPublicKey jwkPublicKey)
                (sig_toRawPublicKey signatureCurve jwkPublicKey);
  ' (signature, joseHeader, parsedProtected) ⇐ lift (validateFlattenedJws jws);
  criticalParamNames ⇐
    lift (validateCrit JwsInvalid (Some {[ "b64" := true ]}) (opt_crit options)
            parsedProtected joseHeader);
  b64 ⇐ lift (parseB64 (get parsedProtected "b64") criticalParamNames);
  _ ⇐ lift (validateJwsAlg (get parsedProtected "alg")
              (signatureAlgorithmName signatureCurve));
  ' (verifyTarget, payload) ⇐
      lift (encodeVerifyTarget (default "" (optional_string (get jws "protected")))
              (get jws "payload") b64);
  M_ret {| vi_curve := signatureCurve; vi_publicKey := publicKey;
           vi_verifyTarget := verifyTarget; vi_signature := signature;
           vi_payload := payload; vi_parsedProtected := parsedProtected |}.

(** The call of the signature primitive. *)
Definition verify_primitive (i : VerifyInput) : M bool :=
  call (EvVerify (vi_publicKey i) (vi_verifyTarget i) (vi_signature i))
    (sig_verify (vi_curve i) (vi_publicKey i) (vi_verifyTarget i) (vi_signature i)).

(** The [try] block of [verify]. *)
Definition verify_try (randomBytes : Z → bytes) (jws jwkPublicKey : JsValue)
    (options : Options) : M JsValue :=
  i ⇐ verify_prepare randomBytes jws jwkPublicKey options;
  verified ⇐ verify_primitive i;
  if negb verified then lift (Throw JwsSignatureVerificationFailed)
  else
    let result : Header := {[ "payload" := JBytes (vi_payload i) ]} in
    let result :=
      if negb (is_undefined (get jws "protected"))
      then <[ "protectedHeader" := vi_parsedProtected i ]> result else result in
    let result :=
      if negb (is_undefined (get jws "header"))
      then <[ "unprotectedHeader" := get jws "header" ]> result else result in
    M_ret (JObj result).

(** src/jws/flattened/FlattenedVerifier.ts; [randomBytes] is the private
    field of the verifier. *)
Definition verify (randomBytes : Z → bytes) (jws jwkPublicKey : JsValue) (options : Options)
    : M JsValue :=
  if is_nullish jws then lift (Throw (JwsInvalid "Flattened JWS is missing"))
  else if negb (isPlainObject jws) then
    lift (Throw (JwsInvalid "Flattened JWS must be a plain object"))
  else if is_nullish jwkPublicKey then
    lift (Throw (JwsInvalid "jwkPublicKey is missing"))
  else if negb (isPlainObject jwkPublicKey) then
    lift (Throw (JwsInvalid "jwkPublicKey must be a plain object"))
  else if negb (truthy (get jwkPublicKey "crv")) then
    lift (Throw (JwsInvalid "jwkPublicKey.crv is missing"))
  else
    try_catch (verify_try randomBytes jws jwkPublicKey options)
      (λ error,
         if is_signature_verification_failed error then lift (Throw error)
         else lift (Throw (JwsInvalid "Failed to verify JWS signature"))).
End Pipelines.

(** ** Compact serialization *)

(** [s.split(sep)] for a one-character separator: the substrings between
    the occurrences of the separator; never the empty array. *)
Fixpoint split_on (sep : ascii) (s : string) : list string :=
  match s with
  | EmptyString => [""]
  | String c s' =>
      if Ascii.eqb c sep then "" :: split_on sep s'
      else match split_on sep s' with
           | part :: rest => String c part :: rest
           | [] => [String c ""]
           end
  end.

Definition split_dot (s : string) : list string := split_on "."%char s.

(** [parts.join('.')] on an array of strings. *)
Fixpoint join_dot (parts : list string) : string :=
  match parts with
  | [] => ""
  | [part] => part
  | part :: rest => part +:+ "." +:+ join_dot rest
  end.

(** The white space and line terminators removed by [String.prototype.trim],
    as UTF-8 code units: U+0009 to U+000D and U+0020; U+00A0; and the
    three-byte U+1680, U+2000 to U+200A, U+2028, U+2029, U+202F, U+205F,
    U+3000 and U+FEFF. *)
Definition is_space1 (a : Z) : bool := (9 <=? a) && (a <=? 13) || (a =? 32).

Definition is_space2 (a b : Z) : bool := (a =? 194) && (b =? 160).

Definition is_space3 (a b c : Z) : bool :=
  (a =? 225) && (b =? 154) && (c =? 128)
  || (a =? 226) && (b =? 128)
     && ((128 <=? c) && (c <=? 138) || (c =? 168) || (c =? 169) || (c =? 175))
  || (a =? 226) && (b =? 129) && (c =? 159)
  || (a =? 227) && (b =? 128) && (c =? 128)
  || (a =? 239) && (b =? 187) && (c =? 191).

Fixpoint all_space (units : list Z) : bool :=
  match units with
  | [] => true
  | a :: rest1 =>
      if is_space1 a then all_space rest1
      else match rest1 with
           | [] => false
           | b :: rest2 =>
               if is_space2 a b then all_space rest2
               else match rest2 with
                    | [] => false
                    | c :: rest3 => if is_space3 a b c then all_space rest3 else false
                    end
           end
  end.

(** [s.trim() === ''] *)
Definition trim_is_empty (s : string) : bool := all_space (Z_of_byte <$> utf8 s).

(** A member of a flattened JWE or JWS that is a string, or absent and
    read as the empty string.  The serializations built by [encrypt] and
    [sign] hold strings in the members read this way. *)
Definition string_member (o : JsValue) (name : string) : string :=
  default "" (optional_string (get o name)).

Section Compact.
Context (Pf : Platform).

(** unnamed/part_020, CompactEncrypter.ts.  The only field of a
    [CompactEncrypter] is its [FlattenedEncrypter]; [protectedHeader] and
    [keyManagementParameters] are the setters of that object. *)
Definition compact_encrypt (this : FlattenedEncrypter) (plaintext jwkPublicKey : JsValue)
    (options : Options) : M (FlattenedEncrypter * string) :=
  ' (this', flattenedJwe) ⇐ encrypt Pf this plaintext jwkPublicKey options;
  let encrypted_key :=
    if truthy (get flattenedJwe "encrypted_key")
    then string_member flattenedJwe "encrypted_key" else "" in
  M_ret (this', join_dot [ string_member flattenedJwe "protected";
                           encrypted_key;
                           string_member flattenedJwe "iv";
                           string_member flattenedJwe "ciphertext";
                           string_member flattenedJwe "tag" ]).

(** unnamed/part_016, CompactDecrypter.ts *)
Definition compact_decrypt (aes : AesCipher) (compactJwe myJwkPrivateKey : JsValue)
    (options : Options) : M JsValue :=
  match compactJwe with
  | JStr compactJwe =>
      match split_dot compactJwe with
      | [protectedHeader; encrypted_key; iv; ciphertext; tag] =>
          if negb (truthy (JStr protectedHeader)) then
            lift (Throw (JweInvalid "Invalid Compact JWE: protected header is missing"))
          else if negb (truthy (JStr iv)) then
            lift (Throw (JweInvalid "Invalid Compact JWE: iv is missing"))
          else if negb (truthy (JStr ciphertext)) then
            lift (Throw (JweInvalid "Invalid Compact JWE: ciphertext is missing"))
          else if negb (truthy (JStr tag)) then
            lift (Throw (JweInvalid "Invalid Compact JWE: tag is missing"))
          else
            let jwe : Header :=
              {[ "protected" := JStr protectedHeader;
                 "encrypted_key" := JStr encrypted_key;
                 "iv" := JStr iv;
                 "ciphertext" := JStr ciphertext;
                 "tag" := JStr tag ]} in
            decrypted ⇐ decrypt Pf aes (JObj jwe) myJwkPrivateKey options;
            M_ret (JObj {[ "plaintext" := get decrypted "plaintext";
                           "protectedHeader" := get decrypted "protectedHeader" ]})
      | _ => lift (Throw (JweInvalid "Invalid Compact JWE: must have 5 parts"))
      end
  | _ => lift (Throw (JweInvalid "Compact JWE must be a string"))
  end.

(** src/jws/compact/CompactSigner.ts.  The only field of a [CompactSigner]
    is its [FlattenedSigner]. *)
Definition compact_sign (this : FlattenedSigner) (payload jwkPrivateKey : JsValue)
    (options : Options) : M string :=
  jws ⇐ sign Pf this payload jwkPrivateKey options;
  parsedProtected ⇐ lift (parseBase64UrlHeader Pf (get jws "protected") "JWS Protected Header");
  if negb (truthy (get jws "payload"))
     && match get parsedProtected "b64" with JBool false => true | _ => false end
  then lift (Throw (JwsInvalid "use the flattened module for creating JWS with b64: false"))
  else M_ret (string_member jws "protected" +:+ "." +:+ string_member jws "payload"
              +:+ "." +:+ string_member jws "signature").

(** src/jws/compact/CompactVerifier.ts *)
Definition compact_verify (randomBytes : Z → bytes) (jws jwkPublicKey : JsValue)
    (options : Options) : M JsValue :=
  if is_nullish jws then lift (Throw (JwsInvalid "Compact JWS is missing"))
  else match jws with
  | JStr jws =>
      if trim_is_empty jws then lift (Throw (JwsInvalid "Compact JWS cannot be empty"))
      else match split_dot jws with
      | [protectedHeader; payload; signature] =>
          verified ⇐ verify Pf randomBytes
                       (JObj {[ "payload" := JStr payload;
                                "protected" := JStr protectedHeader;
                                "signature" := JStr signature ]})
                       jwkPublicKey options;
          M_ret (JObj {[ "payload" := get verified "payload";
                         "protectedHeader" := get verified "protectedHeader" ]})
      | _ => lift (Throw (JwsInvalid "Compact JWS must have 3 parts"))
      end
  | _ => lift (Throw (JwsInvalid "Compact JWS must be a string"))
  end.
End Compact.

(** * Definitions used to state the properties *)

(** One hash block of the key-derivation stream: SHA-256(u32be(i) || Z || OtherInfo). *)
Definition kdf_block (sha256 : bytes → bytes) (Z0 otherInfo : bytes) (i : nat) : bytes :=
  sha256 (toUint32BE (Z.of_nat i) ++ Z0 ++ otherInfo).

(** The derived keying material as the specification words it: the first
    [keyBitLength / 8] bytes of the blocks numbered 1 .. ceil((keyBitLength/8)/32). *)
Definition concatKdf_reference (sha256 : bytes → bytes) (Z0 : bytes) (keyBitLength : Z)
    (otherInfo : bytes) : bytes :=
  take (Z.to_nat (keyBitLength / 8))
    (mjoin (kdf_block sha256 Z0 otherInfo <$>
              seq 1 (Z.to_nat (ceil_div (keyBitLength / 8) 32)))).

(** A stand-in hash with 32-byte output, for running the model. *)
Definition constant_hash (b : bytes) : bytes := replicate 32 (byte_of_Z (Z.of_nat (length b))).

(** The OtherInfo layout of RFC 7518 section 4.6.2, as the specification writes it. *)
Definition otherInfo_layout (algorithm : string) (apu apv : bytes) (keyBitLength : Z) : bytes :=
  toUint32BE (Z.of_nat (length (utf8 algorithm))) ++ utf8 algorithm
  ++ toUint32BE (Z.of_nat (length apu)) ++ apu
  ++ toUint32BE (Z.of_nat (length apv)) ++ apv
  ++ toUint32BE keyBitLength.

(** The precedence encoded by [new Map([...default, ...option])]. *)
Definition integrity_flag (recognizedDefault recognizedOption : gmap string bool)
    (name : string) : option bool :=
  match recognizedOption !! name with
  | Some flag => Some flag
  | None => recognizedDefault !! name
  end.

(** A parameter has a value in a header: reading it does not give [undefined]. *)
Definition has_param (h : Header) (name : string) : Prop := prop h name ≠ JUndefined.

(** A non-empty array of non-empty strings. *)
Definition crit_well_formed (crit : JsValue) : Prop :=
  ∃ items, crit = JArr items ∧ items ≠ []
           ∧ ∀ item, item ∈ items → ∃ s, item = JStr s ∧ s ≠ "".

(** The names listed in the protected [crit] (none when it is absent). *)
Definition protected_crit_names (protectedHeader : JsValue) : list string :=
  match get protectedHeader "crit" with
  | JArr items => crit_names items
  | _ => []
  end.

Section CritViolations.
Context (recognizedDefault recognizedOption : gmap string bool).
Context (protectedHeader : JsValue) (joseHeader : Header).

(** [crit] appears in the merged header but not in the protected header. *)
Definition crit_not_protected : Prop :=
  has_param joseHeader "crit" ∧ get protectedHeader "crit" = JUndefined.

(** The protected [crit] is not a non-empty array of non-empty strings. *)
Definition crit_malformed : Prop :=
  get protectedHeader "crit" ≠ JUndefined
  ∧ ¬ crit_well_formed (get protectedHeader "crit").

(** Some listed name is in neither recognized set. *)
Definition crit_name_unrecognized : Prop :=
  ∃ name, name ∈ protected_crit_names protectedHeader
          ∧ recognizedDefault !! name = None ∧ recognizedOption !! name = None.

(** Some listed name is absent from the merged header. *)
Definition crit_name_missing : Prop :=
  ∃ name, name ∈ protected_crit_names protectedHeader ∧ ¬ has_param joseHeader name.

(** Some listed name flagged integrity-protected is missing from, or
    null in, the protected header (what the code tests with [== null]). *)
Definition crit_name_unprotected_or_null : Prop :=
  ∃ name, name ∈ protected_crit_names protectedHeader
          ∧ integrity_flag recognizedDefault recognizedOption name = Some true
          ∧ is_nullish (get protectedHeader name) = true.


(** The five conditions the code implements. *)
Definition crit_violation : Prop :=
  crit_not_protected ∨ crit_malformed
  ∨ (crit_well_formed (get protectedHeader "crit")
     ∧ (crit_name_unrecognized ∨ crit_name_missing ∨ crit_name_unprotected_or_null)).
End CritViolations.

(** What makes one listed name fail in the loop of [validateCrit]. *)
Definition crit_name_bad (recognized : gmap string bool) (protectedHeader joseHeader : Header)
    (name : string) : Prop :=
  recognized !! name = None ∨ prop joseHeader name = JUndefined
  ∨ (recognized !! name = Some true ∧ is_nullish (prop protectedHeader name) = true).




Definition b64_unprotected_header : JsValue :=
  JObj {[ "alg" := JStr "ES256"; "crit" := JArr [JStr "b64"] ]}.

(** Some parameter name occurs in more than one of the three positions. *)
Definition shares_name (protectedHeader sharedUnprotectedHeader unprotectedHeader : JsValue)
    : Prop :=
  ∃ name,
    (name ∈ Object_keys protectedHeader ∧ name ∈ Object_keys sharedUnprotectedHeader)
    ∨ (name ∈ Object_keys protectedHeader ∧ name ∈ Object_keys unprotectedHeader)
    ∨ (name ∈ Object_keys sharedUnprotectedHeader ∧ name ∈ Object_keys unprotectedHeader).

(** The [zip] parameter has a value in some header position. *)
Definition zip_present (protectedHeader sharedUnprotectedHeader unprotectedHeader : JsValue)
    : Prop :=
  get protectedHeader "zip" ≠ JUndefined
  ∨ get sharedUnprotectedHeader "zip" ≠ JUndefined
  ∨ get unprotectedHeader "zip" ≠ JUndefined.

(** Key generation, key agreement, key derivation and AEAD calls. *)
Definition is_cryptographic_work (ev : Event) : bool :=
  match ev with
  | EvRandomPrivateKey | EvGetPublicKey _ | EvToJwkPublicKey _ | EvGetSharedSecret _ _
  | EvConcatKdf _ _ _ | EvAeadEncrypt _ _ _ _ | EvAeadDecrypt _ _ _ _ _ _
  | EvRandomBytes _ | EvSign _ _ | EvVerify _ _ _ => true
  | EvCreateCurve _ | EvToRawPublicKey _ | EvToRawPrivateKey _
  | EvMathRandom | EvSleep _ => false
  end.

(** ** Stand-in providers, for running the model on concrete inputs *)

Definition stub_randomBytes (n : Z) : bytes := replicate (Z.to_nat n) x2a.

Definition stub_jwk : JsValue :=
  JObj {[ "kty" := JStr "EC"; "crv" := JStr "P-256"; "x" := JStr "eA"; "y" := JStr "eQ" ]}.

Definition stub_curve : EcdhCurve :=
  {| curveName := "P-256";
     randomPrivateKey := Returned (replicate 32 x01);
     getPublicKey := λ privateKey, Returned (replicate 65 x04);
     toJwkPublicKey := λ publicKey, Returned stub_jwk;
     toRawPublicKey := λ jwk, Returned (replicate 65 x04);
     toRawPrivateKey := λ jwk, Returned (replicate 32 x02);
     getSharedSecret := λ privateKey publicKey, Returned (replicate 32 x00);
     randomBytes := stub_randomBytes |}.

Definition stub_aes : AesCipher :=
  {| aes_encrypt := λ enc plaintext cek aad,
       Returned (plaintext, replicate 16 x00, replicate 12 x00);
     aes_decrypt := λ enc cek ciphertext iv tag aad, Returned ciphertext;
     aes_randomBytes := stub_randomBytes |}.

(** A signature provider whose [verify] answers [verdict]. *)
Definition stub_signature_curve (verdict : bool) : SignatureCurve :=
  {| signatureAlgorithmName := "ES256";
     sig_toRawPublicKey := λ jwk, Returned (replicate 65 x04);
     sig_toRawPrivateKey := λ jwk, Returned (replicate 32 x02);
     sig_sign := λ privateKey message, Returned (replicate 64 x00);
     sig_verify := λ publicKey message signature, Returned verdict |}.

(** A platform whose JSON parser answers [parsed] and whose signature
    provider answers [verdict]. *)
Definition stub_platform (parsed : JsValue) (verdict : bool) : Platform :=
  {| sha256 := constant_hash;
     decodeB64U := λ s, Returned (utf8 s);
     JSON_stringify := λ v, "{}";
     JSON_parse := λ s, Returned parsed;
     Math_random := 1 # 2;
     createEcdhCurve := λ crv randomBytes, Returned stub_curve;
     createSignatureCurve := λ crv randomBytes, Returned (stub_signature_curve verdict) |}.

Definition ecdh_header : Header :=
  {[ "alg" := JStr "ECDH-ES"; "enc" := JStr "A256GCM" ]}.

Definition hello : bytes := utf8 "Hello, World!".

(** The arguments of [verify] pass the checks made before the [try] block. *)
Definition verify_input_valid (jws jwkPublicKey : JsValue) : Prop :=
  isPlainObject jws = true ∧ isPlainObject jwkPublicKey = true
  ∧ truthy (get jwkPublicKey "crv") = true.

(** An error that is not an instance of [JwsSignatureVerificationFailed]. *)
Definition other_error (e : Exn) : Prop := is_signature_verification_failed e = false.

Definition es256_header : JsValue := JObj {[ "alg" := JStr "ES256" ]}.

Definition stub_jws : JsValue :=
  JObj {[ "protected" := JStr "eyJhbGciOiJFUzI1NiJ9";
          "payload" := JStr "dGVzdA";
          "signature" := JStr "c2ln" ]}.

(** ** Reading back what the encoders write *)

(** The number written by [toUint32BE]. *)
Definition fromUint32BE (b : bytes) : Z :=
  match b with
  | [b0; b1; b2; b3] =>
      Z_of_byte b0 * 2 ^ 24 + Z_of_byte b1 * 2 ^ 16 + Z_of_byte b2 * 2 ^ 8 + Z_of_byte b3
  | _ => 0
  end.

(** Reads one length-prefixed field from the front of [data]: the field
    and what follows it. *)
Definition read_length_prefixed (data : bytes) : option (bytes * bytes) :=
  let n := Z.to_nat (fromUint32BE (take 4 data)) in
  if decide (4 + n ≤ length data)%nat
  then Some (take n (drop 4 data), drop (4 + n) data)
  else None.

(** A reference decoder for unpadded base64url, the inverse of
    [encodeBase64Url]; it instantiates [decodeB64U] when the model is run. *)
Definition b64u_index (c : ascii) : Z :=
  let n := Z.of_N (N_of_ascii c) in
  if (65 <=? n) && (n <=? 90) then n - 65
  else if (97 <=? n) && (n <=? 122) then n - 71
  else if (48 <=? n) && (n <=? 57) then n + 4
  else if n =? 45 then 62
  else 63.

Fixpoint b64u_sextets (s : string) : list Z :=
  match s with
  | EmptyString => []
  | String c s' => b64u_index c :: b64u_sextets s'
  end.

Fixpoint b64u_octets (sextets : list Z) : list Z :=
  match sextets with
  | c0 :: c1 :: c2 :: c3 :: rest =>
      (c0 * 4 + c1 / 16) :: ((c1 mod 16) * 16 + c2 / 4) :: ((c2 mod 4) * 64 + c3)
      :: b64u_octets rest
  | [c0; c1; c2] => [c0 * 4 + c1 / 16; (c1 mod 16) * 16 + c2 / 4]
  | [c0; c1] => [c0 * 4 + c1 / 16]
  | _ => []
  end.

Definition b64u_decode (s : string) : bytes := byte_of_Z <$> b64u_octets (b64u_sextets s).

(** ** Contracts of the external collaborators *)

(** The base64url decoder undoes the encoder. *)
Definition base64url_contract (Pf : Platform) : Prop :=
  ∀ b : bytes, decodeB64U Pf (encodeBase64Url b) = Returned b.

(** A header survives serialization: parsing its JSON text gives it back. *)
Definition json_contract (Pf : Platform) (header : JsValue) : Prop :=
  JSON_parse Pf (JSON_stringify Pf header) = Returned header.

(** The key-agreement parameters [ecdhesDeriveEncryptionKey] returns for an
    ephemeral key and validated party information. *)
Definition ecdhes_parameters (epk : JsValue) (apu apv : option bytes) : Header :=
  let parameters : Header := {[ "epk" := epk ]} in
  let parameters :=
    match apu with
    | Some apu => <[ "apu" := JStr (encodeBase64Url apu) ]> parameters
    | None => parameters
    end in
  match apv with
  | Some apv => <[ "apv" := JStr (encodeBase64Url apv) ]> parameters
  | None => parameters
  end.

(** Diffie-Hellman between a sender who holds [yourPublicKey] and the
    recipient who holds [myPrivateKey]: whatever ephemeral key pair the
    provider draws, its public key is exported as a JWK that
    [validateJweEpk] accepts and that converts back to a raw key, and the
    recipient's shared secret with it is the sender's. *)
Definition ecdh_contract (Pf : Platform) (curve : EcdhCurve)
    (yourPublicKey myPrivateKey : bytes) : Prop :=
  ∀ sk publicKey epk,
    randomPrivateKey curve = Returned sk →
    getPublicKey curve sk = Returned publicKey →
    toJwkPublicKey curve publicKey = Returned epk →
    validateJweEpk Pf epk = Ok epk
    ∧ ∃ raw, toRawPublicKey curve epk = Returned raw
             ∧ getSharedSecret curve myPrivateKey raw = getSharedSecret curve sk yourPublicKey.

(** ** Providers that meet the contracts, for running the model *)

Definition p256_jwk : JsValue :=
  JObj {[ "kty" := JStr "EC"; "crv" := JStr "P-256";
          "x" := JStr (encodeBase64Url (replicate 32 x01));
          "y" := JStr (encodeBase64Url (replicate 32 x02)) ]}.

Definition p256_curve : EcdhCurve :=
  {| curveName := "P-256";
     randomPrivateKey := Returned (replicate 32 x01);
     getPublicKey := λ privateKey, Returned (replicate 65 x04);
     toJwkPublicKey := λ publicKey, Returned p256_jwk;
     toRawPublicKey := λ jwk, Returned (replicate 65 x04);
     toRawPrivateKey := λ jwk, Returned (replicate 32 x02);
     getSharedSecret := λ privateKey publicKey, Returned (replicate 32 x07);
     randomBytes := stub_randomBytes |}.

(** An AEAD whose ciphertext is the plaintext reversed. *)
Definition reversing_aes : AesCipher :=
  {| aes_encrypt := λ enc plaintext cek aad,
       Returned (reverse plaintext, replicate 16 x00, replicate 12 x00);
     aes_decrypt := λ enc cek ciphertext iv tag aad, Returned (reverse ciphertext);
     aes_randomBytes := stub_randomBytes |}.

(** A platform with the reference decoder, whose JSON parser answers [parsed]. *)
Definition codec_platform (parsed : JsValue) : Platform :=
  {| sha256 := constant_hash;
     decodeB64U := λ s, Returned (b64u_decode s);
     JSON_stringify := λ v, "{}";
     JSON_parse := λ s, Returned parsed;
     Math_random := 1 # 2;
     createEcdhCurve := λ crv randomBytes, Returned p256_curve;
     createSignatureCurve := λ crv randomBytes, Returned (stub_signature_curve true) |}.

(** The AEAD decrypts what it encrypted. *)
Definition aead_contract (aes : AesCipher) : Prop :=
  ∀ enc plaintext cek aad ciphertext tag iv,
    aes_encrypt aes enc plaintext cek aad = Returned (ciphertext, tag, iv) →
    aes_decrypt aes enc cek ciphertext iv tag aad = Returned plaintext.

(** [jwkPrivateKey] is the private key of [jwkPublicKey]: both name the
    same curve, and on that curve the provider converts both to raw keys
    for which [ecdh_contract] holds. *)
Definition ecdh_key_pair (Pf : Platform) (randomBytes : Z → bytes)
    (jwkPublicKey jwkPrivateKey : JsValue) : Prop :=
  isPlainObject jwkPrivateKey = true
  ∧ get jwkPrivateKey "crv" = get jwkPublicKey "crv"
  ∧ ∀ curve yourPublicKey,
      createEcdhCurve Pf (get jwkPublicKey "crv") randomBytes = Returned curve →
      toRawPublicKey curve jwkPublicKey = Returned yourPublicKey →
      ∃ myPrivateKey,
        toRawPrivateKey curve jwkPrivateKey = Returned myPrivateKey
        ∧ ecdh_contract Pf curve yourPublicKey myPrivateKey.

(** The names that the key-agreement step writes into the protected header. *)
Definition key_agreement_names : gset string := {[ "epk"; "apu"; "apv" ]}.

Definition p256_private_jwk : JsValue :=
  JObj {[ "kty" := JStr "EC"; "crv" := JStr "P-256";
          "d" := JStr (encodeBase64Url (replicate 32 x02)) ]}.

(** The protected header once the key-agreement step of the stand-in
    curve has added its ephemeral key. *)
Definition ecdh_header_with_epk : Header := <[ "epk" := p256_jwk ]> ecdh_header.

(** [jwkPublicKey] is the public key of [jwkPrivateKey] for the signature
    provider: the curves made for the two keys name the same algorithm,
    both keys convert to raw keys, and a signature made with the private
    key verifies under the public key. *)
Definition signature_key_pair (Pf : Platform) (signerRandomBytes verifierRandomBytes : Z → bytes)
    (jwkPrivateKey jwkPublicKey : JsValue) : Prop :=
  isPlainObject jwkPublicKey = true
  ∧ truthy (get jwkPublicKey "crv") = true
  ∧ ∀ curve privateKey,
      createSignatureCurve Pf (get jwkPrivateKey "crv") signerRandomBytes = Returned curve →
      sig_toRawPrivateKey curve jwkPrivateKey = Returned privateKey →
      ∃ curve' publicKey,
        createSignatureCurve Pf (get jwkPublicKey "crv") verifierRandomBytes = Returned curve'
        ∧ signatureAlgorithmName curve' = signatureAlgorithmName curve
        ∧ sig_toRawPublicKey curve' jwkPublicKey = Returned publicKey
        ∧ ∀ message signature,
            sig_sign curve privateKey message = Returned signature →
            sig_verify curve' publicKey message signature = Returned true.

(** The flattened JWS to hand to [verify]: the one [sign] returned when
    the payload is base64url-encoded in it, and that one with the payload
    put back in place when the payload is detached ([b64] false). *)
Definition with_detached_payload (jws : JsValue) (payload : bytes) (b64 : bool) : JsValue :=
  if b64 then jws else JObj (<[ "payload" := JBytes payload ]> (own_props jws)).

(** A protected header that puts the unencoded-payload option into effect. *)
Definition unencoded_payload_header : JsValue :=
  JObj {[ "alg" := JStr "ES256"; "b64" := JBool false; "crit" := JArr [JStr "b64"] ]}.

(** The members of a flattened JWE that serializes the protected header
    [P], the outputs of the AEAD, the additional authenticated data and
    the unprotected headers, with no encrypted key (absent, or the empty
    string of the compact serialization). *)
Definition jwe_members (Pf : Platform) (jwe P : JsValue) (iv ciphertext tag : bytes)
    (aad : option bytes) (sharedUnprotectedHeader unprotectedHeader : JsValue) : Prop :=
  isPlainObject jwe = true
  ∧ get jwe "protected" = JStr (encodeBase64UrlHeader Pf P)
  ∧ get jwe "iv" = JStr (encodeBase64Url iv)
  ∧ get jwe "ciphertext" = JStr (encodeBase64Url ciphertext)
  ∧ get jwe "tag" = JStr (encodeBase64Url tag)
  ∧ (get jwe "encrypted_key" = JUndefined ∨ get jwe "encrypted_key" = JStr "")
  ∧ get jwe "aad" = from_option (λ a, JStr (encodeBase64Url a)) JUndefined aad
  ∧ get jwe "unprotected"
    = (if truthy sharedUnprotectedHeader then sharedUnprotectedHeader else JUndefined)
  ∧ get jwe "header" = (if truthy unprotectedHeader then unprotectedHeader else JUndefined).

(** ** Dot-separated strings *)

(** No ['.'] occurs in the string. *)
Fixpoint dot_free (s : string) : bool :=
  match s with
  | EmptyString => true
  | String c s' => negb (Ascii.eqb c "."%char) && dot_free s'
  end.

(** The number of ['.'] characters in the string. *)
Fixpoint count_dots (s : string) : nat :=
  match s with
  | EmptyString => 0
  | String c s' => (if Ascii.eqb c "."%char then 1 else 0) + count_dots s'
  end.


(** The ciphertext of the AEAD is as long as the plaintext (AES-GCM). *)
Definition aead_length_preserving (aes : AesCipher) : Prop :=
  ∀ enc plaintext cek aad ciphertext tag iv,
    aes_encrypt aes enc plaintext cek aad = Returned (ciphertext, tag, iv) →
    length ciphertext = length plaintext.



(** A protected header that holds [b64: false] without making it critical. *)
Definition uncritical_b64_header : JsValue :=
  JObj {[ "alg" := JStr "ES256"; "b64" := JBool false ]}.


(** The flattened JWE that [encrypt] makes of [hello] with the stand-in
    providers, additional authenticated data and a per-recipient header. *)
Definition hello_jwe : JsValue :=
  JObj {[ "ciphertext" := JStr (encodeBase64Url (reverse hello));
          "iv" := JStr (encodeBase64Url (replicate 12 x00));
          "tag" := JStr (encodeBase64Url (replicate 16 x00));
          "protected" := JStr "e30";
          "aad" := JStr (encodeBase64Url (utf8 "Alice"));
          "header" := JObj {[ "kid" := JStr "key-1" ]} ]}.

(** The timer of the timing mitigation. *)
Definition is_sleep (ev : Event) : bool :=
  match ev with EvSleep _ => true | _ => false end.

(** A computation that never waits. *)
Definition quiet {A : Type} (m : M A) : Prop := Forall (λ ev, is_sleep ev = false) m.1.

(** The error a traced computation threw. *)
Definition thrown {A : Type} (m : M A) : Exn :=
  match m.2 with Throw e => e | Ok _ => PlainError "nothing was thrown" end.

(** * Properties *)

(** ** Byte-array lemmas *)

Lemma toUint32BE_length n : length (toUint32BE n) = 4%nat.
Proof. reflexivity. Qed.

Lemma u8_alloc_nonneg n : 0 ≤ n → u8_alloc n = Ok (replicate (Z.to_nat n) x00).
Proof. intros Hn. unfold u8_alloc. destruct (Z.ltb_spec n 0); [lia | done]. Qed.

Lemma u8_set_prefix (pre src : bytes) (n : nat) :
  u8_set (pre ++ replicate (length src + n) x00) src (length pre)
  = Ok (pre ++ src ++ replicate n x00).
Proof.
  unfold u8_set. rewrite length_app, length_replicate.
  destruct (decide _) as [_|Hbad]; [|lia].
  rewrite take_app_length, drop_app_add', drop_replicate by done.
  do 4 f_equal. lia.
Qed.

Section ConcatKdfFacts.
Variable sha256 : bytes → bytes.
Hypothesis sha256_length : ∀ b, length (sha256 b) = 32%nat.

Lemma concatKdf_buf_eq (ss oi : bytes) (iter : nat) :
  concatKdf_buf ss oi iter = Ok (toUint32BE (Z.of_nat iter + 1) ++ ss ++ oi).
Proof.
  unfold concatKdf_buf. rewrite u8_alloc_nonneg by lia. cbn [mbind result_bind].
  replace (Z.to_nat (4 + Z.of_nat (length ss) + Z.of_nat (length oi)))
    with (length (toUint32BE (Z.of_nat iter + 1)) + (length ss + length oi))%nat
    by (rewrite toUint32BE_length; lia).
  pose proof (u8_set_prefix [] (toUint32BE (Z.of_nat iter + 1)) (length ss + length oi)) as H0.
  cbn [app length] in H0. rewrite H0. cbn [mbind result_bind].
  pose proof (u8_set_prefix (toUint32BE (Z.of_nat iter + 1)) ss (length oi)) as H1.
  rewrite toUint32BE_length in H1. rewrite H1. cbn [mbind result_bind].
  pose proof (u8_set_prefix (toUint32BE (Z.of_nat iter + 1) ++ ss) oi 0) as H2.
  rewrite length_app, toUint32BE_length, Nat.add_0_r in H2. cbn [replicate] in H2.
  rewrite <- !app_assoc, app_nil_r in H2. exact H2.
Qed.

Lemma concatKdf_round_eq (ss oi res : bytes) (iter : nat) :
  concatKdf_round sha256 ss oi res iter
  = u8_set res (sha256 (toUint32BE (Z.of_nat iter + 1) ++ ss ++ oi)) (iter * 32).
Proof. unfold concatKdf_round. by rewrite concatKdf_buf_eq. Qed.

Lemma concatKdf_loop (ss oi : bytes) (m : nat) : ∀ (j : nat) (pre : bytes),
  length pre = (j * 32)%nat →
  for_each (concatKdf_round sha256 ss oi) (pre ++ replicate (m * 32) x00) (seq j m)
  = Ok (pre ++ mjoin (kdf_block sha256 ss oi <$> seq (S j) m)).
Proof.
  induction m as [|m IH]; intros j pre Hpre.
  - cbn. by rewrite !app_nil_r.
  - cbn [seq for_each fmap list_fmap mjoin list_join].
    rewrite concatKdf_round_eq.
    replace (S m * 32)%nat with (length (sha256 (toUint32BE (Z.of_nat j + 1) ++ ss ++ oi)) + m * 32)%nat
      by (rewrite sha256_length; lia).
    rewrite <- Hpre, u8_set_prefix. cbn [mbind result_bind].
    rewrite app_assoc, IH.
    + rewrite <- app_assoc. unfold kdf_block at 2.
      by replace (Z.of_nat (S j)) with (Z.of_nat j + 1) by lia.
    + rewrite length_app, sha256_length. lia.
Qed.

Lemma mjoin_blocks_length (ss oi : bytes) (l : list nat) :
  length (mjoin (kdf_block sha256 ss oi <$> l)) = (length l * 32)%nat.
Proof.
  induction l as [|i l IH]; [done|].
  change (mjoin (kdf_block sha256 ss oi <$> i :: l))
    with (kdf_block sha256 ss oi i ++ mjoin (kdf_block sha256 ss oi <$> l)).
  rewrite length_app, IH. unfold kdf_block. rewrite sha256_length. cbn [length]. lia.
Qed.

Lemma js_shr_small k : 0 ≤ k < 2 ^ 31 → js_shr k 3 = k / 8.
Proof.
  intros Hk. unfold js_shr, to_int32.
  rewrite Z.mod_small by lia. rewrite Z.shiftr_div_pow2 by lia.
  f_equal. lia.
Qed.

Lemma Q_to_Z_inject k : Q_to_Z (inject_Z k) = k.
Proof. unfold Q_to_Z. cbn. apply Z.div_1_r. Qed.

Lemma Number_isInteger_inject k : Number_isInteger (inject_Z k) = true.
Proof. unfold Number_isInteger. cbn. by rewrite Z.mod_1_r. Qed.

(** The code computes the reference stream for every positive integral
    bit length below 2^31 (where [>> 3] is plain division by 8). *)
Lemma concatKdf_refines (ss oi : bytes) (k : Z) :
  0 < k < 2 ^ 31 →
  concatKdf sha256 ss (inject_Z k) oi = Ok (concatKdf_reference sha256 ss k oi).
Proof.
  intros Hk. unfold concatKdf.
  rewrite Number_isInteger_inject. cbn [negb orb].
  destruct (Qle_bool (inject_Z k) 0) eqn:Hle.
  { apply Qle_bool_iff in Hle. unfold Qle in Hle. cbn in Hle. lia. }
  rewrite Q_to_Z_inject, js_shr_small by lia.
  assert (0 ≤ k / 8) by (apply Z.div_pos; lia).
  assert (0 ≤ ceil_div (k / 8) 32) as Hc.
  { unfold ceil_div. pose proof (Z.div_le_upper_bound (- (k / 8)) 32 0). lia. }
  rewrite u8_alloc_nonneg by lia. cbn [mbind result_bind].
  replace (Z.to_nat (ceil_div (k / 8) 32 * 32))
    with (Z.to_nat (ceil_div (k / 8) 32) * 32)%nat by lia.
  pose proof (concatKdf_loop ss oi (Z.to_nat (ceil_div (k / 8) 32)) 0 [] eq_refl) as Hloop.
  cbn [app] in Hloop. rewrite Hloop. cbn [mbind result_bind].
  unfold u8_slice0, concatKdf_reference.
  destruct (Z.ltb_spec (k / 8) 0); [lia | done].
Qed.

Lemma concatKdf_reference_length (ss oi : bytes) (k : Z) :
  0 ≤ k → length (concatKdf_reference sha256 ss k oi) = Z.to_nat (k / 8).
Proof.
  intros Hk. unfold concatKdf_reference.
  rewrite length_take, mjoin_blocks_length, length_seq.
  assert (0 ≤ k / 8) by (apply Z.div_pos; lia).
  assert (k / 8 ≤ ceil_div (k / 8) 32 * 32); [|lia].
  unfold ceil_div. pose proof (Z.mul_div_le (- (k / 8)) 32). 
  pose proof (Z.mod_pos_bound (- (k / 8)) 32).
  pose proof (Z.div_mod (- (k / 8)) 32). lia.
Qed.

Lemma concatKdf_rejects (ss oi : bytes) (q : Q) :
  Number_isInteger q = false ∨ (q <= 0)%Q →
  concatKdf sha256 ss q oi = Throw (RangeError "keyBitLength must be a positive integer").
Proof.
  intros [Hq|Hq]; unfold concatKdf.
  - by rewrite Hq.
  - apply Qle_bool_iff in Hq. rewrite Hq. by rewrite orb_true_r.
Qed.
End ConcatKdfFacts.

(** ** C3: Concat-KDF *)

(** C3. For every shared secret, every bit length in {128, 192, 256, 384, 512}
    and every OtherInfo, [concatKdf] returns the first [keyBitLength / 8] bytes
    of SHA-256(u32be(1) || Z || OtherInfo) || SHA-256(u32be(2) || Z || OtherInfo) || ...
    taken over ceil((keyBitLength/8)/32) blocks; the output has exactly
    [keyBitLength >> 3] bytes; and a bit length that is not an integer or not
    positive is rejected with a RangeError.  SHA-256 is any function with
    32-byte output. *)
Theorem C3_concatKdf_output (sha256 : bytes → bytes) (Z0 otherInfo : bytes) (keyBitLength : Z) :
  (∀ b, length (sha256 b) = 32%nat) →
  keyBitLength ∈ [128; 192; 256; 384; 512] →
  concatKdf sha256 Z0 (inject_Z keyBitLength) otherInfo
    = Ok (concatKdf_reference sha256 Z0 keyBitLength otherInfo)
  ∧ Z.of_nat (length (concatKdf_reference sha256 Z0 keyBitLength otherInfo))
    = js_shr keyBitLength 3
  ∧ ∀ q : Q, Number_isInteger q = false ∨ (q <= 0)%Q →
      ∃ msg, concatKdf sha256 Z0 q otherInfo = Throw (RangeError msg).
Proof.
  intros Hsha Hk.
  assert (0 < keyBitLength < 2 ^ 31) as Hrange.
  { repeat (apply elem_of_cons in Hk as [->|Hk]); try lia. by apply elem_of_nil in Hk. }
  split; [by apply concatKdf_refines|]. split.
  - rewrite concatKdf_reference_length by (done || lia).
    rewrite js_shr_small by lia.
    assert (0 ≤ keyBitLength / 8) by (apply Z.div_pos; lia). lia.
  - intros q Hq. eexists. by apply concatKdf_rejects.
Qed.

Lemma C3_concatKdf_output_witness :
  concatKdf constant_hash (replicate 32 x00) (inject_Z 128) (utf8 "A128GCM")
    = Ok (concatKdf_reference constant_hash (replicate 32 x00) 128 (utf8 "A128GCM"))
  ∧ Z.of_nat (length (concatKdf_reference constant_hash (replicate 32 x00) 128 (utf8 "A128GCM")))
    = js_shr 128 3
  ∧ ∀ q : Q, Number_isInteger q = false ∨ (q <= 0)%Q →
      ∃ msg, concatKdf constant_hash (replicate 32 x00) q (utf8 "A128GCM") = Throw (RangeError msg).
Proof.
  apply (C3_concatKdf_output constant_hash (replicate 32 x00) (utf8 "A128GCM") 128).
  - intros b. reflexivity.
  - repeat constructor.
Defined.

(** ** C4: the OtherInfo builder *)

Lemma lengthAndInput_small (input : bytes) :
  (length input ≤ 32)%nat →
  lengthAndInput input = Ok (toUint32BE (Z.of_nat (length input)) ++ input).
Proof.
  intros Hlen. unfold lengthAndInput.
  destruct (Z.gtb_spec (Z.of_nat (length input)) 4294967295); [lia | done].
Qed.

Lemma isEnc_cases (enc : string) :
  isEnc enc = true →
  enc ∈ ["A128GCM"; "A192GCM"; "A256GCM"; "A128CBC-HS256"; "A192CBC-HS384"; "A256CBC-HS512"].
Proof. apply bool_decide_eq_true. Qed.

Lemma isEnc_name_short (enc : string) : isEnc enc = true → (length (utf8 enc) ≤ 32)%nat.
Proof.
  intros H%isEnc_cases.
  repeat (apply elem_of_cons in H as [->|H]); try (cbn; lia). by apply elem_of_nil in H.
Qed.




(** ** The recognized map of the [crit] rule *)

Lemma js_Map_foldl {V : Type} (l : list (string * V)) : ∀ m : gmap string V,
  NoDup l.*1 →
  foldl (λ m kv, <[kv.1 := kv.2]> m) m l = list_to_map l ∪ m.
Proof.
  induction l as [|[k v] l IH]; intros m Hnd.
  - cbn. by rewrite (left_id_L ∅ (∪)).
  - rewrite fmap_cons in Hnd. apply NoDup_cons in Hnd as [Hk Hnd]. cbn [foldl fst snd] in *.
    rewrite IH by done. cbn [list_to_map foldr fst snd uncurry].
    rewrite <- insert_union_l. symmetry. apply insert_union_r.
    by apply not_elem_of_list_to_map_1.
Qed.

Lemma recognized_map_lookup (D O : gmap string bool) (name : string) :
  recognized_map D O !! name = integrity_flag D O name.
Proof.
  unfold recognized_map, js_Map, Object_entries, integrity_flag.
  rewrite foldl_app.
  rewrite !js_Map_foldl by apply NoDup_fst_map_to_list.
  rewrite !list_to_map_to_list, (right_id_L ∅ (∪)).
  destruct (O !! name) as [flag|] eqn:HO.
  - by apply lookup_union_Some_l.
  - by rewrite lookup_union_r.
Qed.

(** ** C5: the [crit] rule *)

Lemma not_nonempty_string_false (item : JsValue) :
  not_nonempty_string item = false ↔ ∃ s, item = JStr s ∧ s ≠ "".
Proof.
  destruct item; cbn; try (split; [done | by intros (? & ? & ?)]).
  split.
  - intros H. eexists. split; [done|]. by apply String.eqb_neq.
  - intros (s' & [= <-] & Hne). by apply String.eqb_neq.
Qed.

Lemma crit_shape_ok (items : list JsValue) :
  existsb not_nonempty_string items = false ↔
  ∀ item, item ∈ items → ∃ s, item = JStr s ∧ s ≠ "".
Proof.
  induction items as [|x items IH]; cbn.
  - split; [|done]. intros _ item Hin. by apply elem_of_nil in Hin.
  - rewrite orb_false_iff, IH, not_nonempty_string_false. split.
    + intros [Hx Hall] item Hin. apply elem_of_cons in Hin as [->|Hin]; auto.
    + intros Hall. split; [|intros item Hin]; apply Hall; set_solver.
Qed.

Lemma crit_shape_bad (items : list JsValue) :
  existsb not_nonempty_string items = true → ¬ crit_well_formed (JArr items).
Proof.
  intros Hbad (items' & [= <-] & _ & Hall).
  apply crit_shape_ok in Hall. congruence.
Qed.

Section CritLoop.
Context (Err : string → Exn) (R : gmap string bool) (P J : Header).

Lemma is_undefined_true (v : JsValue) : is_undefined v = true ↔ v = JUndefined.
Proof. by destruct v. Qed.

Lemma validateCrit_loop_spec (names : list string) :
  (validateCrit_loop Err R P J names = Ok () ∧ Forall (λ n, ¬ crit_name_bad R P J n) names)
  ∨ (∃ msg, validateCrit_loop Err R P J names = Throw (Err msg)
            ∧ Exists (crit_name_bad R P J) names).
Proof.
  induction names as [|n names IH]; [left; by split|].
  cbn [validateCrit_loop].
  destruct (R !! n) as [flag|] eqn:HR.
  2:{ right. rewrite bool_decide_eq_false_2 by (by intros [? ?]). cbn [negb].
      eexists. split; [done|]. left. by left. }
  rewrite bool_decide_eq_true_2 by eauto. cbn [negb default from_option id].
  destruct (is_undefined (prop J n)) eqn:HJ.
  { right. eexists. split; [done|]. left. right. left. by apply is_undefined_true. }
  destruct (flag && is_nullish (prop P n)) eqn:HP.
  { right. apply andb_true_iff in HP as [-> HP]. eexists. split; [done|].
    left. right. by right. }
  assert (¬ crit_name_bad R P J n) as Hgood.
  { intros [Hbad|[Hbad|[Hflag Hnull]]].
    - congruence.
    - apply is_undefined_true in Hbad. congruence.
    - assert (flag = true) as -> by congruence. cbn in HP. congruence. }
  destruct IH as [[-> Hall]|(msg & -> & Hex)].
  - left. split; [done|]. by constructor.
  - right. eexists. split; [done|]. by right.
Qed.
End CritLoop.

Lemma get_own_props (v : JsValue) (name : string) :
  get v name = prop (own_props v) name.
Proof. destruct v; try done. Qed.

Lemma get_defined_truthy (v : JsValue) (name : string) :
  is_undefined (get v name) = false → truthy v = true.
Proof. by destruct v. Qed.

Lemma not_has_param (h : Header) (name : string) :
  ¬ has_param h name ↔ prop h name = JUndefined.
Proof.
  unfold has_param. split; [|by intros ->; intros []].
  intros H. destruct (prop h name); try done; exfalso; by apply H.
Qed.


(** Every run of [validateCrit] either throws [Err] on a violation, or
    returns the listed names when there is none. *)
Lemma validateCrit_decision (Err : string → Exn) (D O : option (gmap string bool))
    (P : JsValue) (J : Header) :
  (∃ msg, validateCrit Err D O P J = Throw (Err msg)
          ∧ crit_violation (default ∅ D) (default ∅ O) P J)
  ∨ (validateCrit Err D O P J = Ok (list_to_set (protected_crit_names P))
     ∧ ¬ crit_violation (default ∅ D) (default ∅ O) P J).
Proof.
  unfold validateCrit, crit_violation, crit_not_protected, crit_malformed,
    crit_name_unrecognized, crit_name_missing, crit_name_unprotected_or_null,
    protected_crit_names.
  destruct (is_undefined (get P "crit")) eqn:HPc.
  { apply is_undefined_true in HPc.
    destruct (is_undefined (prop J "crit")) eqn:HJc; cbn [negb andb].
    - right. rewrite orb_true_r. rewrite HPc. split; [done|].
      apply is_undefined_true in HJc.
      intros [[HJ _]|[[Hdef _]|[(items & Hit & _) _]]]; [by apply HJ | done | done].
    - left. eexists. split; [done|]. left. split; [|done].
      intros HJ. rewrite HJ in HJc. done. }
  rewrite andb_false_r, (get_defined_truthy _ _ HPc). cbn [negb orb].
  assert (get P "crit" ≠ JUndefined) as Hdef.
  { intros Heq. by rewrite Heq in HPc. }
  destruct (get P "crit") as [| | | | | |items| |] eqn:Hcrit;
    try (by exfalso; apply Hdef);
    try (left; eexists; split; [done|]; right; left; split; [done|];
         by intros (items' & ? & _)).
  destruct items as [|item items].
  { left. eexists. split; [done|]. right. left. split; [done|].
    by intros (items' & [= <-] & ? & _). }
  destruct (existsb not_nonempty_string (item :: items)) eqn:Hbad.
  { left. eexists. split; [done|]. right. left. split; [done|]. by apply crit_shape_bad. }
  assert (crit_well_formed (JArr (item :: items))) as Hwf.
  { exists (item :: items). split; [done|]. split; [done|]. by apply crit_shape_ok. }
  destruct (validateCrit_loop_spec Err (recognized_map (default ∅ D) (default ∅ O))
              (own_props P) J (crit_names (item :: items)))
    as [[-> Hall]|(msg & -> & Hex)]; cbn [mbind result_bind].
  - right. split; [done|].
    rewrite Forall_forall in Hall.
    intros [[_ HPu]|[[_ Hmal]|[_ [(name & Hin & HD & HO)|[(name & Hin & Hmiss)|(name & Hin & Hflag & Hnull)]]]]].
    + done.
    + done.
    + apply (Hall name Hin). left.
      rewrite recognized_map_lookup. unfold integrity_flag. by rewrite HO.
    + apply (Hall name Hin). right. left. by apply not_has_param.
    + apply (Hall name Hin). right. right.
      rewrite recognized_map_lookup, <- get_own_props. done.
  - left. exists msg. split; [done|]. right. right. split; [done|].
    apply Exists_exists in Hex as (name & Hin & [HR|[HJ|[HR HP]]]).
    + left. exists name. split; [done|].
      rewrite recognized_map_lookup in HR. unfold integrity_flag in HR.
      by destruct (default ∅ O !! name).
    + right. left. exists name. split; [done|]. by apply not_has_param.
    + right. right. exists name. split; [done|].
      rewrite recognized_map_lookup in HR. by rewrite get_own_props.
Qed.

(** Runs of the model on the cases of the repository's unit tests
    (src/utils/__tests__/validateCrit.spec.ts). *)
Example validateCrit_test_unprotected_crit :
  validateCrit JweInvalid (Some {[ "default-param" := true; "another-param" := true ]}) None
    (JObj ∅) {[ "crit" := JArr [JStr "default-param"] ]}
  = Throw (JweInvalid (quoted "crit" +:+ " (Critical) Header Parameter MUST be integrity protected")).
Proof. reflexivity. Qed.

Example validateCrit_test_unprotected_param_accepted :
  validateCrit JweInvalid (Some {[ "default-param" := true; "another-param" := true ]})
    (Some {[ "optional-param" := true; "unprotected-param" := false ]})
    (JObj {[ "crit" := JArr [JStr "unprotected-param"] ]})
    {[ "unprotected-param" := JStr "value" ]}
  = Ok {[ "unprotected-param" ]}.
Proof. vm_compute. reflexivity. Qed.

Example validateCrit_test_missing_in_protected :
  validateCrit JweInvalid (Some {[ "default-param" := true; "another-param" := true ]}) None
    (JObj {[ "crit" := JArr [JStr "default-param"] ]})
    {[ "default-param" := JStr "value" ]}
  = Throw (JweInvalid (quoted "crit" +:+ " (Critical) header parameter "
                       +:+ quoted "default-param" +:+ " MUST be integrity protected")).
Proof. vm_compute. reflexivity. Qed.




(** ** C10: precedence of the option set in the [crit] rule *)

Lemma b64_crit_well_formed : crit_well_formed (JArr [JStr "b64"]).
Proof.
  exists [JStr "b64"]. split; [done|]. split; [done|].
  intros item Hin. apply list_elem_of_singleton in Hin as ->. by exists "b64".
Qed.

(** C10. When a name is in both recognized sets, the flag of the
    caller-supplied option set is the one [validateCrit] uses.  In
    particular, with the default set [{b64: true}] of JWS sign and verify, an
    option set mapping [b64] to [false] lets a critical [b64] that only the
    merged header carries pass (the name stays recognized and is returned),
    whereas without the option the same headers are rejected. *)
Theorem C10_option_flag_takes_precedence :
  (∀ (D O : gmap string bool) (name : string) (flag : bool),
     O !! name = Some flag → recognized_map D O !! name = Some flag)
  ∧ (∀ (Err : string → Exn) (O : gmap string bool) (P : JsValue) (J : Header),
       O !! "b64" = Some false →
       get P "crit" = JArr [JStr "b64"] →
       has_param J "b64" →
       validateCrit Err (Some {[ "b64" := true ]}) (Some O) P J = Ok {[ "b64" ]})
  ∧ (∀ (Err : string → Exn) (P : JsValue) (J : Header),
       get P "crit" = JArr [JStr "b64"] →
       has_param J "b64" →
       is_nullish (get P "b64") = true →
       ∃ msg, validateCrit Err (Some {[ "b64" := true ]}) None P J = Throw (Err msg))
  ∧ (∀ (this : FlattenedSigner) (options : Options) (O : gmap string bool) (J : Header),
       opt_crit options = Some O →
       O !! "b64" = Some false →
       get (fs_protectedHeader this) "crit" = JArr [JStr "b64"] →
       has_param J "b64" →
       sign_validateCrit this options J = Ok {[ "b64" ]}).
Proof.
  assert (∀ (Err : string → Exn) (O : gmap string bool) (P : JsValue) (J : Header),
       O !! "b64" = Some false →
       get P "crit" = JArr [JStr "b64"] →
       has_param J "b64" →
       validateCrit Err (Some {[ "b64" := true ]}) (Some O) P J = Ok {[ "b64" ]}) as Hoption.
  { intros Err O P J HO Hcrit HJ.
    assert (protected_crit_names P = ["b64"]) as Hnames.
    { unfold protected_crit_names. by rewrite Hcrit. }
    destruct (validateCrit_decision Err (Some {[ "b64" := true ]}) (Some O) P J)
      as [(msg & _ & Hviol)|[-> _]].
    - exfalso. cbn [default from_option id] in Hviol.
      destruct Hviol as [[_ Hc]|[[_ Hwf]|[_ Hname]]].
      + rewrite Hcrit in Hc. discriminate.
      + apply Hwf. rewrite Hcrit. by apply b64_crit_well_formed.
      + destruct Hname as [(name & Hin & _ & HO')|[(name & Hin & Hmiss)|(name & Hin & Hflag & _)]];
          rewrite Hnames in Hin; apply list_elem_of_singleton in Hin as ->.
        * congruence.
        * done.
        * unfold integrity_flag in Hflag. rewrite HO in Hflag. discriminate.
    - rewrite Hnames. cbn. by rewrite (right_id_L ∅ (∪)). }
  split; [|split; [exact Hoption|split]].
  - intros D O name flag HO. rewrite recognized_map_lookup. unfold integrity_flag.
    by rewrite HO.
  - intros Err P J Hcrit HJ Hnull.
    destruct (validateCrit_decision Err (Some {[ "b64" := true ]}) None P J)
      as [(msg & Hthrow & _)|[_ Hnone]]; [by exists msg|].
    exfalso. apply Hnone. right. right. split.
    + rewrite Hcrit. by apply b64_crit_well_formed.
    + right. right. exists "b64". split; [|split; [reflexivity|done]].
      unfold protected_crit_names. rewrite Hcrit. cbn. set_solver.
  - intros this options O J Hopt HO Hcrit HJ. unfold sign_validateCrit. rewrite Hopt.
    by apply Hoption.
Qed.

Lemma C10_option_flag_takes_precedence_witness :
  recognized_map {[ "b64" := true ]} {[ "b64" := false ]} !! "b64" = Some false
  ∧ validateCrit JwsInvalid (Some {[ "b64" := true ]}) (Some {[ "b64" := false ]})
      b64_unprotected_header
      (<[ "b64" := JBool false ]> (own_props b64_unprotected_header))
    = Ok {[ "b64" ]}
  ∧ ∃ msg, validateCrit JwsInvalid (Some {[ "b64" := true ]}) None
      b64_unprotected_header
      (<[ "b64" := JBool false ]> (own_props b64_unprotected_header))
    = Throw (JwsInvalid msg).
Proof.
  destruct C10_option_flag_takes_precedence as (H1 & H2 & H3 & _).
  split; [|split].
  - apply H1. reflexivity.
  - apply H2; [reflexivity | reflexivity | vm_compute; discriminate].
  - apply H3; [reflexivity | vm_compute; discriminate | reflexivity].
Defined.

(** ** Disjointness of header parameter names *)

Lemma falsy_no_keys (h : JsValue) : truthy h = false → Object_keys h = ∅.
Proof. destruct h; try done. Qed.

Lemma hasDuplicate_false (acc parameters : gset string) :
  existsb (λ parameter, bool_decide (parameter ∈ acc)) (elements parameters) = false
  ↔ parameters ## acc.
Proof.
  rewrite <- not_true_iff_false, existsb_exists. split.
  - intros Hno name Hp Hacc. apply Hno. exists name. split.
    + apply list_elem_of_In, elem_of_elements, Hp.
    + by apply bool_decide_eq_true.
  - intros Hdisj (name & Hin & Hacc).
    apply list_elem_of_In, elem_of_elements in Hin. apply bool_decide_eq_true in Hacc.
    by apply (Hdisj name).
Qed.

Lemma areDisjoint_from_cons (acc : gset string) (h : JsValue) (rest : list JsValue) :
  areDisjoint_from acc (h :: rest) = true
  ↔ Object_keys h ## acc ∧ areDisjoint_from (acc ∪ Object_keys h) rest = true.
Proof.
  cbn [areDisjoint_from].
  destruct (existsb _ _) eqn:Hdup.
  - split; [done|]. intros [Hd _]. apply hasDuplicate_false in Hd. congruence.
  - apply hasDuplicate_false in Hdup. tauto.
Qed.

(** [areDisjoint] on the three JWE positions decides pairwise disjointness. *)
Lemma areDisjoint3_spec (p s u : JsValue) :
  areDisjoint [p; s; u] = true
  ↔ Object_keys p ## Object_keys s ∧ Object_keys p ## Object_keys u
    ∧ Object_keys s ## Object_keys u.
Proof.
  unfold areDisjoint. cbn [filter list_filter].
  destruct (truthy p) eqn:Hp, (truthy s) eqn:Hs, (truthy u) eqn:Hu;
    repeat (case_decide; try congruence);
    try rewrite (falsy_no_keys p Hp); try rewrite (falsy_no_keys s Hs);
    try rewrite (falsy_no_keys u Hu);
    rewrite ?areDisjoint_from_cons; cbn [areDisjoint_from];
    set_solver.
Qed.

Lemma areDisjoint2_spec (p u : JsValue) :
  areDisjoint [p; u] = true ↔ Object_keys p ## Object_keys u.
Proof.
  unfold areDisjoint. cbn [filter list_filter].
  destruct (truthy p) eqn:Hp, (truthy u) eqn:Hu;
    repeat (case_decide; try congruence);
    try rewrite (falsy_no_keys p Hp); try rewrite (falsy_no_keys u Hu);
    rewrite ?areDisjoint_from_cons; cbn [areDisjoint_from];
    set_solver.
Qed.

Lemma verifyJweHeaders_invalid (p s u : JsValue) (e : Exn) :
  verifyJweHeaders p s u = Throw e → ∃ msg, e = JweInvalid msg.
Proof.
  unfold verifyJweHeaders.
  repeat (match goal with |- context [if ?b then _ else _] => destruct b end);
    intros [= <-]; eauto.
Qed.

Lemma verifyJweHeaders_ok (p s u : JsValue) :
  verifyJweHeaders p s u = Ok () →
  (∃ h, p = JObj h ∧ h ≠ ∅)
  ∧ Object_keys p ## Object_keys s ∧ Object_keys p ## Object_keys u
  ∧ Object_keys s ## Object_keys u.
Proof.
  unfold verifyJweHeaders.
  destruct (truthy p) eqn:Hp; [|done]. cbn [negb].
  destruct p as [| | | | | | |h|]; try done. cbn [isPlainObject negb].
  case_bool_decide as Hempty; [done|].
  destruct (truthy s && negb (isPlainObject s)); [done|].
  destruct (truthy u && negb (isPlainObject u)); [done|].
  destruct (areDisjoint _) eqn:Hdisj; [|done].
  intros _. apply areDisjoint3_spec in Hdisj. split; [|done].
  exists h. split; [done|]. intros ->. apply Hempty. unfold Object_keys. cbn. apply dom_empty_L.
Qed.

Lemma mergeJweHeaders_shared_name (p s u : JsValue) :
  shares_name p s u → ∃ msg, mergeJweHeaders p s u = Throw (JweInvalid msg).
Proof.
  intros (name & Hshare). unfold mergeJweHeaders.
  destruct (verifyJweHeaders p s u) as [[]|e] eqn:Hv.
  - apply verifyJweHeaders_ok in Hv as (_ & Hps & Hpu & Hsu). exfalso. set_solver.
  - apply verifyJweHeaders_invalid in Hv as (msg & ->). by exists msg.
Qed.

Lemma prop_union_l (a b : Header) (name : string) :
  prop a name ≠ JUndefined → prop (a ∪ b) name = prop a name.
Proof.
  unfold prop. destruct (a !! name) as [v|] eqn:Ha; [|done].
  intros _. by rewrite (lookup_union_Some_l _ _ _ _ Ha).
Qed.

Lemma prop_union_r (a b : Header) (name : string) :
  a !! name = None → prop (a ∪ b) name = prop b name.
Proof. intros Ha. unfold prop. by rewrite lookup_union_r. Qed.

Lemma prop_defined_in_dom (a : Header) (name : string) :
  prop a name ≠ JUndefined → name ∈ dom a.
Proof.
  unfold prop. intros Hdef. apply elem_of_dom. destruct (a !! name); [eauto|done].
Qed.

(** With [zip] valued in some position, [mergeJweHeaders] never returns. *)
Lemma mergeJweHeaders_zip (p s u : JsValue) :
  zip_present p s u →
  ∃ e, mergeJweHeaders p s u = Throw e
       ∧ (verifyJweHeaders p s u = Ok () → ∃ msg, e = JweNotSupported msg).
Proof.
  intros Hzip. unfold mergeJweHeaders.
  destruct (verifyJweHeaders p s u) as [[]|e] eqn:Hv; cbn [mbind result_bind].
  2:{ exists e. split; [done|]. intros [=]. }
  apply verifyJweHeaders_ok in Hv as (_ & Hps & Hpu & Hsu).
  assert (prop (spread3 u s p) "zip" ≠ JUndefined) as Hdef.
  { unfold spread3. unfold zip_present in Hzip. rewrite !get_own_props in Hzip.
    unfold Object_keys in *.
    destruct Hzip as [Hz|[Hz|Hz]].
    - by rewrite prop_union_l.
    - pose proof (prop_defined_in_dom _ _ Hz) as Hin.
      rewrite prop_union_r by (apply not_elem_of_dom; set_solver).
      by rewrite prop_union_l.
    - pose proof (prop_defined_in_dom _ _ Hz) as Hin.
      rewrite prop_union_r by (apply not_elem_of_dom; set_solver).
      by rewrite prop_union_r by (apply not_elem_of_dom; set_solver). }
  destruct (prop (spread3 u s p) "zip") eqn:Hz; try done; cbn [is_undefined negb];
    eexists; (split; [done|]); intros _; eauto.
Qed.

(** ** Inversion of traced computations *)

Lemma M_bind_ok {A B : Type} (m : M A) (k : A → M B) (tr : list Event) (b : B) :
  M_bind m k = (tr, Ok b) →
  ∃ t1 a t2, m = (t1, Ok a) ∧ k a = (t2, Ok b) ∧ tr = t1 ++ t2.
Proof.
  destruct m as [t1 [a|e]]; unfold M_bind; [|done].
  destruct (k a) as [t2 r] eqn:Hk. intros [= <- ->]. by exists t1, a, t2.
Qed.

Lemma M_bind_throw {A B : Type} (m : M A) (k : A → M B) (tr : list Event) (e : Exn) :
  M_bind m k = (tr, Throw e) →
  m = (tr, Throw e) ∨ ∃ t1 a t2, m = (t1, Ok a) ∧ k a = (t2, Throw e) ∧ tr = t1 ++ t2.
Proof.
  destruct m as [t1 [a|e']]; unfold M_bind.
  - destruct (k a) as [t2 r] eqn:Hk. intros [= <- ->]. right. by exists t1, a, t2.
  - intros [= <- <-]. by left.
Qed.

Lemma M_bind_lift_ok {A B : Type} (a : A) (k : A → M B) :
  M_bind (lift (Ok a)) k = k a.
Proof. unfold M_bind, lift. by destruct (k a). Qed.

Lemma M_bind_lift_throw {A B : Type} (e : Exn) (k : A → M B) :
  M_bind (lift (Throw e)) k = ([], Throw e).
Proof. done. Qed.

Lemma M_bind_call_raised {A B : Type} (ev : Event) (msg : string) (k : A → M B) :
  M_bind (call ev (Raised msg)) k = ([ev], Throw (ProviderError msg)).
Proof. done. Qed.

Lemma M_bind_call_returned {A B : Type} (ev : Event) (a : A) (k : A → M B) :
  M_bind (call ev (Returned a)) k = (ev :: (k a).1, (k a).2).
Proof. unfold M_bind, call. cbn. by destruct (k a). Qed.

Lemma try_catch_cons {A : Type} (ev : Event) (m : M A) (h : Exn → M A) :
  try_catch (ev :: m.1, m.2) h = (ev :: (try_catch m h).1, (try_catch m h).2).
Proof.
  destruct m as [t [a|e]]; unfold try_catch; cbn [fst snd]; [done|].
  by destruct (h e).
Qed.

Lemma lift_inv {A : Type} (r r' : result A) (tr : list Event) :
  lift r = (tr, r') → tr = [] ∧ r = r'.
Proof. by intros [= <- <-]. Qed.

Lemma call_ok {A : Type} (ev : Event) (p : provided A) (tr : list Event) (a : A) :
  call ev p = (tr, Ok a) → tr = [ev] ∧ p = Returned a.
Proof. destruct p; unfold call; cbn; [by intros [= <- <-]|done]. Qed.


(** ** C7: disjointness is enforced before any cryptographic work *)

(** C7. When some parameter name occurs in more than one of the protected,
    shared unprotected and per-recipient unprotected headers, [encrypt]
    fails with the JWE [invalid] error, and the only external calls made
    until then are the resolution of the curve provider and the conversion
    of the recipient JWK: no key is generated, no key agreement, key
    derivation or AEAD call takes place.  Moreover [mergeJweHeaders] only
    returns when the protected header is a non-empty plain object. *)
Theorem C7_disjointness_enforced (Pf : Platform) (this : FlattenedEncrypter)
    (plaintext yourJwkPublicKey : JsValue) (options : Options) :
  (shares_name (fe_protectedHeader this) (fe_sharedUnprotectedHeader this)
     (fe_unprotectedHeader this) →
   ∃ tr msg,
     encrypt Pf this plaintext yourJwkPublicKey options = (tr, Throw (JweInvalid msg))
     ∧ Forall (λ ev, is_cryptographic_work ev = false) tr)
  ∧ (∀ p s u J, mergeJweHeaders p s u = Ok J → ∃ h, p = JObj h ∧ h ≠ ∅).
Proof.
  split.
  - intros Hshare. apply mergeJweHeaders_shared_name in Hshare as (msg & Hmerge).
    unfold encrypt.
    destruct (truthy plaintext); cbn [negb]; [|by eexists [], _].
    destruct plaintext as [| | | | |pt| | |]; try by eexists [], _.
    destruct (truthy yourJwkPublicKey); cbn [negb]; [|by eexists [], _].
    destruct (isPlainObject yourJwkPublicKey); cbn [negb]; [|by eexists [], _].
    destruct (truthy (get yourJwkPublicKey "crv")); cbn [negb]; [|by eexists [], _].
    unfold encrypt_try.
    destruct (createEcdhCurve Pf _ _) as [curve|m1].
    2:{ eexists _, _. split; [reflexivity|]. by repeat constructor. }
    rewrite M_bind_call_returned.
    destruct (toRawPublicKey curve yourJwkPublicKey) as [pk|m2].
    2:{ eexists _, _. split; [reflexivity|]. by repeat constructor. }
    rewrite M_bind_call_returned, Hmerge, M_bind_lift_throw.
    eexists _, _. split; [reflexivity|]. by repeat constructor.
  - intros p s u J. unfold mergeJweHeaders.
    destruct (verifyJweHeaders p s u) as [[]|e] eqn:Hv; [|done].
    intros _. by apply verifyJweHeaders_ok in Hv as (Hp & _).
Qed.

Lemma C7_disjointness_enforced_witness :
  ∃ tr msg,
    encrypt (stub_platform JNull true)
      {| fe_aes := stub_aes;
         fe_protectedHeader := JObj ecdh_header;
         fe_sharedUnprotectedHeader := JObj {[ "enc" := JStr "A128GCM" ]};
         fe_unprotectedHeader := JUndefined;
         fe_aad := None;
         fe_keyManagementParameters := JUndefined |}
      (JBytes hello) stub_jwk noOptions = (tr, Throw (JweInvalid msg))
    ∧ Forall (λ ev, is_cryptographic_work ev = false) tr.
Proof.
  apply (C7_disjointness_enforced (stub_platform JNull true)
           {| fe_aes := stub_aes;
              fe_protectedHeader := JObj ecdh_header;
              fe_sharedUnprotectedHeader := JObj {[ "enc" := JStr "A128GCM" ]};
              fe_unprotectedHeader := JUndefined;
              fe_aad := None;
              fe_keyManagementParameters := JUndefined |}
           (JBytes hello) stub_jwk noOptions).
  exists "enc". left. split; apply elem_of_dom; vm_compute; eauto.
Defined.

Example encrypt_runs :
  ∃ this' jwe,
    encrypt (stub_platform JNull true)
      (with_protectedHeader (newFlattenedEncrypter stub_aes) (JObj ecdh_header))
      (JBytes hello) stub_jwk noOptions
    = ([EvCreateCurve (JStr "P-256"); EvToRawPublicKey stub_jwk; EvRandomPrivateKey;
        EvGetPublicKey (replicate 32 x01); EvToJwkPublicKey (replicate 65 x04);
        EvGetSharedSecret (replicate 32 x01) (replicate 65 x04);
        EvConcatKdf (replicate 32 x00) 256
          (otherInfo_layout "A256GCM" [] [] 256);
        EvAeadEncrypt "A256GCM" hello (replicate 32 (byte_of_Z 59)) (utf8 "e30")],
       Ok (this', jwe))
    ∧ fe_protectedHeader this' = JObj (<[ "epk" := stub_jwk ]> ecdh_header).
Proof. eexists _, _. split; vm_compute; reflexivity. Qed.

(** ** Inversion of the encryption pipeline *)

Lemma try_catch_uniform {A : Type} (m : M A) (E : Exn) (tr : list Event) (r : result A) :
  try_catch m (λ _, lift (Throw E)) = (tr, r) →
  (∃ a, r = Ok a ∧ m = (tr, Ok a)) ∨ (r = Throw E ∧ ∃ e, m = (tr, Throw e)).
Proof.
  destruct m as [t [a|e]]; unfold try_catch, lift.
  - intros [= <- <-]. left. by exists a.
  - rewrite app_nil_r. intros [= <- <-]. right. split; [done|]. by exists e.
Qed.

Lemma encrypt_ok_try (Pf : Platform) (this : FlattenedEncrypter)
    (plaintext yourJwkPublicKey : JsValue) (options : Options)
    (tr : list Event) (r : FlattenedEncrypter * JsValue) :
  encrypt Pf this plaintext yourJwkPublicKey options = (tr, Ok r) →
  ∃ pt, plaintext = JBytes pt
        ∧ encrypt_try Pf this pt yourJwkPublicKey options = (tr, Ok r).
Proof.
  unfold encrypt.
  destruct (truthy plaintext); cbn [negb]; [|done].
  destruct plaintext as [| | | | |pt| | |]; try done.
  destruct (truthy yourJwkPublicKey); cbn [negb]; [|done].
  destruct (isPlainObject yourJwkPublicKey); cbn [negb]; [|done].
  destruct (truthy (get yourJwkPublicKey "crv")); cbn [negb]; [|done].
  intros [(a & [= <-] & Htry)|[? _]]%try_catch_uniform; [|done].
  by exists pt.
Qed.

Lemma encrypt_throws_invalid (Pf : Platform) (this : FlattenedEncrypter)
    (plaintext yourJwkPublicKey : JsValue) (options : Options)
    (tr : list Event) (e : Exn) :
  encrypt Pf this plaintext yourJwkPublicKey options = (tr, Throw e) →
  ∃ msg, e = JweInvalid msg.
Proof.
  unfold encrypt.
  destruct (truthy plaintext); cbn [negb]; [|intros [= _ <-]; eauto].
  destruct plaintext as [| | | | |pt| | |]; try (intros [= _ <-]; eauto).
  destruct (truthy yourJwkPublicKey); cbn [negb]; [|intros [= _ <-]; eauto].
  destruct (isPlainObject yourJwkPublicKey); cbn [negb]; [|intros [= _ <-]; eauto].
  destruct (truthy (get yourJwkPublicKey "crv")); cbn [negb]; [|intros [= _ <-]; eauto].
  intros [(a & [=] & _)|[[= ->] _]]%try_catch_uniform. eauto.
Qed.

(** Everything a successful run of the [try] block of [encrypt] went through. *)
Lemma encrypt_try_ok (Pf : Platform) (this : FlattenedEncrypter) (pt : bytes)
    (jwk : JsValue) (options : Options) (tr : list Event)
    (this' : FlattenedEncrypter) (jwe : JsValue) :
  encrypt_try Pf this pt jwk options = (tr, Ok (this', jwe)) →
  ∃ curve pk J alg enc cek ek parameters t_derive ciphertext tag iv,
    createEcdhCurve Pf (get jwk "crv") (aes_randomBytes (fe_aes this)) = Returned curve
    ∧ toRawPublicKey curve jwk = Returned pk
    ∧ mergeJweHeaders (fe_protectedHeader this) (fe_sharedUnprotectedHeader this)
        (fe_unprotectedHeader this) = Ok J
    ∧ validateJweAlg (get (fe_protectedHeader this) "alg") = Ok alg
    ∧ validateJweEnc (get (fe_protectedHeader this) "enc") = Ok enc
    ∧ deriveEncryptionKey Pf alg enc curve pk (fe_keyManagementParameters this)
      = (t_derive, Ok (cek, ek, parameters))
    ∧ updateProtectedHeader this (JObj parameters) = Ok this'
    ∧ tr = [EvCreateCurve (get jwk "crv"); EvToRawPublicKey jwk] ++ t_derive
           ++ [EvAeadEncrypt enc pt cek
                 (encodeAesAad (encodeBase64UrlHeader Pf (fe_protectedHeader this'))
                    (encodeBase64Url <$> fe_aad this'))]
    ∧ jwe = JObj (assemble_jwe this' ciphertext iv tag
                    (encodeBase64UrlHeader Pf (fe_protectedHeader this')) ek
                    (encodeBase64Url <$> fe_aad this')).
Proof.
  unfold encrypt_try. intros H.
  apply M_bind_ok in H as (t1 & curve & t1' & [-> Hcurve]%call_ok & H & ->).
  apply M_bind_ok in H as (t2 & pk & t2' & [-> Hpk]%call_ok & H & ->).
  apply M_bind_ok in H as (t3 & J & t3' & [-> HJ]%lift_inv & H & ->).
  apply M_bind_ok in H as (t4 & crit & t4' & [-> Hcrit]%lift_inv & H & ->).
  apply M_bind_ok in H as (t5 & alg & t5' & [-> Halg]%lift_inv & H & ->).
  apply M_bind_ok in H as (t6 & enc & t6' & [-> Henc]%lift_inv & H & ->).
  apply M_bind_ok in H as (t7 & [[cek ek] parameters] & t7' & Hderive & H & ->).
  apply M_bind_ok in H as (t8 & this1 & t8' & [-> Hupd]%lift_inv & H & ->).
  apply M_bind_ok in H as (t9 & [[ciphertext tag] iv] & t9' & [-> Haes]%call_ok & H & ->).
  injection H as <- <- <-.
  exists curve, pk, J, alg, enc, cek, ek, parameters, t7, ciphertext, tag, iv.
  repeat split; done.
Qed.

(** ** C2: the [zip] parameter *)

(** C2, as the claim states it, fails: [encrypt] with [zip] in the
    protected header fails with the uniform JWE [invalid] error, because the
    [catch] block replaces the [not supported] error of [mergeJweHeaders]. *)
Lemma C2_zip_encrypt_counterexample :
  zip_present (JObj (<[ "zip" := JStr "DEF" ]> ecdh_header)) JUndefined JUndefined
  ∧ encrypt (stub_platform JNull true)
      (with_protectedHeader (newFlattenedEncrypter stub_aes)
         (JObj (<[ "zip" := JStr "DEF" ]> ecdh_header)))
      (JBytes hello) stub_jwk noOptions
    = ([EvCreateCurve (JStr "P-256"); EvToRawPublicKey stub_jwk],
       Throw (JweInvalid "Failed to encrypt plaintext"))
  ∧ is_not_supported (JweInvalid "Failed to encrypt plaintext") = false.
Proof.
  split; [|split].
  - left. vm_compute. discriminate.
  - vm_compute. reflexivity.
  - reflexivity.
Qed.

Lemma result_bind_ok {A B : Type} (r : result A) (f : A → result B) (b : B) :
  r ≫= f = Ok b → ∃ a, r = Ok a ∧ f a = Ok b.
Proof. destruct r as [a|e]; [|done]. intros H. by exists a. Qed.

Lemma validateFlattenedJwe_ok (Pf : Platform) (jwe : JsValue) (v : ValidatedJwe) :
  validateFlattenedJwe Pf jwe = Ok v →
  parseBase64UrlHeader Pf (get jwe "protected") "JWE Protected Header"
    = Ok (vj_parsedProtected v)
  ∧ mergeJweHeaders (vj_parsedProtected v) (get jwe "unprotected") (get jwe "header")
    = Ok (vj_joseHeader v).
Proof.
  unfold validateFlattenedJwe.
  destruct (is_nullish jwe); [done|].
  destruct (isPlainObject jwe); cbn [negb]; [|done].
  intros (iv & _ & H)%result_bind_ok.
  apply result_bind_ok in H as (ciphertext & _ & H).
  apply result_bind_ok in H as (tag & _ & H).
  apply result_bind_ok in H as (encryptedKey & _ & H).
  apply result_bind_ok in H as (aad & _ & H).
  destruct (negb (is_undefined (get jwe "header")) && _); [done|].
  destruct (negb (is_undefined (get jwe "unprotected")) && _); [done|].
  apply result_bind_ok in H as (P & HP & H).
  apply result_bind_ok in H as (J & HJ & H).
  injection H as <-. by cbn.
Qed.

Lemma decrypt_ok_validated (Pf : Platform) (aes : AesCipher) (jwe jwk : JsValue)
    (options : Options) (tr : list Event) (r : JsValue) :
  decrypt Pf aes jwe jwk options = (tr, Ok r) →
  ∃ v, validateFlattenedJwe Pf jwe = Ok v.
Proof.
  unfold decrypt.
  repeat (match goal with |- context [if negb ?b then _ else _] => destruct b; cbn [negb] end;
          try done).
  intros [(a & [= <-] & H)|[? _]]%try_catch_uniform; [|done].
  unfold decrypt_try in H.
  apply M_bind_ok in H as (t1 & curve & t1' & _ & H & ->).
  apply M_bind_ok in H as (t2 & sk & t2' & _ & H & ->).
  apply M_bind_ok in H as (t3 & v & t3' & [-> Hv]%lift_inv & H & ->).
  by exists v.
Qed.

Lemma decrypt_throws_invalid (Pf : Platform) (aes : AesCipher) (jwe jwk : JsValue)
    (options : Options) (tr : list Event) (e : Exn) :
  decrypt Pf aes jwe jwk options = (tr, Throw e) → ∃ msg, e = JweInvalid msg.
Proof.
  unfold decrypt.
  repeat (match goal with |- context [if negb ?b then _ else _] => destruct b; cbn [negb] end;
          try (intros [= _ <-]; eauto)).
  intros [(a & [=] & _)|[[= ->] _]]%try_catch_uniform. eauto.
Qed.

(** C2 (amended). [mergeJweHeaders] fails [not supported] when the headers
    pass [verifyJweHeaders] and [zip] has a value in any of the three
    positions.  The public [encrypt] and [decrypt] operations then fail too,
    but with the uniform JWE [invalid] error into which they collapse every
    failure of their [try] block. *)
Theorem C2_zip_rejection_amended :
  (∀ p s u, zip_present p s u → verifyJweHeaders p s u = Ok () →
     ∃ msg, mergeJweHeaders p s u = Throw (JweNotSupported msg))
  ∧ (∀ Pf this plaintext yourJwkPublicKey options,
       zip_present (fe_protectedHeader this) (fe_sharedUnprotectedHeader this)
         (fe_unprotectedHeader this) →
       ∃ tr msg, encrypt Pf this plaintext yourJwkPublicKey options
                 = (tr, Throw (JweInvalid msg)))
  ∧ (∀ Pf aes jwe myJwkPrivateKey options,
       (∀ P, parseBase64UrlHeader Pf (get jwe "protected") "JWE Protected Header" = Ok P →
             zip_present P (get jwe "unprotected") (get jwe "header")) →
       ∃ tr msg, decrypt Pf aes jwe myJwkPrivateKey options
                 = (tr, Throw (JweInvalid msg))).
Proof.
  split; [|split].
  - intros p s u Hzip Hv.
    destruct (mergeJweHeaders_zip p s u Hzip) as (e & -> & He).
    destruct (He Hv) as (msg & ->). by exists msg.
  - intros Pf this plaintext jwk options Hzip.
    destruct (mergeJweHeaders_zip _ _ _ Hzip) as (e & Hmerge & _).
    destruct (encrypt Pf this plaintext jwk options) as [tr [[this' jwe]|e']] eqn:Henc.
    + apply encrypt_ok_try in Henc as (pt & _ & Htry).
      apply encrypt_try_ok in Htry
        as (curve & pk & J & alg & enc & cek & ek & ps & td & c & tg & iv & _ & _ & HJ & _).
      congruence.
    + apply encrypt_throws_invalid in Henc as (msg & ->). by exists tr, msg.
  - intros Pf aes jwe jwk options Hzip.
    destruct (decrypt Pf aes jwe jwk options) as [tr [r|e']] eqn:Hdec.
    + apply decrypt_ok_validated in Hdec as (v & Hv).
      apply validateFlattenedJwe_ok in Hv as (HP & HJ).
      destruct (mergeJweHeaders_zip _ _ _ (Hzip _ HP)) as (e & Hmerge & _). congruence.
    + apply decrypt_throws_invalid in Hdec as (msg & ->). by exists tr, msg.
Qed.

Lemma C2_zip_rejection_amended_witness :
  ∃ msg, mergeJweHeaders (JObj (<[ "zip" := JStr "DEF" ]> ecdh_header)) JUndefined
           (JObj {[ "kid" := JStr "key-1" ]})
         = Throw (JweNotSupported msg).
Proof.
  apply C2_zip_rejection_amended.
  - left. vm_compute. discriminate.
  - vm_compute. reflexivity.
Defined.

(** ** C1: merging the key-agreement parameters into the protected header *)

Lemma deriveEncryptionKey_parameters (Pf : Platform) (alg enc : string) (curve : EcdhCurve)
    (pk : bytes) (kmp : JsValue) (t : list Event) (cek : bytes) (ek : option bytes)
    (parameters : Header) :
  deriveEncryptionKey Pf alg enc curve pk kmp = (t, Ok (cek, ek, parameters)) →
  is_Some (parameters !! "epk") ∧ dom parameters ⊆ {[ "epk"; "apu"; "apv" ]}.
Proof.
  unfold deriveEncryptionKey. destruct (String.eqb alg "ECDH-ES"); [|done].
  unfold ecdhesDeriveEncryptionKey. intros H.
  apply M_bind_ok in H as (t1 & sk & t1' & _ & H & ->).
  apply M_bind_ok in H as (t2 & mypk & t2' & _ & H & ->).
  apply M_bind_ok in H as (t3 & epk & t3' & _ & H & ->).
  apply M_bind_ok in H as (t4 & apu & t4' & _ & H & ->).
  apply M_bind_ok in H as (t5 & apv & t5' & _ & H & ->).
  apply M_bind_ok in H as (t6 & enc' & t6' & _ & H & ->).
  apply M_bind_ok in H as (t7 & bits & t7' & _ & H & ->).
  apply M_bind_ok in H as (t8 & ss & t8' & _ & H & ->).
  apply M_bind_ok in H as (t9 & oi & t9' & _ & H & ->).
  apply M_bind_ok in H as (t10 & cek' & t10' & _ & H & ->).
  injection H as _ _ _ <-.
  destruct apu, apv; split; try (rewrite ?dom_insert_L, dom_singleton_L; set_solver);
    rewrite ?lookup_insert_ne by done; rewrite lookup_singleton_eq; eauto.
Qed.

Lemma assemble_jwe_protected (this : FlattenedEncrypter) (ciphertext iv tag : bytes)
    (H : string) (ek : option bytes) (aadB64U : option string) :
  prop (assemble_jwe this ciphertext iv tag H ek aadB64U) "protected" = JStr H.
Proof.
  unfold assemble_jwe, prop.
  destruct ek, (fe_aad this), (truthy (fe_sharedUnprotectedHeader this)),
    (truthy (fe_unprotectedHeader this));
    rewrite ?lookup_insert_ne by done; by rewrite lookup_singleton_eq.
Qed.

(** C1, as the claim states it, fails: an [epk] that the caller put in the
    protected header is replaced by the ephemeral key that the
    key-agreement step returns. *)
Lemma C1_epk_overwritten_counterexample :
  ∃ tr this' jwe,
    encrypt (stub_platform JNull true)
      (with_protectedHeader (newFlattenedEncrypter stub_aes)
         (JObj (<[ "epk" := JStr "caller" ]> ecdh_header)))
      (JBytes hello) stub_jwk noOptions = (tr, Ok (this', jwe))
    ∧ get (JObj (<[ "epk" := JStr "caller" ]> ecdh_header)) "epk" = JStr "caller"
    ∧ get (fe_protectedHeader this') "epk" = stub_jwk
    ∧ stub_jwk ≠ JStr "caller".
Proof.
  eexists _, _, _. split; [vm_compute; reflexivity|].
  split; [vm_compute; reflexivity|]. split; [vm_compute; reflexivity|]. discriminate.
Qed.

(** C1 (amended). When [encrypt] succeeds, the parameters returned by the
    key-agreement step ([epk], and [apu] / [apv] when requested) are merged
    into the caller's protected header with the returned parameters taking
    precedence: the final protected header, the one that is encoded into the
    [protected] member, keeps the caller's value for every name that is not
    among the returned parameters, and carries the returned value for every
    name that is. *)
Theorem C1_protected_header_merge (Pf : Platform) (this : FlattenedEncrypter)
    (plaintext yourJwkPublicKey : JsValue) (options : Options)
    (tr : list Event) (this' : FlattenedEncrypter) (jwe : JsValue) :
  encrypt Pf this plaintext yourJwkPublicKey options = (tr, Ok (this', jwe)) →
  ∃ (h parameters : Header) alg enc curve pk cek ek t,
    fe_protectedHeader this = JObj h
    ∧ deriveEncryptionKey Pf alg enc curve pk (fe_keyManagementParameters this)
      = (t, Ok (cek, ek, parameters))
    ∧ is_Some (parameters !! "epk")
    ∧ dom parameters ⊆ {[ "epk"; "apu"; "apv" ]}
    ∧ fe_protectedHeader this' = JObj (parameters ∪ h)
    ∧ get jwe "protected" = JStr (encodeBase64UrlHeader Pf (fe_protectedHeader this'))
    ∧ (∀ name, name ∉ dom parameters →
         get (fe_protectedHeader this') name = get (fe_protectedHeader this) name)
    ∧ (∀ name v, parameters !! name = Some v →
         get (fe_protectedHeader this') name = v).
Proof.
  intros Henc. apply encrypt_ok_try in Henc as (pt & _ & Htry).
  apply encrypt_try_ok in Htry
    as (curve & pk & J & alg & enc & cek & ek & ps & td & c & tg & iv
        & _ & _ & HJ & _ & _ & Hderive & Hupd & _ & ->).
  unfold mergeJweHeaders in HJ.
  apply result_bind_ok in HJ as ([] & Hv & _).
  apply verifyJweHeaders_ok in Hv as ((h & Hh & _) & _).
  unfold updateProtectedHeader in Hupd. rewrite Hh in Hupd. cbn in Hupd.
  injection Hupd as <-.
  destruct (deriveEncryptionKey_parameters _ _ _ _ _ _ _ _ _ _ Hderive) as [Hepk Hdom].
  exists h, ps, alg, enc, curve, pk, cek, ek, td. rewrite Hh.
  repeat split; try done.
  - cbn [get]. by rewrite assemble_jwe_protected.
  - intros name Hname. cbn. apply prop_union_r. by apply not_elem_of_dom.
  - intros name v Hv. cbn. unfold prop. by rewrite (lookup_union_Some_l _ _ _ _ Hv).
Qed.

Lemma C1_protected_header_merge_witness :
  ∃ (h parameters : Header) alg enc curve pk cek ek t,
    JObj (<[ "kid" := JStr "key-1" ]> ecdh_header) = JObj h
    ∧ deriveEncryptionKey (stub_platform JNull true) alg enc curve pk JUndefined
      = (t, Ok (cek, ek, parameters))
    ∧ is_Some (parameters !! "epk")
    ∧ dom parameters ⊆ {[ "epk"; "apu"; "apv" ]}
    ∧ JObj (<[ "epk" := stub_jwk ]> (<[ "kid" := JStr "key-1" ]> ecdh_header))
      = JObj (parameters ∪ h)
    ∧ get (JObj {[ "ciphertext" := JStr "SGVsbG8sIFdvcmxkIQ";
                   "iv" := JStr "AAAAAAAAAAAAAAAA";
                   "tag" := JStr "AAAAAAAAAAAAAAAAAAAAAA";
                   "protected" := JStr "e30" ]}) "protected"
      = JStr (encodeBase64UrlHeader (stub_platform JNull true)
                (JObj (<[ "epk" := stub_jwk ]> (<[ "kid" := JStr "key-1" ]> ecdh_header))))
    ∧ (∀ name, name ∉ dom parameters →
         get (JObj (<[ "epk" := stub_jwk ]> (<[ "kid" := JStr "key-1" ]> ecdh_header))) name
         = get (JObj (<[ "kid" := JStr "key-1" ]> ecdh_header)) name)
    ∧ (∀ name v, parameters !! name = Some v →
         get (JObj (<[ "epk" := stub_jwk ]> (<[ "kid" := JStr "key-1" ]> ecdh_header))) name
         = v).
Proof.
  apply (C1_protected_header_merge (stub_platform JNull true)
           (with_protectedHeader (newFlattenedEncrypter stub_aes)
              (JObj (<[ "kid" := JStr "key-1" ]> ecdh_header)))
           (JBytes hello) stub_jwk noOptions
           [EvCreateCurve (JStr "P-256"); EvToRawPublicKey stub_jwk; EvRandomPrivateKey;
            EvGetPublicKey (replicate 32 x01); EvToJwkPublicKey (replicate 65 x04);
            EvGetSharedSecret (replicate 32 x01) (replicate 65 x04);
            EvConcatKdf (replicate 32 x00) 256 (otherInfo_layout "A256GCM" [] [] 256);
            EvAeadEncrypt "A256GCM" hello (replicate 32 (byte_of_Z 59)) (utf8 "e30")]
           (with_protectedHeader (newFlattenedEncrypter stub_aes)
              (JObj (<[ "epk" := stub_jwk ]> (<[ "kid" := JStr "key-1" ]> ecdh_header))))).
  vm_compute. reflexivity.
Defined.

(** ** C9: the AAD handed to the AEAD *)

Lemma b64u_char_nonempty (b : byte) : b64u_char (Z_of_byte b / 4) ≠ "".
Proof. destruct b; vm_compute; discriminate. Qed.

Lemma string_app_nonempty (s t : string) : s ≠ "" → s +:+ t ≠ "".
Proof. destruct s; [done|]. intros _. discriminate. Qed.

Lemma encodeBase64Url_empty (b : bytes) : encodeBase64Url b = "" ↔ b = [].
Proof.
  split; [|by intros ->].
  destruct b as [|b0 [|b1 [|b2 rest]]]; [done|..]; unfold encodeBase64Url;
    cbn [length fmap list_fmap b64u_groups];
    intros H; exfalso; revert H; apply string_app_nonempty, b64u_char_nonempty.
Qed.

Lemma updateProtectedHeader_aad (this this' : FlattenedEncrypter) (parameters : JsValue) :
  updateProtectedHeader this parameters = Ok this' → fe_aad this' = fe_aad this.
Proof.
  unfold updateProtectedHeader, fe_set_protectedHeader.
  destruct (truthy parameters); [|by intros [= <-]].
  destruct (truthy (fe_protectedHeader this)); cbn; by intros [= <-].
Qed.

(** C9 at an empty caller-supplied [aad]: the encoded [aad] is the empty
    string, which is falsy in [encodeAesAad], so the AEAD receives the
    UTF-8 bytes of the encoded protected header alone and not, as the claim
    and RFC 7516 require for a supplied AAD, those of
    [b64u(protectedHeader) + "." + b64u(aad)]. *)
Lemma C9_empty_aad_evaluation :
  ∃ this' jwe,
    encrypt (stub_platform JNull true)
      (fe_additionalAuthenticatedData
         (with_protectedHeader (newFlattenedEncrypter stub_aes) (JObj ecdh_header)) [])
      (JBytes hello) stub_jwk noOptions
    = ([EvCreateCurve (JStr "P-256"); EvToRawPublicKey stub_jwk; EvRandomPrivateKey;
        EvGetPublicKey (replicate 32 x01); EvToJwkPublicKey (replicate 65 x04);
        EvGetSharedSecret (replicate 32 x01) (replicate 65 x04);
        EvConcatKdf (replicate 32 x00) 256 (otherInfo_layout "A256GCM" [] [] 256);
        EvAeadEncrypt "A256GCM" hello (replicate 32 (byte_of_Z 59)) (utf8 "e30")],
       Ok (this', jwe))
    ∧ get jwe "protected" = JStr "e30"
    ∧ utf8 "e30" ≠ utf8 ("e30" +:+ "." +:+ encodeBase64Url []).
Proof.
  eexists _, _. split; [vm_compute; reflexivity|].
  split; [vm_compute; reflexivity|]. vm_compute. discriminate.
Qed.

(** The AAD of every successful run.  When [encrypt] succeeds, its last external call is the
    AEAD encryption, and the AAD it passes is: the UTF-8 bytes of
    [b64u(protectedHeader) + "." + b64u(aad)] when the caller supplied a
    non-empty [aad]; the UTF-8 bytes of [b64u(protectedHeader)] alone when
    the caller supplied no [aad] or an empty one.  Here
    [b64u(protectedHeader)] is the [protected] member of the result. *)
Theorem C9_aead_aad (Pf : Platform) (this : FlattenedEncrypter)
    (plaintext yourJwkPublicKey : JsValue) (options : Options)
    (tr : list Event) (this' : FlattenedEncrypter) (jwe : JsValue) :
  encrypt Pf this plaintext yourJwkPublicKey options = (tr, Ok (this', jwe)) →
  ∃ H enc pt cek aesAad t,
    get jwe "protected" = JStr H
    ∧ H = encodeBase64UrlHeader Pf (fe_protectedHeader this')
    ∧ tr = t ++ [EvAeadEncrypt enc pt cek aesAad]
    ∧ (∀ aad, fe_aad this = Some aad → aad ≠ [] →
         aesAad = utf8 (H +:+ "." +:+ encodeBase64Url aad))
    ∧ (fe_aad this = None ∨ fe_aad this = Some [] → aesAad = utf8 H).
Proof.
  intros Henc. apply encrypt_ok_try in Henc as (pt & _ & Htry).
  apply encrypt_try_ok in Htry
    as (curve & pk & J & alg & enc & cek & ek & ps & td & c & tg & iv
        & _ & _ & _ & _ & _ & _ & Hupd & -> & ->).
  apply updateProtectedHeader_aad in Hupd as Haad.
  eexists _, enc, pt, cek, _, _. split; [|split; [reflexivity|split]].
  - cbn [get]. apply assemble_jwe_protected.
  - by rewrite app_assoc.
  - rewrite Haad. unfold encodeAesAad. split.
    + intros aad -> Hne. cbn [fmap option_fmap option_map truthy].
      destruct (String.eqb_spec (encodeBase64Url aad) ""); [|done].
      by apply encodeBase64Url_empty in e.
    + by intros [->| ->].
Qed.

Lemma C9_aead_aad_witness :
  ∃ H enc pt cek aesAad t,
    get (JObj {[ "ciphertext" := JStr "SGVsbG8sIFdvcmxkIQ";
                 "iv" := JStr "AAAAAAAAAAAAAAAA";
                 "tag" := JStr "AAAAAAAAAAAAAAAAAAAAAA";
                 "protected" := JStr "e30";
                 "aad" := JStr "QWxpY2U" ]}) "protected" = JStr H
    ∧ H = encodeBase64UrlHeader (stub_platform JNull true)
            (JObj (<[ "epk" := stub_jwk ]> ecdh_header))
    ∧ [EvCreateCurve (JStr "P-256"); EvToRawPublicKey stub_jwk; EvRandomPrivateKey;
       EvGetPublicKey (replicate 32 x01); EvToJwkPublicKey (replicate 65 x04);
       EvGetSharedSecret (replicate 32 x01) (replicate 65 x04);
       EvConcatKdf (replicate 32 x00) 256 (otherInfo_layout "A256GCM" [] [] 256);
       EvAeadEncrypt "A256GCM" hello (replicate 32 (byte_of_Z 59)) (utf8 "e30.QWxpY2U")]
      = t ++ [EvAeadEncrypt enc pt cek aesAad]
    ∧ (∀ aad, Some (utf8 "Alice") = Some aad → aad ≠ [] →
         aesAad = utf8 (H +:+ "." +:+ encodeBase64Url aad))
    ∧ (Some (utf8 "Alice") = None ∨ Some (utf8 "Alice") = Some [] → aesAad = utf8 H).
Proof.
  apply (C9_aead_aad (stub_platform JNull true)
           (fe_additionalAuthenticatedData
              (with_protectedHeader (newFlattenedEncrypter stub_aes) (JObj ecdh_header))
              (utf8 "Alice"))
           (JBytes hello) stub_jwk noOptions _
           (fe_additionalAuthenticatedData
              (with_protectedHeader (newFlattenedEncrypter stub_aes)
                 (JObj (<[ "epk" := stub_jwk ]> ecdh_header)))
              (utf8 "Alice"))).
  vm_compute. reflexivity.
Defined.

(** ** C6: the timing-mitigation wrapper *)

Lemma cekBitLengthByEnc_isEnc (enc : string) :
  isEnc enc = true →
  ∃ bits, cekBitLengthByEnc enc = Ok bits ∧ js_shr bits 3 = bits / 8 ∧ 0 ≤ bits / 8.
Proof.
  intros H%isEnc_cases.
  repeat (apply elem_of_cons in H as [->|H]); [..|by apply elem_of_nil in H];
    eexists; (split; [reflexivity|]); split; (reflexivity || (vm_compute; discriminate)).
Qed.

(** [decrypt] hands the wrapper an [enc] that [validateJweEnc] has accepted. *)
Lemma validateJweEnc_isEnc (v : JsValue) (enc : string) :
  validateJweEnc v = Ok enc → isEnc enc = true.
Proof.
  unfold validateJweEnc. destruct (is_nullish v); [done|].
  destruct v as [| | | |s| | | |]; try done. destruct s; [done|].
  destruct (isEnc _) eqn:Henc; cbn [negb]; [|done]. by intros [= <-].
Qed.




(** ** C8: errors of JWS verification *)

Lemma result_bind_throw {A B : Type} (r : result A) (f : A → result B) (e : Exn) :
  r ≫= f = Throw e → r = Throw e ∨ ∃ a, r = Ok a ∧ f a = Throw e.
Proof.
  destruct r as [a|e']; [|cbn; intros [= ->]; by left].
  intros H. right. by exists a.
Qed.

Lemma of_provider_other {A : Type} (p : provided A) (e : Exn) :
  of_provider p = Throw e → other_error e.
Proof. destruct p; [done|]. by intros [= <-]. Qed.

Lemma decodeBase64Url_other (Pf : Platform) (b64u : JsValue) (label : string) (required : bool)
    (e : Exn) :
  decodeBase64Url Pf b64u label required = Throw e → other_error e.
Proof.
  unfold decodeBase64Url, result_catch.
  destruct (is_nullish b64u); [destruct required; [by intros [= <-]|done]|].
  destruct b64u; try by intros [= <-].
  destruct (decodeB64U Pf s); cbn; [done|by intros [= <-]].
Qed.

Lemma decodeRequiredBase64Url_other (Pf : Platform) (b64u : JsValue) (label : string) (e : Exn) :
  decodeRequiredBase64Url Pf b64u label = Throw e → other_error e.
Proof.
  unfold decodeRequiredBase64Url.
  intros [H|(r & _ & H)]%result_bind_throw.
  - by eapply decodeBase64Url_other.
  - destruct r; [done|]. by injection H as <-.
Qed.

Lemma parseBase64UrlHeader_other (Pf : Platform) (headerB64U : JsValue) (label : string)
    (e : Exn) :
  parseBase64UrlHeader Pf headerB64U label = Throw e → other_error e.
Proof.
  unfold parseBase64UrlHeader.
  intros [H|(b & _ & H)]%result_bind_throw.
  - by eapply decodeRequiredBase64Url_other.
  - unfold result_catch in H.
    destruct (of_provider _ ≫= _); [done|]. by injection H as <-.
Qed.

Lemma mergeJwsHeaders_other (p u : JsValue) (e : Exn) :
  mergeJwsHeaders p u = Throw e → other_error e.
Proof.
  unfold mergeJwsHeaders, verifyJwsHeaders.
  repeat (match goal with |- context [if ?b then _ else _] => destruct b end);
    cbn [mbind result_bind]; try done; by intros [= <-].
Qed.

Lemma validateFlattenedJws_other (Pf : Platform) (jws : JsValue) (e : Exn) :
  validateFlattenedJws Pf jws = Throw e → other_error e.
Proof.
  unfold validateFlattenedJws.
  destruct (is_nullish jws); [by intros [= <-]|].
  destruct (negb (isPlainObject jws)); [by intros [= <-]|].
  intros [H|(signature & _ & H)]%result_bind_throw;
    [by eapply decodeRequiredBase64Url_other|].
  destruct (negb (is_undefined (get jws "header")) && _); [by injection H as <-|].
  apply result_bind_throw in H as [H|(P & _ & H)];
    [by eapply parseBase64UrlHeader_other|].
  apply result_bind_throw in H as [H|(J & _ & H)];
    [by eapply mergeJwsHeaders_other|].
  destruct (is_nullish (get jws "payload")); [by injection H as <-|].
  destruct (get jws "payload"); try done; by injection H as <-.
Qed.

Lemma validateCrit_jws_other (D O : option (gmap string bool)) (P : JsValue) (J : Header)
    (e : Exn) :
  validateCrit JwsInvalid D O P J = Throw e → other_error e.
Proof.
  intros H.
  destruct (validateCrit_decision JwsInvalid D O P J) as [(msg & Hthrow & _)|[Hok _]].
  - rewrite Hthrow in H. by injection H as <-.
  - congruence.
Qed.

Lemma parseB64_other (b64 : JsValue) (names : gset string) (e : Exn) :
  parseB64 b64 names = Throw e → other_error e.
Proof.
  unfold parseB64. destruct (bool_decide _); [|done].
  destruct (is_nullish b64); [done|]. destruct b64; try done; by intros [= <-].
Qed.

Lemma validateJwsAlg_other (alg : JsValue) (expectedAlg : string) (e : Exn) :
  validateJwsAlg alg expectedAlg = Throw e → other_error e.
Proof.
  unfold validateJwsAlg. destruct (is_nullish alg); [by intros [= <-]|].
  destruct alg as [| | | |s| | | |]; try by intros [= <-].
  destruct s; [by intros [= <-]|].
  destruct (negb (isJwsAlg _)); [by intros [= <-]|].
  destruct (negb (String.eqb _ _)); [by intros [= <-]|done].
Qed.

Lemma encodeVerifyTarget_other (Pf : Platform) (H : string) (payload : JsValue) (b64 : bool)
    (e : Exn) :
  encodeVerifyTarget Pf H payload b64 = Throw e → other_error e.
Proof.
  unfold encodeVerifyTarget. destruct b64, payload; try done; try by intros [= <-].
  destruct (decodeB64U Pf s); cbn; [done|by intros [= <-]].
Qed.

Lemma call_throw {A : Type} (ev : Event) (p : provided A) (tr : list Event) (e : Exn) :
  call ev p = (tr, Throw e) → other_error e.
Proof. destruct p; unfold call; cbn; [done|]. by intros [= _ <-]. Qed.

(** Whatever the preparation throws is not the signature-failure error. *)
Lemma verify_prepare_other (Pf : Platform) (randomBytes : Z → bytes)
    (jws jwk : JsValue) (options : Options) (tr : list Event) (e : Exn) :
  verify_prepare Pf randomBytes jws jwk options = (tr, Throw e) → other_error e.
Proof.
  unfold verify_prepare. intros H.
  apply M_bind_throw in H as [H|(t1 & curve & t1' & _ & H & ->)]; [by eapply call_throw|].
  apply M_bind_throw in H as [H|(t2 & pk & t2' & _ & H & ->)]; [by eapply call_throw|].
  apply M_bind_throw in H as [[_ H]%lift_inv|(t3 & [[sg J] P] & t3' & _ & H & ->)];
    [by eapply validateFlattenedJws_other|].
  apply M_bind_throw in H as [[_ H]%lift_inv|(t4 & names & t4' & _ & H & ->)];
    [by eapply validateCrit_jws_other|].
  apply M_bind_throw in H as [[_ H]%lift_inv|(t5 & b64 & t5' & _ & H & ->)];
    [by eapply parseB64_other|].
  apply M_bind_throw in H as [[_ H]%lift_inv|(t6 & alg & t6' & _ & H & ->)];
    [by eapply validateJwsAlg_other|].
  apply M_bind_throw in H as [[_ H]%lift_inv|(t7 & [target payload] & t7' & _ & H & ->)];
    [by eapply encodeVerifyTarget_other|].
  done.
Qed.

(** C8. For arguments that pass the input validation of [verify]: when the
    preparation succeeds and the signature primitive returns [false], the
    operation throws the JwsSignatureVerificationFailed error, which the
    [catch] block lets through unchanged; and whenever the operation
    throws, it throws either that error (and then the primitive did return
    [false]) or the generic JWS [invalid] error "Failed to verify JWS
    signature". *)
Theorem C8_verify_errors (Pf : Platform) (randomBytes : Z → bytes)
    (jws jwkPublicKey : JsValue) (options : Options) :
  verify_input_valid jws jwkPublicKey →
  (∀ t1 i t2,
     verify_prepare Pf randomBytes jws jwkPublicKey options = (t1, Ok i) →
     verify_primitive i = (t2, Ok false) →
     verify Pf randomBytes jws jwkPublicKey options
     = (t1 ++ t2, Throw JwsSignatureVerificationFailed))
  ∧ (∀ tr e,
       verify Pf randomBytes jws jwkPublicKey options = (tr, Throw e) →
       (e = JwsSignatureVerificationFailed
        ∧ ∃ t1 i t2,
            verify_prepare Pf randomBytes jws jwkPublicKey options = (t1, Ok i)
            ∧ verify_primitive i = (t2, Ok false))
       ∨ e = JwsInvalid "Failed to verify JWS signature").
Proof.
  intros (Hjws & Hjwk & Hcrv).
  assert (verify Pf randomBytes jws jwkPublicKey options
          = try_catch (verify_try Pf randomBytes jws jwkPublicKey options)
              (λ error,
                 if is_signature_verification_failed error then lift (Throw error)
                 else lift (Throw (JwsInvalid "Failed to verify JWS signature")))) as ->.
  { unfold verify. rewrite Hjws, Hjwk, Hcrv.
    destruct jws; try done. by destruct jwkPublicKey. }
  unfold verify_try. split.
  - intros t1 i t2 Hprep Hprim. rewrite Hprep. unfold M_bind at 1. rewrite Hprim.
    cbn. by rewrite !app_nil_r.
  - intros tr e.
    destruct (verify_prepare Pf randomBytes jws jwkPublicKey options) as [t1 [i|e0]] eqn:Hprep.
    + unfold M_bind at 1.
      destruct (verify_primitive i) as [t2 [[|]|e1]] eqn:Hprim.
      * cbn. repeat case_match; done.
      * cbn. intros [= _ <-]. left. split; [done|]. by exists t1, i, t2.
      * apply call_throw in Hprim as Hother. unfold other_error in Hother.
        cbn. rewrite Hother. cbn. intros [= _ <-]. by right.
    + apply verify_prepare_other in Hprep as Hother. unfold other_error in Hother.
      cbn. rewrite Hother. cbn. intros [= _ <-]. by right.
Qed.

Lemma C8_verify_errors_witness :
  ∃ tr, verify (stub_platform es256_header false) stub_randomBytes stub_jws stub_jwk noOptions
        = (tr, Throw JwsSignatureVerificationFailed).
Proof.
  eexists.
  eapply (proj1 (C8_verify_errors (stub_platform es256_header false) stub_randomBytes
                   stub_jws stub_jwk noOptions (conj eq_refl (conj eq_refl eq_refl)))).
  - vm_compute. reflexivity.
  - vm_compute. reflexivity.
Defined.

Example verify_accepts :
  verify (stub_platform es256_header true) stub_randomBytes stub_jws stub_jwk noOptions
  = ([EvCreateCurve (JStr "P-256"); EvToRawPublicKey stub_jwk;
      EvVerify (replicate 65 x04) (utf8 "eyJhbGciOiJFUzI1NiJ9.dGVzdA") (utf8 "c2ln")],
     Ok (JObj {[ "payload" := JBytes (utf8 "dGVzdA"); "protectedHeader" := es256_header ]})).
Proof. vm_compute. reflexivity. Qed.

(** ** Runs of the pipelines on the scenarios of the specification *)

(** Scenario C: OtherInfo for A128GCM without party info is
    00000007 "A128GCM" 00000000 00000000 00000080. *)
Example otherInfo_scenario_C :
  buildKdfOtherInfo "A128GCM" None None 128
  = Ok ([x00; x00; x00; x07] ++ utf8 "A128GCM"
        ++ [x00; x00; x00; x00] ++ [x00; x00; x00; x00] ++ [x00; x00; x00; x80]).
Proof. reflexivity. Qed.

(** Scenario B: apu = "Alice" and apv = "Bob" end up base64url-encoded in
    the protected header. *)
Example encrypt_scenario_B :
  ∃ tr this' jwe,
    encrypt (stub_platform JNull true)
      {| fe_aes := stub_aes;
         fe_protectedHeader := JObj ecdh_header;
         fe_sharedUnprotectedHeader := JUndefined;
         fe_unprotectedHeader := JUndefined;
         fe_aad := None;
         fe_keyManagementParameters :=
           JObj {[ "apu" := JBytes (utf8 "Alice"); "apv" := JBytes (utf8 "Bob") ]} |}
      (JBytes hello) stub_jwk noOptions = (tr, Ok (this', jwe))
    ∧ get (fe_protectedHeader this') "apu" = JStr "QWxpY2U"
    ∧ get (fe_protectedHeader this') "apv" = JStr "Qm9i".
Proof. eexists _, _, _. repeat split; vm_compute; reflexivity. Qed.

(** A critical [b64] carried by the unprotected header only: [sign] accepts
    it when the option set maps [b64] to [false], and rejects it otherwise. *)
Example sign_b64_option :
  is_ok (sign (stub_platform JNull true)
           {| fs_randomBytes := stub_randomBytes;
              fs_protectedHeader := b64_unprotected_header;
              fs_unprotectedHeader := JObj {[ "b64" := JBool false ]} |}
           (JBytes hello) stub_jwk
           {| opt_crit := Some {[ "b64" := false ]};
              opt_keyManagementAlgorithms := JUndefined;
              opt_contentEncryptionAlgorithms := JUndefined |}).2 = true
  ∧ (sign (stub_platform JNull true)
       {| fs_randomBytes := stub_randomBytes;
          fs_protectedHeader := b64_unprotected_header;
          fs_unprotectedHeader := JObj {[ "b64" := JBool false ]} |}
       (JBytes hello) stub_jwk noOptions).2
    = Throw (JwsInvalid "Failed to sign payload").
Proof. split; vm_compute; reflexivity. Qed.

(** * Further properties of the code *)

(** ** Header positions *)

Lemma areDisjoint_from_spec (l : list JsValue) : ∀ acc : gset string,
  areDisjoint_from acc l = true
  ↔ Forall (λ h, Object_keys h ## acc) l
    ∧ ∀ i j hi hj, (i < j)%nat → l !! i = Some hi → l !! j = Some hj →
                   Object_keys hi ## Object_keys hj.
Proof.
  induction l as [|h l IH]; intros acc.
  - cbn. split; [|done]. intros _. split; [constructor|]. intros ? ? ? ? _ Hi. done.
  - rewrite areDisjoint_from_cons, IH. split.
    + intros (Hh & Hall & Hpw). split.
      * constructor; [done|]. eapply Forall_impl; [exact Hall|]. cbn. set_solver.
      * intros [|i] [|j] hi hj Hlt Hi Hj; try lia; cbn in Hi, Hj.
        -- injection Hi as <-. rewrite Forall_forall in Hall.
           apply list_elem_of_lookup_2 in Hj. specialize (Hall _ Hj). set_solver.
        -- apply (Hpw i j); [lia|done..].
    + intros (Hall & Hpw). apply Forall_cons in Hall as [Hh Hall]. split; [done|]. split.
      * apply Forall_forall. intros h' Hin.
        apply list_elem_of_lookup_1 in Hin as [j Hj].
        rewrite Forall_forall in Hall.
        pose proof (Hall h' (list_elem_of_lookup_2 _ _ _ Hj)) as H1.
        pose proof (Hpw 0%nat (S j) h h' ltac:(lia) eq_refl Hj) as H2.
        set_solver.
      * intros i j hi hj Hlt Hi Hj. apply (Hpw (S i) (S j)); [lia|done..].
Qed.

Lemma pairwise_filter_truthy (l : list JsValue) :
  (∀ i j hi hj, (i < j)%nat → filter (λ h, truthy h = true) l !! i = Some hi →
                filter (λ h, truthy h = true) l !! j = Some hj →
                Object_keys hi ## Object_keys hj)
  ↔ (∀ i j hi hj, (i < j)%nat → l !! i = Some hi → l !! j = Some hj →
                  Object_keys hi ## Object_keys hj).
Proof.
  induction l as [|h l IH]; [done|].
  rewrite filter_cons. case_decide as Hh.
  - split.
    + intros Hpw [|i] [|j] hi hj Hlt Hi Hj; try lia; cbn in Hi, Hj.
      * injection Hi as <-.
        destruct (truthy hj) eqn:Htj; [|rewrite (falsy_no_keys _ Htj); set_solver].
        assert (hj ∈ filter (λ h, truthy h = true) l) as Hin.
        { apply list_elem_of_filter. split; [done|]. by eapply list_elem_of_lookup_2. }
        apply list_elem_of_lookup_1 in Hin as [j' Hj'].
        apply (Hpw 0%nat (S j')); [lia|done..].
      * apply (proj1 IH) with i j; [|lia|done..].
        intros i' j' hi' hj' Hlt' Hi' Hj'. apply (Hpw (S i') (S j')); [lia|done..].
    + intros Hpw [|i] [|j] hi hj Hlt Hi Hj; try lia; cbn in Hi, Hj.
      * injection Hi as <-.
        apply list_elem_of_lookup_2, list_elem_of_filter in Hj as [_ Hj].
        apply list_elem_of_lookup_1 in Hj as [j' Hj'].
        apply (Hpw 0%nat (S j')); [lia|done..].
      * apply (proj2 IH) with i j; [|lia|done..].
        intros i' j' hi' hj' Hlt' Hi' Hj'. apply (Hpw (S i') (S j')); [lia|done..].
  - assert (truthy h = false) as Hf by by destruct (truthy h).
    rewrite IH. split.
    + intros Hpw [|i] [|j] hi hj Hlt Hi Hj; try lia; cbn in Hi, Hj.
      * injection Hi as <-. rewrite (falsy_no_keys _ Hf). set_solver.
      * apply (Hpw i j); [lia|done..].
    + intros Hpw i j hi hj Hlt Hi Hj. apply (Hpw (S i) (S j)); [lia|done..].
Qed.

(** X1. On headers that are absent or plain objects, [areDisjoint] answers
    true exactly when no parameter name occurs in two of them, whatever
    their number. *)
Theorem areDisjoint_pairwise (headers : list JsValue) :
  Forall (λ h, h = JUndefined ∨ isPlainObject h = true) headers →
  (areDisjoint headers = true
   ↔ ∀ i j hi hj, (i < j)%nat → headers !! i = Some hi → headers !! j = Some hj →
                  Object_keys hi ## Object_keys hj).
Proof.
  intros _. rewrite <- pairwise_filter_truthy. unfold areDisjoint.
  destruct (filter _ headers) as [|first [|second rest]].
  - split; [|done]. intros _ i j hi hj _ Hi. done.
  - split; [|done]. intros _ [|i] [|j] hi hj Hlt Hi Hj; try lia; done.
  - rewrite areDisjoint_from_spec. split.
    + intros [Hall Hpw] [|i] [|j] hi hj Hlt Hi Hj; try lia; cbn in Hi, Hj.
      * injection Hi as <-. rewrite Forall_forall in Hall.
        symmetry. apply Hall. by eapply list_elem_of_lookup_2.
      * apply (Hpw i j); [lia|done..].
    + intros Hpw. split.
      * apply Forall_forall. intros h Hin. apply list_elem_of_lookup_1 in Hin as [j Hj].
        symmetry. apply (Hpw 0%nat (S j)); [lia|done..].
      * intros i j hi hj Hlt Hi Hj. apply (Hpw (S i) (S j)); [lia|done..].
Qed.

Lemma areDisjoint_pairwise_witness :
  areDisjoint [JObj ecdh_header; JUndefined; JObj {[ "kid" := JStr "key-1" ]};
               JObj {[ "cty" := JStr "JWT" ]}] = true
  ↔ ∀ i j hi hj, (i < j)%nat →
      [JObj ecdh_header; JUndefined; JObj {[ "kid" := JStr "key-1" ]};
       JObj {[ "cty" := JStr "JWT" ]}] !! i = Some hi →
      [JObj ecdh_header; JUndefined; JObj {[ "kid" := JStr "key-1" ]};
       JObj {[ "cty" := JStr "JWT" ]}] !! j = Some hj →
      Object_keys hi ## Object_keys hj.
Proof.
  apply areDisjoint_pairwise.
  repeat (constructor; [first [by left | by right]|]). constructor.
Defined.

Lemma undefined_or_not (v : JsValue) : v = JUndefined ∨ v ≠ JUndefined.
Proof. destruct v; auto. Qed.

Lemma prop_union (a b : Header) (name : string) :
  prop (a ∪ b) name = match a !! name with Some v => v | None => prop b name end.
Proof.
  destruct (a !! name) as [v|] eqn:Ha.
  - unfold prop. by rewrite (lookup_union_Some_l _ _ _ _ Ha).
  - by apply prop_union_r.
Qed.

Lemma prop_union_undefined (a b : Header) (name : string) :
  prop a name = JUndefined → prop b name = JUndefined → prop (a ∪ b) name = JUndefined.
Proof.
  intros Ha Hb. rewrite prop_union. unfold prop in Ha. by destruct (a !! name).
Qed.

Lemma lookup_union3_disjoint (a b c : Header) (name : string) (v : JsValue) :
  dom a ## dom b → dom a ## dom c → dom b ## dom c →
  (a ∪ (b ∪ c)) !! name = Some v
  ↔ a !! name = Some v ∨ b !! name = Some v ∨ c !! name = Some v.
Proof.
  intros Hab Hac Hbc.
  rewrite lookup_union_Some.
  - rewrite lookup_union_Some; [done|]. by apply map_disjoint_dom.
  - apply map_disjoint_dom. rewrite dom_union. set_solver.
Qed.

Lemma verifyJweHeaders_spec (p s u : JsValue) :
  verifyJweHeaders p s u = Ok ()
  ↔ (∃ h, p = JObj h ∧ h ≠ ∅)
    ∧ (truthy s = true → isPlainObject s = true)
    ∧ (truthy u = true → isPlainObject u = true)
    ∧ Object_keys p ## Object_keys s ∧ Object_keys p ## Object_keys u
    ∧ Object_keys s ## Object_keys u.
Proof.
  split.
  - intros Hv. pose proof (verifyJweHeaders_ok _ _ _ Hv) as (Hp & Hps & Hpu & Hsu).
    repeat split; try done.
    + intros Hs. revert Hv. unfold verifyJweHeaders.
      destruct Hp as (h & -> & _). cbn [truthy negb isPlainObject].
      case_bool_decide; [done|]. rewrite Hs. by destruct (isPlainObject s).
    + intros Hu. revert Hv. unfold verifyJweHeaders.
      destruct Hp as (h & -> & _). cbn [truthy negb isPlainObject].
      case_bool_decide; [done|]. destruct (truthy s && negb (isPlainObject s)); [done|].
      rewrite Hu. by destruct (isPlainObject u).
  - intros ((h & -> & Hne) & Hs & Hu & Hps & Hpu & Hsu).
    unfold verifyJweHeaders. cbn [truthy negb isPlainObject].
    case_bool_decide as Hempty.
    { exfalso. apply Hne. unfold Object_keys in Hempty. cbn in Hempty.
      by apply dom_empty_inv_L. }
    destruct (truthy s) eqn:Hts; [rewrite Hs by done|]; cbn [andb negb];
      (destruct (truthy u) eqn:Htu; [rewrite Hu by done|]; cbn [andb negb]);
      (destruct (areDisjoint _) eqn:Hd; [done|]);
      exfalso; apply not_true_iff_false in Hd; apply Hd; by apply areDisjoint3_spec.
Qed.

Lemma mergeJweHeaders_ok_iff (p s u : JsValue) :
  (∃ J, mergeJweHeaders p s u = Ok J)
  ↔ (∃ h, p = JObj h ∧ h ≠ ∅)
    ∧ (truthy s = true → isPlainObject s = true)
    ∧ (truthy u = true → isPlainObject u = true)
    ∧ Object_keys p ## Object_keys s ∧ Object_keys p ## Object_keys u
    ∧ Object_keys s ## Object_keys u
    ∧ get p "zip" = JUndefined ∧ get s "zip" = JUndefined ∧ get u "zip" = JUndefined.
Proof.
  split.
  - intros [J HJ].
    assert (verifyJweHeaders p s u = Ok ()) as Hv.
    { unfold mergeJweHeaders in HJ. by destruct (verifyJweHeaders p s u) as [[]|]. }
    apply verifyJweHeaders_spec in Hv as (Hp & Hs & Hu & Hps & Hpu & Hsu).
    repeat split; try done.
    + destruct (undefined_or_not (get p "zip")) as [|Hz]; [done|].
      destruct (mergeJweHeaders_zip p s u) as (e & He & _); [by left|congruence].
    + destruct (undefined_or_not (get s "zip")) as [|Hz]; [done|].
      destruct (mergeJweHeaders_zip p s u) as (e & He & _); [by right; left|congruence].
    + destruct (undefined_or_not (get u "zip")) as [|Hz]; [done|].
      destruct (mergeJweHeaders_zip p s u) as (e & He & _); [by right; right|congruence].
  - intros (Hp & Hs & Hu & Hps & Hpu & Hsu & Hzp & Hzs & Hzu).
    assert (verifyJweHeaders p s u = Ok ()) as Hv by by apply verifyJweHeaders_spec.
    unfold mergeJweHeaders. rewrite Hv. cbn [mbind result_bind].
    rewrite !get_own_props in Hzp, Hzs, Hzu.
    unfold spread3.
    rewrite (prop_union_undefined _ _ _ Hzp (prop_union_undefined _ _ _ Hzs Hzu)). eauto.
Qed.

Lemma mergeJweHeaders_ok_eq (p s u : JsValue) (J : Header) :
  mergeJweHeaders p s u = Ok J → J = spread3 u s p.
Proof.
  unfold mergeJweHeaders. destruct (verifyJweHeaders p s u) as [[]|]; [|done].
  cbn [mbind result_bind]. destruct (negb _); [done|]. by intros [= <-].
Qed.

(** X2. [mergeJweHeaders] returns a merged header exactly when the
    protected header is a non-empty plain object, the two unprotected
    headers are absent or plain objects, no parameter name occurs in two
    positions and no position gives [zip] a value; the merged header then
    holds exactly the parameters of the three positions, each with the
    value of its own position. *)
Theorem mergeJweHeaders_spec (p s u : JsValue) :
  ((∃ J, mergeJweHeaders p s u = Ok J)
   ↔ (∃ h, p = JObj h ∧ h ≠ ∅)
     ∧ (truthy s = true → isPlainObject s = true)
     ∧ (truthy u = true → isPlainObject u = true)
     ∧ Object_keys p ## Object_keys s ∧ Object_keys p ## Object_keys u
     ∧ Object_keys s ## Object_keys u
     ∧ get p "zip" = JUndefined ∧ get s "zip" = JUndefined ∧ get u "zip" = JUndefined)
  ∧ (∀ J, mergeJweHeaders p s u = Ok J →
       ∀ name v, J !! name = Some v
                 ↔ own_props p !! name = Some v ∨ own_props s !! name = Some v
                   ∨ own_props u !! name = Some v).
Proof.
  split; [apply mergeJweHeaders_ok_iff|].
  intros J HJ name v.
  assert (∃ J, mergeJweHeaders p s u = Ok J) as (_ & _ & _ & Hps & Hpu & Hsu & _)%mergeJweHeaders_ok_iff
    by eauto.
  apply mergeJweHeaders_ok_eq in HJ as ->.
  unfold spread3. by apply lookup_union3_disjoint.
Qed.

Lemma verifyJwsHeaders_spec (p u : JsValue) :
  verifyJwsHeaders p u = Ok ()
  ↔ (∃ h, p = JObj h ∧ h ≠ ∅)
    ∧ (truthy u = true → isPlainObject u = true)
    ∧ Object_keys p ## Object_keys u.
Proof.
  unfold verifyJwsHeaders. split.
  - destruct (truthy p) eqn:Hp; [|done]. cbn [negb].
    destruct p as [| | | | | | |h|]; try done. cbn [isPlainObject negb].
    case_bool_decide as Hempty; [done|].
    destruct (truthy u) eqn:Htu; cbn [andb];
      (destruct (isPlainObject u); cbn [negb]; [|try done]);
      (destruct (areDisjoint _) eqn:Hd; [|done]);
      intros _; apply areDisjoint2_spec in Hd;
      (repeat split; [|done..]);
      exists h; (split; [done|]); intros ->; apply Hempty; apply dom_empty_L.
  - intros ((h & -> & Hne) & Hu & Hpu). cbn [truthy negb isPlainObject].
    case_bool_decide as Hempty.
    { exfalso. apply Hne. unfold Object_keys in Hempty. cbn in Hempty.
      by apply dom_empty_inv_L. }
    destruct (truthy u) eqn:Htu; [rewrite Hu by done|]; cbn [andb negb];
      (destruct (areDisjoint _) eqn:Hd; [done|]);
      exfalso; apply not_true_iff_false in Hd; apply Hd; by apply areDisjoint2_spec.
Qed.

(** X3. [mergeJwsHeaders] returns a merged header exactly when the
    protected header is a non-empty plain object, the unprotected header
    is absent or a plain object, and the two share no parameter name; the
    merged header then holds exactly the parameters of both, each with
    its own value. *)
Theorem mergeJwsHeaders_spec (p u : JsValue) :
  ((∃ J, mergeJwsHeaders p u = Ok J)
   ↔ (∃ h, p = JObj h ∧ h ≠ ∅)
     ∧ (truthy u = true → isPlainObject u = true)
     ∧ Object_keys p ## Object_keys u)
  ∧ (∀ J, mergeJwsHeaders p u = Ok J →
       ∀ name v, J !! name = Some v
                 ↔ own_props p !! name = Some v ∨ own_props u !! name = Some v).
Proof.
  split; [split|].
  - intros [J HJ]. apply verifyJwsHeaders_spec.
    unfold mergeJwsHeaders in HJ. by destruct (verifyJwsHeaders p u) as [[]|].
  - intros Hc. apply verifyJwsHeaders_spec in Hc. unfold mergeJwsHeaders.
    rewrite Hc. cbn. eauto.
  - intros J HJ name v. unfold mergeJwsHeaders in HJ.
    destruct (verifyJwsHeaders p u) as [[]|] eqn:Hv; [|done].
    cbn in HJ. injection HJ as <-.
    apply verifyJwsHeaders_spec in Hv as (_ & _ & Hpu).
    unfold spread2. apply lookup_union_Some. by apply map_disjoint_dom.
Qed.

(** ** Length-prefixed fields and OtherInfo *)

Lemma Z_of_byte_of_Z (z : Z) : Z_of_byte (byte_of_Z z) = z mod 256.
Proof.
  unfold Z_of_byte, byte_of_Z.
  assert (0 ≤ z mod 256 < 256) as Hr by (apply Z.mod_pos_bound; lia).
  destruct (Byte.of_N (Z.to_N (z mod 256))) as [b|] eqn:Hb.
  - apply Byte.to_of_N in Hb. cbn [default from_option id]. rewrite Hb. lia.
  - apply Byte.of_N_None_iff in Hb. lia.
Qed.

Lemma fromUint32BE_toUint32BE (n : Z) : fromUint32BE (toUint32BE n) = n mod 2 ^ 32.
Proof.
  unfold fromUint32BE, toUint32BE. rewrite !Z_of_byte_of_Z, !Z.shiftr_div_pow2 by lia.
  Z.div_mod_to_equations. lia.
Qed.

Lemma read_length_prefixed_app (input rest : bytes) :
  Z.of_nat (length input) < 2 ^ 32 →
  read_length_prefixed ((toUint32BE (Z.of_nat (length input)) ++ input) ++ rest)
  = Some (input, rest).
Proof.
  intros Hlen. unfold read_length_prefixed.
  rewrite <- (assoc_L (++)).
  change (take 4 (toUint32BE ?n ++ ?l)) with (toUint32BE n).
  rewrite fromUint32BE_toUint32BE, Z.mod_small by lia. rewrite Nat2Z.id.
  change (drop 4 (toUint32BE ?n ++ ?l)) with l.
  rewrite take_app_length.
  change (drop (4 + ?k) (toUint32BE ?n ++ ?l)) with (drop k l).
  rewrite drop_app_length.
  rewrite decide_True; [done|].
  rewrite !length_app, toUint32BE_length. lia.
Qed.

(** X4. [lengthAndInput] accepts every input shorter than 2^32 bytes and
    writes four more bytes than it is given; the field can be read back
    from the front of any byte string that starts with it, together with
    what follows.  Longer inputs are a range error. *)
Theorem lengthAndInput_read_back (input : bytes) :
  (Z.of_nat (length input) ≤ 4294967295 →
     ∃ encoded, lengthAndInput input = Ok encoded
       ∧ length encoded = (4 + length input)%nat
       ∧ ∀ rest, read_length_prefixed (encoded ++ rest) = Some (input, rest))
  ∧ (4294967295 < Z.of_nat (length input) →
     lengthAndInput input = Throw (RangeError "Input too large")).
Proof.
  unfold lengthAndInput. split; intros Hlen.
  - destruct (Z.gtb_spec (Z.of_nat (length input)) 4294967295); [lia|].
    eexists. split; [done|]. split.
    + by rewrite length_app.
    + intros rest. apply read_length_prefixed_app. lia.
  - by destruct (Z.gtb_spec (Z.of_nat (length input)) 4294967295); [|lia].
Qed.



Lemma buildKdfOtherInfo_ok (algorithm : string) (apu apv : option bytes) (k : Z) (o : bytes) :
  buildKdfOtherInfo algorithm apu apv k = Ok o →
  (length (default [] apu) ≤ 32)%nat ∧ (length (default [] apv) ≤ 32)%nat
  ∧ isEnc algorithm = true
  ∧ o = otherInfo_layout algorithm (default [] apu) (default [] apv) k.
Proof.
  unfold buildKdfOtherInfo.
  destruct (Z.gtb_spec (Z.of_nat (length (default [] apu))) 32); [done|].
  destruct (Z.gtb_spec (Z.of_nat (length (default [] apv))) 32); [done|].
  cbn [orb]. destruct (isEnc algorithm) eqn:Henc; [|done]. cbn [negb].
  rewrite (lengthAndInput_small (utf8 algorithm)) by by apply isEnc_name_short.
  rewrite !lengthAndInput_small by lia. cbn [mbind result_bind].
  intros [= <-]. split; [lia|]. split; [lia|]. split; [done|].
  unfold otherInfo_layout. by rewrite <- ?(assoc_L (++)).
Qed.



(** ** The key-derivation stream *)

(** X6. For every positive bit length below 2^31, a multiple of eight or
    not, [concatKdf] returns [keyBitLength / 8] bytes rounded down; and
    the keying material for a shorter length is the beginning of the
    keying material for a longer one, the shared secret and OtherInfo
    being the same. *)
Theorem concatKdf_stream (sha256 : bytes → bytes) (sharedSecret otherInfo : bytes) (k1 k2 : Z) :
  (∀ b, length (sha256 b) = 32%nat) →
  0 < k1 ≤ k2 → k2 < 2 ^ 31 →
  ∃ o1 o2,
    concatKdf sha256 sharedSecret (inject_Z k1) otherInfo = Ok o1
    ∧ concatKdf sha256 sharedSecret (inject_Z k2) otherInfo = Ok o2
    ∧ Z.of_nat (length o1) = k1 / 8
    ∧ Z.of_nat (length o2) = k2 / 8
    ∧ o1 = take (length o1) o2.
Proof.
  intros Hsha Hk1 Hk2.
  exists (concatKdf_reference sha256 sharedSecret k1 otherInfo),
         (concatKdf_reference sha256 sharedSecret k2 otherInfo).
  rewrite !(concatKdf_refines sha256 Hsha) by lia.
  rewrite !(concatKdf_reference_length sha256 Hsha) by lia.
  assert (0 ≤ k1 / 8 ≤ k2 / 8) as Hn.
  { split; [apply Z.div_pos; lia|apply Z.div_le_mono; lia]. }
  repeat split; try lia.
  unfold concatKdf_reference.
  set (n1 := Z.to_nat (k1 / 8)). set (n2 := Z.to_nat (k2 / 8)).
  set (m1 := Z.to_nat (ceil_div (k1 / 8) 32)). set (m2 := Z.to_nat (ceil_div (k2 / 8) 32)).
  assert (n1 ≤ n2)%nat as Hn12 by lia.
  assert (n1 ≤ m1 * 32 ∧ m1 ≤ m2)%nat as [Hn1 Hm12].
  { subst n1 m1 m2. unfold ceil_div. split.
    - apply Nat2Z.inj_le. rewrite Nat2Z.inj_mul, !Z2Nat.id; [|Z.div_mod_to_equations; lia|lia].
      Z.div_mod_to_equations; lia.
    - apply Z2Nat.inj_le; Z.div_mod_to_equations; lia. }
  rewrite take_take, Nat.min_l by lia.
  replace m2 with (m1 + (m2 - m1))%nat by lia.
  rewrite seq_app, fmap_app, join_app.
  rewrite take_app_le; [done|].
  rewrite (mjoin_blocks_length sha256 Hsha), length_seq. lia.
Qed.

Lemma concatKdf_stream_witness :
  ∃ o1 o2,
    concatKdf constant_hash (replicate 32 x00) (inject_Z 129) (utf8 "A128GCM") = Ok o1
    ∧ concatKdf constant_hash (replicate 32 x00) (inject_Z 512) (utf8 "A128GCM") = Ok o2
    ∧ Z.of_nat (length o1) = 129 / 8
    ∧ Z.of_nat (length o2) = 512 / 8
    ∧ o1 = take (length o1) o2.
Proof.
  apply (concatKdf_stream constant_hash (replicate 32 x00) (utf8 "A128GCM") 129 512).
  - intros b. apply length_replicate.
  - lia.
  - lia.
Defined.

(** ** The reference base64url decoder *)

Lemma byte_of_Z_of_byte (b : byte) : byte_of_Z (Z_of_byte b) = b.
Proof. destruct b; vm_compute; reflexivity. Qed.

Lemma Z_of_byte_range (b : byte) : 0 ≤ Z_of_byte b < 256.
Proof. unfold Z_of_byte. pose proof (Byte.to_N_bounded b). lia. Qed.

Lemma b64u_sextets_alphabet :
  Forall (λ n, b64u_sextets (b64u_char (Z.of_nat n)) = [Z.of_nat n]) (seq 0 64).
Proof. apply (bool_decide_unpack _). vm_compute. done. Qed.

Lemma b64u_sextets_app (s t : string) : b64u_sextets (s +:+ t) = b64u_sextets s ++ b64u_sextets t.
Proof. induction s as [|c s IH]; [done|]. simpl. by rewrite IH. Qed.

Lemma b64u_sextets_char1 (i : Z) : 0 ≤ i < 64 → b64u_sextets (b64u_char i) = [i].
Proof.
  intros Hi. pose proof b64u_sextets_alphabet as H. rewrite Forall_forall in H.
  rewrite <- (Z2Nat.id i) by lia. apply H, elem_of_seq. lia.
Qed.

Lemma b64u_sextets_char (i : Z) (s : string) :
  0 ≤ i < 64 → b64u_sextets (b64u_char i +:+ s) = i :: b64u_sextets s.
Proof. intros Hi. by rewrite b64u_sextets_app, b64u_sextets_char1. Qed.

Lemma b64u_octets_groups (fuel : nat) : ∀ l : list Z,
  (length l ≤ fuel)%nat → Forall (λ b, 0 ≤ b < 256) l →
  b64u_octets (b64u_sextets (b64u_groups fuel l)) = l.
Proof.
  induction fuel as [|fuel IH]; intros l Hlen Hl.
  - destruct l; [done|cbn in Hlen; lia].
  - destruct l as [|b0 [|b1 [|b2 rest]]].
    + done.
    + apply Forall_cons in Hl as [H0 _]. cbn [b64u_groups].
      rewrite !b64u_sextets_char by (Z.div_mod_to_equations; lia).
      rewrite b64u_sextets_char1 by (Z.div_mod_to_equations; lia).
      cbn [b64u_sextets b64u_octets]. f_equal. (Z.div_mod_to_equations; lia).
    + apply Forall_cons in Hl as [H0 [H1 _]%Forall_cons]. cbn [b64u_groups].
      rewrite !b64u_sextets_char by (Z.div_mod_to_equations; lia).
      rewrite b64u_sextets_char1 by (Z.div_mod_to_equations; lia).
      cbn [b64u_sextets b64u_octets]. (repeat f_equal; Z.div_mod_to_equations; lia).
    + apply Forall_cons in Hl as [H0 [H1 [H2 Hrest]%Forall_cons]%Forall_cons].
      cbn [b64u_groups].
      rewrite !b64u_sextets_char by (Z.div_mod_to_equations; lia).
      cbn [b64u_octets]. rewrite IH by (cbn in Hlen; first [done | lia]).
      (repeat f_equal; Z.div_mod_to_equations; lia).
Qed.

Lemma b64u_decode_encode (b : bytes) : b64u_decode (encodeBase64Url b) = b.
Proof.
  unfold b64u_decode, encodeBase64Url. rewrite b64u_octets_groups.
  - rewrite <- list_fmap_compose. rewrite <- (list_fmap_id b) at 2.
    apply list_fmap_ext. intros _ x _. apply byte_of_Z_of_byte.
  - by rewrite length_fmap.
  - apply Forall_fmap, Forall_forall. intros x _. apply Z_of_byte_range.
Qed.

Lemma codec_platform_base64url (parsed : JsValue) : base64url_contract (codec_platform parsed).
Proof. intros b. cbn. by rewrite b64u_decode_encode. Qed.

(** ** ECDH-ES key agreement *)

Lemma validateJweEnc_str (s e : string) :
  validateJweEnc (JStr s) = Ok e ↔ e = s ∧ isEnc s = true.
Proof.
  unfold validateJweEnc. cbn [is_nullish]. destruct s as [|c s].
  - split; [done|]. by intros [_ ?].
  - destruct (isEnc (String c s)); cbn [negb]; split; try done.
    + by intros [= <-].
    + by intros [-> _].
    + by intros [_ ?].
Qed.

Lemma validatePartyInfo_spec (value : JsValue) (label : string) (r : option bytes) :
  validatePartyInfo value label = Ok r
  ↔ (truthy value = false ∧ r = None)
    ∨ (∃ b, value = JBytes b ∧ (length b ≤ 32)%nat ∧ r = Some b).
Proof.
  unfold validatePartyInfo. destruct (truthy value) eqn:Ht; cbn [negb].
  - destruct value as [| | | | |b| | |]; try (split; [done|]; intros [[? _]|(? & ? & _)]; done).
    destruct (Z.gtb_spec (Z.of_nat (length b)) 32); split; try done.
    + intros [[? _]|(? & [= <-] & ? & _)]; [done|lia].
    + intros [= <-]. right. exists b. split; [done|]. split; [lia|done].
    + intros [[? _]|(? & [= <-] & ? & ->)]; done.
  - split.
    + intros [= <-]. by left.
    + intros [[_ ->]|(b & -> & _)]; done.
Qed.

Lemma ecdhes_parameters_lookup (epk : JsValue) (apu apv : option bytes) :
  prop (ecdhes_parameters epk apu apv) "epk" = epk
  ∧ prop (ecdhes_parameters epk apu apv) "apu"
    = from_option (λ b, JStr (encodeBase64Url b)) JUndefined apu
  ∧ prop (ecdhes_parameters epk apu apv) "apv"
    = from_option (λ b, JStr (encodeBase64Url b)) JUndefined apv.
Proof.
  unfold ecdhes_parameters, prop.
  destruct apu, apv; cbn [from_option];
    rewrite ?lookup_insert_eq, ?lookup_insert_ne by done;
    rewrite ?lookup_insert_eq, ?lookup_insert_ne by done;
    rewrite ?lookup_singleton_eq, ?lookup_singleton_ne by done; done.
Qed.

(** Everything a successful run of [ecdhesDeriveEncryptionKey] went through. *)
Lemma ecdhesDeriveEncryptionKey_ok (Pf : Platform) (enc : string) (curve : EcdhCurve)
    (pk : bytes) (kmp : JsValue) (t : list Event) (cek : bytes) (ek : option bytes)
    (parameters : Header) :
  ecdhesDeriveEncryptionKey Pf enc curve pk kmp = (t, Ok (cek, ek, parameters)) →
  ∃ sk publicKey epk apu apv bits ss otherInfo,
    randomPrivateKey curve = Returned sk
    ∧ getPublicKey curve sk = Returned publicKey
    ∧ toJwkPublicKey curve publicKey = Returned epk
    ∧ validateJweApu (get kmp "apu") = Ok apu
    ∧ validateJweApv (get kmp "apv") = Ok apv
    ∧ isEnc enc = true
    ∧ cekBitLengthByEnc enc = Ok bits
    ∧ getSharedSecret curve sk pk = Returned ss
    ∧ buildKdfOtherInfo enc apu apv bits = Ok otherInfo
    ∧ concatKdf (sha256 Pf) ss (inject_Z bits) otherInfo = Ok cek
    ∧ ek = None
    ∧ parameters = ecdhes_parameters epk apu apv
    ∧ t = [EvRandomPrivateKey; EvGetPublicKey sk; EvToJwkPublicKey publicKey;
           EvGetSharedSecret sk pk; EvConcatKdf ss bits otherInfo].
Proof.
  unfold ecdhesDeriveEncryptionKey. intros H.
  apply M_bind_ok in H as (t1 & sk & t1' & [-> Hsk]%call_ok & H & ->).
  apply M_bind_ok in H as (t2 & mypk & t2' & [-> Hpk]%call_ok & H & ->).
  apply M_bind_ok in H as (t3 & epk & t3' & [-> Hepk]%call_ok & H & ->).
  apply M_bind_ok in H as (t4 & apu & t4' & [-> Hapu]%lift_inv & H & ->).
  apply M_bind_ok in H as (t5 & apv & t5' & [-> Hapv]%lift_inv & H & ->).
  apply M_bind_ok in H as (t6 & enc' & t6' & [-> Henc]%lift_inv & H & ->).
  apply validateJweEnc_str in Henc as [-> Henc].
  apply M_bind_ok in H as (t7 & bits & t7' & [-> Hbits]%lift_inv & H & ->).
  apply M_bind_ok in H as (t8 & ss & t8' & [-> Hss]%call_ok & H & ->).
  apply M_bind_ok in H as (t9 & oi & t9' & [-> Hoi]%lift_inv & H & ->).
  apply M_bind_ok in H as (t10 & cek' & t10' & Hkdf & H & ->).
  injection Hkdf as <- Hkdf. injection H as <- <- <- <-.
  exists sk, mypk, epk, apu, apv, bits, ss, oi. repeat split; done.
Qed.

Lemma decodeOptionalBase64Url_encoded (Pf : Platform) (b : bytes) (label : string) :
  base64url_contract Pf →
  decodeOptionalBase64Url Pf (JStr (encodeBase64Url b)) label = Ok (Some b).
Proof.
  intros Hb. unfold decodeOptionalBase64Url, decodeBase64Url. cbn [is_nullish].
  by rewrite Hb.
Qed.

Lemma decodeRequiredBase64Url_encoded (Pf : Platform) (b : bytes) (label : string) :
  base64url_contract Pf →
  decodeRequiredBase64Url Pf (JStr (encodeBase64Url b)) label = Ok b.
Proof.
  intros Hb. unfold decodeRequiredBase64Url, decodeBase64Url. cbn [is_nullish].
  by rewrite Hb.
Qed.

(** The recipient's derivation on a header that carries the sender's
    key-agreement parameters. *)
Lemma ecdhes_agreement (Pf : Platform) (enc : string) (curve : EcdhCurve)
    (pk myPrivateKey : bytes) (kmp : JsValue) (t : list Event) (cek : bytes)
    (ek : option bytes) (parameters : Header) (protectedHeader : JsValue) :
  ecdhesDeriveEncryptionKey Pf enc curve pk kmp = (t, Ok (cek, ek, parameters)) →
  base64url_contract Pf →
  ecdh_contract Pf curve pk myPrivateKey →
  (∀ name, name ∈ ["epk"; "apu"; "apv"] → get protectedHeader name = prop parameters name) →
  ∃ raw ss bits otherInfo,
    ecdhesDeriveDecryptionKey Pf enc curve myPrivateKey protectedHeader
    = ([EvToRawPublicKey (prop parameters "epk"); EvGetSharedSecret myPrivateKey raw;
        EvConcatKdf ss bits otherInfo], Ok cek).
Proof.
  intros Henc Hb64 Hdh Hhdr.
  apply ecdhesDeriveEncryptionKey_ok in Henc
    as (sk & mypk & epk & apu & apv & bits & ss & oi & Hsk & Hpk & Hepk & Hapu & Hapv
        & HisEnc & Hbits & Hss & Hoi & Hkdf & -> & -> & ->).
  destruct (Hdh sk mypk epk Hsk Hpk Hepk) as (Hvalid & raw & Hraw & Hshared).
  destruct (ecdhes_parameters_lookup epk apu apv) as (Lepk & Lapu & Lapv).
  exists raw, ss, bits, oi.
  unfold ecdhesDeriveDecryptionKey.
  rewrite !Hhdr by set_solver. rewrite Lepk, Lapu, Lapv.
  rewrite Hvalid, M_bind_lift_ok, Hraw, M_bind_call_returned.
  assert (decodeOptionalBase64Url Pf
            (from_option (λ b, JStr (encodeBase64Url b)) JUndefined apu)
            "apu (Agreement PartyUInfo)" = Ok apu) as ->.
  { destruct apu; [by apply decodeOptionalBase64Url_encoded|done]. }
  rewrite M_bind_lift_ok.
  assert (decodeOptionalBase64Url Pf
            (from_option (λ b, JStr (encodeBase64Url b)) JUndefined apv)
            "apv (Agreement PartyVInfo)" = Ok apv) as ->.
  { destruct apv; [by apply decodeOptionalBase64Url_encoded|done]. }
  rewrite M_bind_lift_ok.
  assert (match apu with Some apu => validateJweApu (JBytes apu) | None => Ok None end
          = Ok apu) as ->.
  { destruct apu as [a|]; [|done]. apply validatePartyInfo_spec. right. exists a.
    apply validatePartyInfo_spec in Hapu as [[_ [=]]|(b & _ & Hlen & [= <-])]. done. }
  rewrite M_bind_lift_ok.
  assert (match apv with Some apv => validateJweApv (JBytes apv) | None => Ok None end
          = Ok apv) as ->.
  { destruct apv as [a|]; [|done]. apply validatePartyInfo_spec. right. exists a.
    apply validatePartyInfo_spec in Hapv as [[_ [=]]|(b & _ & Hlen & [= <-])]. done. }
  rewrite M_bind_lift_ok.
  rewrite (proj2 (validateJweEnc_str enc enc)) by done. rewrite M_bind_lift_ok.
  rewrite Hbits, M_bind_lift_ok, Hshared, Hss, M_bind_call_returned, Hoi, M_bind_lift_ok.
  rewrite Hkdf. done.
Qed.

Lemma deriveEncryptionKey_ecdhes (Pf : Platform) (alg enc : string) (curve : EcdhCurve)
    (pk : bytes) (kmp : JsValue) (t : list Event) (r : bytes * option bytes * Header) :
  deriveEncryptionKey Pf alg enc curve pk kmp = (t, Ok r) →
  alg = "ECDH-ES" ∧ ecdhesDeriveEncryptionKey Pf enc curve pk kmp = (t, Ok r).
Proof.
  unfold deriveEncryptionKey. destruct (String.eqb_spec alg "ECDH-ES"); [done|].
  intros [= _ [=]].
Qed.

(** X7. A successful [deriveEncryptionKey] is direct key agreement with a
    fresh ephemeral key: the algorithm is ECDH-ES, there is no encrypted
    key, the provider is asked in turn for a private key, its public key,
    the JWK of that public key and the shared secret of the ephemeral
    private key with the recipient's public key; the CEK is the
    Concat-KDF output over the OtherInfo of the validated party
    information and has the byte length of the content-encryption
    algorithm; the returned parameters are [epk], and [apu] / [apv] in
    base64url when they were given. *)
Theorem deriveEncryptionKey_result (Pf : Platform) (alg enc : string) (curve : EcdhCurve)
    (yourPublicKey : bytes) (providedParameters : JsValue) (t : list Event) (cek : bytes)
    (encryptedKey : option bytes) (parameters : Header) :
  deriveEncryptionKey Pf alg enc curve yourPublicKey providedParameters
    = (t, Ok (cek, encryptedKey, parameters)) →
  (∀ b, length (sha256 Pf b) = 32%nat) →
  alg = "ECDH-ES" ∧ encryptedKey = None
  ∧ ∃ sk publicKey epk apu apv bits sharedSecret,
      randomPrivateKey curve = Returned sk
      ∧ getPublicKey curve sk = Returned publicKey
      ∧ toJwkPublicKey curve publicKey = Returned epk
      ∧ getSharedSecret curve sk yourPublicKey = Returned sharedSecret
      ∧ validateJweApu (get providedParameters "apu") = Ok apu
      ∧ validateJweApv (get providedParameters "apv") = Ok apv
      ∧ cekBitLengthByEnc enc = Ok bits
      ∧ cek = concatKdf_reference (sha256 Pf) sharedSecret bits
                (otherInfo_layout enc (default [] apu) (default [] apv) bits)
      ∧ Z.of_nat (length cek) = bits / 8
      ∧ parameters = ecdhes_parameters epk apu apv
      ∧ t = [EvRandomPrivateKey; EvGetPublicKey sk; EvToJwkPublicKey publicKey;
             EvGetSharedSecret sk yourPublicKey;
             EvConcatKdf sharedSecret bits
               (otherInfo_layout enc (default [] apu) (default [] apv) bits)].
Proof.
  intros [-> H]%deriveEncryptionKey_ecdhes Hsha.
  apply ecdhesDeriveEncryptionKey_ok in H
    as (sk & mypk & epk & apu & apv & bits & ss & oi & Hsk & Hpk & Hepk & Hapu & Hapv
        & HisEnc & Hbits & Hss & Hoi & Hkdf & -> & -> & ->).
  apply buildKdfOtherInfo_ok in Hoi as (_ & _ & _ & ->).
  assert (0 < bits < 2 ^ 31) as Hrange.
  { revert Hbits. unfold cekBitLengthByEnc.
    repeat (match goal with |- context [if ?b then _ else _] => destruct b end);
      intros [= <-]; lia. }
  rewrite (concatKdf_refines _ Hsha) in Hkdf by done. injection Hkdf as <-.
  split; [done|]. split; [done|].
  exists sk, mypk, epk, apu, apv, bits, ss. repeat split; try done.
  rewrite (concatKdf_reference_length _ Hsha) by lia. apply Z2Nat.id.
  apply Z.div_pos; lia.
Qed.

Lemma deriveEncryptionKey_result_witness :
  "ECDH-ES" = "ECDH-ES" ∧ (None : option bytes) = None
  ∧ ∃ sk publicKey epk apu apv bits sharedSecret,
      randomPrivateKey p256_curve = Returned sk
      ∧ getPublicKey p256_curve sk = Returned publicKey
      ∧ toJwkPublicKey p256_curve publicKey = Returned epk
      ∧ getSharedSecret p256_curve sk (replicate 65 x04) = Returned sharedSecret
      ∧ validateJweApu (get (JObj {[ "apu" := JBytes (utf8 "Alice") ]}) "apu") = Ok apu
      ∧ validateJweApv (get (JObj {[ "apu" := JBytes (utf8 "Alice") ]}) "apv") = Ok apv
      ∧ cekBitLengthByEnc "A128GCM" = Ok bits
      ∧ replicate 16 x40
        = concatKdf_reference (sha256 (codec_platform JNull)) sharedSecret bits
            (otherInfo_layout "A128GCM" (default [] apu) (default [] apv) bits)
      ∧ Z.of_nat (length (replicate 16 x40)) = bits / 8
      ∧ ecdhes_parameters p256_jwk (Some (utf8 "Alice")) None = ecdhes_parameters epk apu apv
      ∧ [EvRandomPrivateKey; EvGetPublicKey (replicate 32 x01);
         EvToJwkPublicKey (replicate 65 x04);
         EvGetSharedSecret (replicate 32 x01) (replicate 65 x04);
         EvConcatKdf (replicate 32 x07) 128
           (otherInfo_layout "A128GCM" (utf8 "Alice") [] 128)]
        = [EvRandomPrivateKey; EvGetPublicKey sk; EvToJwkPublicKey publicKey;
           EvGetSharedSecret sk (replicate 65 x04);
           EvConcatKdf sharedSecret bits
             (otherInfo_layout "A128GCM" (default [] apu) (default [] apv) bits)].
Proof.
  apply (deriveEncryptionKey_result (codec_platform JNull) "ECDH-ES" "A128GCM" p256_curve
           (replicate 65 x04) (JObj {[ "apu" := JBytes (utf8 "Alice") ]})).
  - vm_compute. reflexivity.
  - intros b. apply length_replicate.
Defined.

Lemma p256_ecdh_contract (parsed : JsValue) (pk sk : bytes) :
  ecdh_contract (codec_platform parsed) p256_curve pk sk.
Proof.
  intros sk' publicKey epk _ _ [= <-]. split; [vm_compute; reflexivity|].
  eexists. split; reflexivity.
Qed.

(** X8. The recipient derives the sender's CEK.  When the base64url
    decoder undoes the encoder and the provider's Diffie-Hellman is
    consistent for the recipient's key pair, [deriveDecryptionKey] on a
    protected header that carries the [epk], [apu] and [apv] returned by
    a successful [deriveEncryptionKey] returns the same CEK, and the
    wrapper [deriveDecryptionKeyWithMitigation] returns it with no delay
    and no random key. *)
Theorem ecdhes_recipient_derives_cek (Pf : Platform) (alg enc : string) (curve : EcdhCurve)
    (yourPublicKey myPrivateKey : bytes) (providedParameters : JsValue) (t : list Event)
    (cek : bytes) (encryptedKey encryptedKey' : option bytes) (parameters : Header)
    (protectedHeader : JsValue) :
  deriveEncryptionKey Pf alg enc curve yourPublicKey providedParameters
    = (t, Ok (cek, encryptedKey, parameters)) →
  base64url_contract Pf →
  ecdh_contract Pf curve yourPublicKey myPrivateKey →
  (∀ name, name ∈ ["epk"; "apu"; "apv"] → get protectedHeader name = prop parameters name) →
  ∃ raw sharedSecret bits otherInfo,
    deriveDecryptionKey Pf alg enc curve myPrivateKey encryptedKey' protectedHeader
    = ([EvToRawPublicKey (prop parameters "epk"); EvGetSharedSecret myPrivateKey raw;
        EvConcatKdf sharedSecret bits otherInfo], Ok cek)
    ∧ deriveDecryptionKeyWithMitigation Pf alg enc curve myPrivateKey encryptedKey'
        protectedHeader
      = ([EvToRawPublicKey (prop parameters "epk"); EvGetSharedSecret myPrivateKey raw;
          EvConcatKdf sharedSecret bits otherInfo], Ok cek).
Proof.
  intros [-> H]%deriveEncryptionKey_ecdhes Hb64 Hdh Hhdr.
  destruct (ecdhes_agreement _ _ _ _ _ _ _ _ _ _ protectedHeader H Hb64 Hdh Hhdr)
    as (raw & ss & bits & oi & Hrun).
  exists raw, ss, bits, oi.
  unfold deriveDecryptionKeyWithMitigation, deriveDecryptionKey. cbn [String.eqb Ascii.eqb Bool.eqb].
  by rewrite Hrun.
Qed.

Lemma ecdhes_recipient_derives_cek_witness :
  ∃ raw sharedSecret bits otherInfo,
    deriveDecryptionKey (codec_platform JNull) "ECDH-ES" "A128GCM" p256_curve
      (replicate 32 x02) None
      (JObj (ecdhes_parameters p256_jwk (Some (utf8 "Alice")) None ∪ ecdh_header))
    = ([EvToRawPublicKey (prop (ecdhes_parameters p256_jwk (Some (utf8 "Alice")) None) "epk");
        EvGetSharedSecret (replicate 32 x02) raw;
        EvConcatKdf sharedSecret bits otherInfo], Ok (replicate 16 x40))
    ∧ deriveDecryptionKeyWithMitigation (codec_platform JNull) "ECDH-ES" "A128GCM" p256_curve
        (replicate 32 x02) None
        (JObj (ecdhes_parameters p256_jwk (Some (utf8 "Alice")) None ∪ ecdh_header))
      = ([EvToRawPublicKey (prop (ecdhes_parameters p256_jwk (Some (utf8 "Alice")) None) "epk");
          EvGetSharedSecret (replicate 32 x02) raw;
          EvConcatKdf sharedSecret bits otherInfo], Ok (replicate 16 x40)).
Proof.
  apply (ecdhes_recipient_derives_cek (codec_platform JNull) "ECDH-ES" "A128GCM" p256_curve
           (replicate 65 x04) (replicate 32 x02) (JObj {[ "apu" := JBytes (utf8 "Alice") ]})
           [EvRandomPrivateKey; EvGetPublicKey (replicate 32 x01);
            EvToJwkPublicKey (replicate 65 x04);
            EvGetSharedSecret (replicate 32 x01) (replicate 65 x04);
            EvConcatKdf (replicate 32 x07) 128
              (otherInfo_layout "A128GCM" (utf8 "Alice") [] 128)]
           (replicate 16 x40) None None
           (ecdhes_parameters p256_jwk (Some (utf8 "Alice")) None)).
  - vm_compute. reflexivity.
  - apply codec_platform_base64url.
  - apply p256_ecdh_contract.
  - intros name Hname. vm_compute in Hname.
    repeat (apply elem_of_cons in Hname as [->|Hname]; [vm_compute; reflexivity|]).
    by apply elem_of_nil in Hname.
Defined.

(** ** Encryption followed by decryption *)

Lemma assemble_jwe_members (this : FlattenedEncrypter) (ciphertext iv tag : bytes)
    (H : string) (ek : option bytes) (aadB64U : option string) :
  let jwe := assemble_jwe this ciphertext iv tag H ek aadB64U in
  prop jwe "ciphertext" = JStr (encodeBase64Url ciphertext)
  ∧ prop jwe "iv" = JStr (encodeBase64Url iv)
  ∧ prop jwe "tag" = JStr (encodeBase64Url tag)
  ∧ prop jwe "protected" = JStr H
  ∧ prop jwe "encrypted_key" = from_option (λ k, JStr (encodeBase64Url k)) JUndefined ek
  ∧ prop jwe "aad"
    = match fe_aad this with Some _ => from_option JStr JUndefined aadB64U | None => JUndefined end
  ∧ prop jwe "unprotected"
    = (if truthy (fe_sharedUnprotectedHeader this) then fe_sharedUnprotectedHeader this
       else JUndefined)
  ∧ prop jwe "header"
    = (if truthy (fe_unprotectedHeader this) then fe_unprotectedHeader this else JUndefined).
Proof.
  unfold assemble_jwe, prop.
  destruct ek, (fe_aad this), (truthy (fe_sharedUnprotectedHeader this)),
    (truthy (fe_unprotectedHeader this)); cbn [from_option];
    repeat split;
    repeat first [rewrite lookup_insert_eq | rewrite lookup_insert_ne by done
                  | rewrite lookup_singleton_eq | rewrite lookup_singleton_ne by done];
    done.
Qed.

Lemma validateCrit_key_agreement (Err : string → Exn) (D O : option (gmap string bool))
    (h parameters J : Header) (names : gset string) :
  validateCrit Err D O (JObj h) J = Ok names →
  parameters !! "crit" = None →
  (∀ name v, parameters !! name = Some v → is_nullish v = false) →
  validateCrit Err D O (JObj (parameters ∪ h)) (parameters ∪ J) = Ok names.
Proof.
  intros Hok Hc Hnn.
  destruct (validateCrit_decision Err D O (JObj h) J) as [(msg & Hthrow & _)|[Hok1 Hnv]];
    [congruence|].
  assert (get (JObj (parameters ∪ h)) "crit" = get (JObj h) "crit") as Hcrit.
  { cbn [get]. by rewrite prop_union_r. }
  assert (protected_crit_names (JObj (parameters ∪ h)) = protected_crit_names (JObj h))
    as Hnames.
  { unfold protected_crit_names. by rewrite Hcrit. }
  destruct (validateCrit_decision Err D O (JObj (parameters ∪ h)) (parameters ∪ J))
    as [(msg & _ & Hv)|[Hok2 _]].
  - exfalso. apply Hnv. clear Hnv Hok Hok1.
    assert (∀ name, prop (parameters ∪ J) name = JUndefined → prop J name = JUndefined) as HJ.
    { intros name. rewrite prop_union. destruct (parameters !! name) as [v|] eqn:Hp; [|done].
      intros ->. by apply Hnn in Hp. }
    assert (∀ name, is_nullish (get (JObj (parameters ∪ h)) name) = true
                    → is_nullish (get (JObj h) name) = true) as HP.
    { intros name. cbn [get]. rewrite prop_union.
      destruct (parameters !! name) as [v|] eqn:Hp; [|done].
      intros Hv'. apply Hnn in Hp. congruence. }
    unfold crit_violation, crit_not_protected, crit_malformed, crit_name_unrecognized,
      crit_name_missing, crit_name_unprotected_or_null, has_param in *.
    rewrite Hcrit, Hnames in Hv.
    destruct Hv as [[H1 H2]|[[H1 H2]|[Hwf [(n & H1 & H2)|[(n & H1 & H2)|(n & H1 & H2 & H3)]]]]].
    + left. split; [|done]. by rewrite prop_union_r in H1.
    + right. left. done.
    + right. right. split; [done|]. left. eauto.
    + right. right. split; [done|]. right. left. exists n. split; [done|].
      intros Hdef. apply H2. intros Hu. apply Hdef. by apply HJ.
    + right. right. split; [done|]. right. right. exists n. eauto.
  - rewrite Hok2, Hnames. rewrite Hok in Hok1. by injection Hok1 as ->.
Qed.

Lemma encrypt_ok_checks (Pf : Platform) (this : FlattenedEncrypter)
    (plaintext yourJwkPublicKey : JsValue) (options : Options)
    (tr : list Event) (r : FlattenedEncrypter * JsValue) :
  encrypt Pf this plaintext yourJwkPublicKey options = (tr, Ok r) →
  isPlainObject yourJwkPublicKey = true ∧ truthy (get yourJwkPublicKey "crv") = true.
Proof.
  unfold encrypt.
  destruct (truthy plaintext); cbn [negb]; [|done].
  destruct plaintext as [| | | | |pt| | |]; try done.
  destruct (truthy yourJwkPublicKey); cbn [negb]; [|done].
  destruct (isPlainObject yourJwkPublicKey); cbn [negb]; [|done].
  destruct (truthy (get yourJwkPublicKey "crv")); cbn [negb]; [|done].
  done.
Qed.

Lemma utf8_decode_utf8 (s : string) : utf8_decode (utf8 s) = s.
Proof. apply string_of_list_byte_of_string. Qed.

Lemma parseBase64UrlHeader_encoded (Pf : Platform) (header : Header) (label : string) :
  base64url_contract Pf → json_contract Pf (JObj header) →
  parseBase64UrlHeader Pf (JStr (encodeBase64UrlHeader Pf (JObj header))) label
  = Ok (JObj header).
Proof.
  intros Hb64 Hjson. unfold parseBase64UrlHeader, encodeBase64UrlHeader.
  cbn [truthy negb]. rewrite decodeRequiredBase64Url_encoded by done.
  cbn [mbind result_bind]. rewrite utf8_decode_utf8, Hjson. done.
Qed.

Lemma validateJweAlg_ok (alg : JsValue) (s : string) :
  validateJweAlg alg = Ok s → alg = JStr "ECDH-ES" ∧ s = "ECDH-ES".
Proof.
  unfold validateJweAlg. destruct alg as [| | | |a| | | |]; try done. cbn [is_nullish].
  destruct a as [|c a]; [done|]. unfold isJweAlg.
  destruct (String.eqb_spec (String c a) "ECDH-ES") as [->|]; [|done].
  by intros [= <-].
Qed.

Lemma validateJweEnc_ok (enc : JsValue) (s : string) :
  validateJweEnc enc = Ok s → enc = JStr s ∧ isEnc s = true.
Proof.
  destruct enc as [| | | |a| | | |]; try done.
  intros H. apply validateJweEnc_str in H as [-> H]. done.
Qed.

Lemma own_props_if_truthy (v : JsValue) :
  own_props (if truthy v then v else JUndefined) = own_props v.
Proof. destruct v; try done; cbn [truthy]; by destruct (_ : bool). Qed.

Lemma M_bind_ok_eq {A B : Type} (t : list Event) (a : A) (k : A → M B) :
  M_bind (t, Ok a) k = (t ++ (k a).1, (k a).2).
Proof. unfold M_bind. by destruct (k a). Qed.

(** Everything a successful run of the [try] block of [encrypt] went
    through, with the outcome of each step. *)
Lemma encrypt_try_run (Pf : Platform) (this : FlattenedEncrypter) (pt : bytes)
    (jwk : JsValue) (options : Options) (tr : list Event)
    (this' : FlattenedEncrypter) (jwe : JsValue) :
  encrypt_try Pf this pt jwk options = (tr, Ok (this', jwe)) →
  ∃ curve pk J names alg enc cek ek parameters t_derive ciphertext tag iv,
    createEcdhCurve Pf (get jwk "crv") (aes_randomBytes (fe_aes this)) = Returned curve
    ∧ toRawPublicKey curve jwk = Returned pk
    ∧ mergeJweHeaders (fe_protectedHeader this) (fe_sharedUnprotectedHeader this)
        (fe_unprotectedHeader this) = Ok J
    ∧ validateCrit JweInvalid None (opt_crit options) (fe_protectedHeader this) J = Ok names
    ∧ validateJweAlg (get (fe_protectedHeader this) "alg") = Ok alg
    ∧ validateJweEnc (get (fe_protectedHeader this) "enc") = Ok enc
    ∧ deriveEncryptionKey Pf alg enc curve pk (fe_keyManagementParameters this)
      = (t_derive, Ok (cek, ek, parameters))
    ∧ updateProtectedHeader this (JObj parameters) = Ok this'
    ∧ aes_encrypt (fe_aes this) enc pt cek
        (encodeAesAad (encodeBase64UrlHeader Pf (fe_protectedHeader this'))
           (encodeBase64Url <$> fe_aad this'))
      = Returned (ciphertext, tag, iv)
    ∧ tr = [EvCreateCurve (get jwk "crv"); EvToRawPublicKey jwk] ++ t_derive
           ++ [EvAeadEncrypt enc pt cek
                 (encodeAesAad (encodeBase64UrlHeader Pf (fe_protectedHeader this'))
                    (encodeBase64Url <$> fe_aad this'))]
    ∧ jwe = JObj (assemble_jwe this' ciphertext iv tag
                    (encodeBase64UrlHeader Pf (fe_protectedHeader this')) ek
                    (encodeBase64Url <$> fe_aad this')).
Proof.
  unfold encrypt_try. intros H.
  apply M_bind_ok in H as (t1 & curve & t1' & [-> Hcurve]%call_ok & H & ->).
  apply M_bind_ok in H as (t2 & pk & t2' & [-> Hpk]%call_ok & H & ->).
  apply M_bind_ok in H as (t3 & J & t3' & [-> HJ]%lift_inv & H & ->).
  apply M_bind_ok in H as (t4 & crit & t4' & [-> Hcrit]%lift_inv & H & ->).
  apply M_bind_ok in H as (t5 & alg & t5' & [-> Halg]%lift_inv & H & ->).
  apply M_bind_ok in H as (t6 & enc & t6' & [-> Henc]%lift_inv & H & ->).
  apply M_bind_ok in H as (t7 & [[cek ek] parameters] & t7' & Hderive & H & ->).
  apply M_bind_ok in H as (t8 & this1 & t8' & [-> Hupd]%lift_inv & H & ->).
  apply M_bind_ok in H as (t9 & [[ciphertext tag] iv] & t9' & [-> Haes]%call_ok & H & ->).
  injection H as <- <- <-.
  exists curve, pk, J, crit, alg, enc, cek, ek, parameters, t7, ciphertext, tag, iv.
  repeat split; done.
Qed.

Lemma updateProtectedHeader_obj (this this' : FlattenedEncrypter) (h parameters : Header) :
  fe_protectedHeader this = JObj h →
  updateProtectedHeader this (JObj parameters) = Ok this' →
  this' = with_protectedHeader this (JObj (parameters ∪ h)).
Proof.
  intros Hh. unfold updateProtectedHeader. rewrite Hh. cbn [truthy negb].
  by intros [= <-].
Qed.

Lemma assemble_decrypt_result_members (jwe : JsValue) (plaintext : bytes) (v : ValidatedJwe) :
  let result := assemble_decrypt_result jwe plaintext v in
  prop result "plaintext" = JBytes plaintext
  ∧ prop result "protectedHeader" = vj_parsedProtected v
  ∧ prop result "additionalAuthenticatedData"
    = (if is_undefined (get jwe "aad") then JUndefined
       else from_option JBytes JUndefined (vj_aad v))
  ∧ prop result "sharedUnprotectedHeader" = get jwe "unprotected"
  ∧ prop result "unprotectedHeader" = get jwe "header".
Proof.
  unfold assemble_decrypt_result, prop.
  destruct (is_undefined (get jwe "aad")) eqn:Ea,
    (is_undefined (get jwe "unprotected")) eqn:Es,
    (is_undefined (get jwe "header")) eqn:Eu; cbn [negb];
    try apply is_undefined_true in Es; try apply is_undefined_true in Eu;
    try rewrite Es; try rewrite Eu;
    repeat split;
    repeat first [rewrite lookup_insert_eq | rewrite lookup_insert_ne by done
                  | rewrite lookup_singleton_eq | rewrite lookup_singleton_ne by done];
    done.
Qed.

Lemma ecdhes_parameters_dom (epk : JsValue) (apu apv : option bytes) :
  dom (ecdhes_parameters epk apu apv) ⊆ key_agreement_names
  ∧ ∀ name v, ecdhes_parameters epk apu apv !! name = Some v →
              v = epk ∨ ∃ s, v = JStr s.
Proof.
  unfold ecdhes_parameters, key_agreement_names. split.
  - destruct apu, apv; rewrite ?dom_insert_L, dom_singleton_L; set_solver.
  - intros name v.
    destruct apu, apv;
      repeat (rewrite lookup_insert_Some; intros [[_ <-]|[_ H]]; [eauto|revert H]);
      rewrite lookup_singleton_Some; intros [_ <-]; eauto.
Qed.

Lemma assemble_jwe_is_serialization (Pf : Platform) (this : FlattenedEncrypter)
    (ciphertext iv tag : bytes) (P : JsValue) :
  jwe_members Pf
    (JObj (assemble_jwe this ciphertext iv tag (encodeBase64UrlHeader Pf P) None
             (encodeBase64Url <$> fe_aad this)))
    P iv ciphertext tag (fe_aad this) (fe_sharedUnprotectedHeader this)
    (fe_unprotectedHeader this).
Proof.
  destruct (assemble_jwe_members this ciphertext iv tag (encodeBase64UrlHeader Pf P)
              None (encodeBase64Url <$> fe_aad this))
    as (L1 & L2 & L3 & L4 & L5 & L6 & L7 & L8).
  unfold jwe_members. cbn [get isPlainObject]. rewrite L1, L2, L3, L4, L5, L6, L7, L8.
  repeat split; try done; [by left|]. by destruct (fe_aad this).
Qed.

(** [decrypt] on a flattened JWE with the members of a serialization,
    given the outcome of each of its steps. *)
Lemma decrypt_forward (Pf : Platform) (aes : AesCipher) (jwe jwkPrivateKey : JsValue)
    (options : Options) (P J : Header) (names : gset string) (enc : string)
    (curve : EcdhCurve) (sk : bytes) (t_agree : list Event) (cek iv ct tag : bytes)
    (aad : option bytes) (s u : JsValue) (pt : bytes) :
  jwe_members Pf jwe (JObj P) iv ct tag aad s u →
  base64url_contract Pf → json_contract Pf (JObj P) →
  (truthy s = true → isPlainObject s = true) →
  (truthy u = true → isPlainObject u = true) →
  mergeJweHeaders (JObj P) (if truthy s then s else JUndefined)
    (if truthy u then u else JUndefined) = Ok J →
  validateCrit JweInvalid None (opt_crit options) (JObj P) J = Ok names →
  prop J "alg" = JStr "ECDH-ES" → prop J "enc" = JStr enc → isEnc enc = true →
  opt_keyManagementAlgorithms options = JUndefined →
  opt_contentEncryptionAlgorithms options = JUndefined →
  isPlainObject jwkPrivateKey = true → truthy (get jwkPrivateKey "crv") = true →
  createEcdhCurve Pf (get jwkPrivateKey "crv") (aes_randomBytes aes) = Returned curve →
  toRawPrivateKey curve jwkPrivateKey = Returned sk →
  ecdhesDeriveDecryptionKey Pf enc curve sk (JObj P) = (t_agree, Ok cek) →
  aes_decrypt aes enc cek ct iv tag
    (encodeAesAad (encodeBase64UrlHeader Pf (JObj P)) (encodeBase64Url <$> aad))
  = Returned pt →
  ∃ tr' result,
    decrypt Pf aes jwe jwkPrivateKey options = (tr', Ok result)
    ∧ get result "plaintext" = JBytes pt
    ∧ get result "protectedHeader" = JObj P
    ∧ get result "additionalAuthenticatedData" = from_option JBytes JUndefined aad
    ∧ get result "sharedUnprotectedHeader" = get jwe "unprotected"
    ∧ get result "unprotectedHeader" = get jwe "header".
Proof.
  intros (Hobj & Lprot & Liv & Lct & Ltag & Lek & Laad & Ls & Lu) Hb64 Hjson Hs Hu HJ Hcrit
    Halg Henc HisEnc Hkma Hcea Hplain Hcrv Hcurve Hsk Hagree Hdec.
  destruct jwe as [| | | | | | |jwe|]; try done.
  assert (∃ ek, validateFlattenedJwe Pf (JObj jwe)
          = Ok {| vj_iv := iv; vj_ciphertext := ct; vj_tag := tag;
                  vj_encryptedKey := ek; vj_aad := aad;
                  vj_joseHeader := J; vj_parsedProtected := JObj P |}) as [ek Hval].
  { unfold validateFlattenedJwe. cbn [is_nullish isPlainObject negb].
    rewrite Liv, Lct, Ltag, Laad, Ls, Lu, Lprot.
    rewrite !decodeRequiredBase64Url_encoded by done. cbn [mbind result_bind].
    assert (∃ ek, decodeOptionalBase64Url Pf (get (JObj jwe) "encrypted_key")
                    "JWE Encrypted Key" = Ok ek) as [ek ->].
    { destruct Lek as [->| ->]; [by exists None|]. exists (Some []).
      by apply (decodeOptionalBase64Url_encoded Pf []). }
    exists ek. cbn [mbind result_bind].
    assert (decodeOptionalBase64Url Pf
              (from_option (λ a, JStr (encodeBase64Url a)) JUndefined aad)
              "JWE Additional Authenticated Data" = Ok aad) as ->.
    { destruct aad; [by apply decodeOptionalBase64Url_encoded|done]. }
    cbn [mbind result_bind].
    assert (∀ v, (truthy v = true → isPlainObject v = true) →
                 negb (is_undefined (if truthy v then v else JUndefined))
                 && negb (isPlainObject (if truthy v then v else JUndefined)) = false) as Hchk.
    { intros v Hv. destruct (truthy v); [rewrite Hv by done; apply andb_false_r|done]. }
    rewrite !Hchk by done.
    rewrite parseBase64UrlHeader_encoded by done. cbn [mbind result_bind].
    rewrite HJ. done. }
  eexists _, _. split.
  - unfold decrypt. cbn [truthy isPlainObject negb].
    destruct jwkPrivateKey as [| | | | | | |priv|]; try done. cbn [truthy isPlainObject negb].
    rewrite Hcrv. cbn [negb].
    unfold decrypt_try. rewrite Hcurve, M_bind_call_returned, Hsk, M_bind_call_returned.
    rewrite Hval, M_bind_lift_ok. cbn [vj_parsedProtected vj_joseHeader vj_encryptedKey
                                       vj_ciphertext vj_iv vj_tag].
    rewrite Hcrit, M_bind_lift_ok, Halg, Henc.
    change (validateJweAlg (JStr "ECDH-ES")) with (Ok "ECDH-ES" : result string).
    rewrite M_bind_lift_ok, (proj2 (validateJweEnc_str enc enc)), M_bind_lift_ok by done.
    rewrite Hkma, Hcea.
    change (checkJweAlgAllowed "ECDH-ES" JUndefined) with (Ok () : result unit).
    change (checkJweEncAllowed enc JUndefined) with (Ok () : result unit).
    rewrite !M_bind_lift_ok.
    unfold deriveDecryptionKeyWithMitigation, deriveDecryptionKey.
    cbn [String.eqb Ascii.eqb Bool.eqb]. rewrite Hagree. cbn [try_catch].
    rewrite M_bind_ok_eq.
    rewrite Lprot, Laad. cbn [optional_string default from_option id].
    assert (optional_string (from_option (λ a, JStr (encodeBase64Url a)) JUndefined aad)
            = encodeBase64Url <$> aad) as -> by by destruct aad.
    rewrite Hdec, M_bind_call_returned.
    cbn [M_ret fst snd try_catch]. reflexivity.
  - cbn [get]. destruct (assemble_decrypt_result_members (JObj jwe) pt
      {| vj_iv := iv; vj_ciphertext := ct; vj_tag := tag;
         vj_encryptedKey := ek; vj_aad := aad;
         vj_joseHeader := J; vj_parsedProtected := JObj P |}) as (-> & -> & -> & -> & ->).
    cbn [vj_aad vj_parsedProtected]. rewrite Laad.
    repeat split. by destruct aad.
Qed.

(** What a successful [encrypt] leaves for the recipient: the outcome of
    each step of [decrypt] on a serialization of its result. *)
Lemma encrypt_steps (Pf : Platform) (this : FlattenedEncrypter)
    (plaintext jwkPublicKey jwkPrivateKey : JsValue) (options : Options)
    (tr : list Event) (this' : FlattenedEncrypter) (jwe : JsValue) :
  encrypt Pf this plaintext jwkPublicKey options = (tr, Ok (this', jwe)) →
  base64url_contract Pf →
  aead_contract (fe_aes this) →
  ecdh_key_pair Pf (aes_randomBytes (fe_aes this)) jwkPublicKey jwkPrivateKey →
  (∀ h, h ∈ [fe_protectedHeader this; fe_sharedUnprotectedHeader this;
             fe_unprotectedHeader this] → Object_keys h ## key_agreement_names) →
  ∃ pt P J names enc curve sk t_agree cek iv ct tag,
    plaintext = JBytes pt
    ∧ fe_protectedHeader this' = JObj P
    ∧ jwe = JObj (assemble_jwe this' ct iv tag (encodeBase64UrlHeader Pf (JObj P)) None
                    (encodeBase64Url <$> fe_aad this'))
    ∧ fe_aad this' = fe_aad this
    ∧ fe_sharedUnprotectedHeader this' = fe_sharedUnprotectedHeader this
    ∧ fe_unprotectedHeader this' = fe_unprotectedHeader this
    ∧ (truthy (fe_sharedUnprotectedHeader this) = true
       → isPlainObject (fe_sharedUnprotectedHeader this) = true)
    ∧ (truthy (fe_unprotectedHeader this) = true
       → isPlainObject (fe_unprotectedHeader this) = true)
    ∧ mergeJweHeaders (JObj P)
        (if truthy (fe_sharedUnprotectedHeader this) then fe_sharedUnprotectedHeader this
         else JUndefined)
        (if truthy (fe_unprotectedHeader this) then fe_unprotectedHeader this
         else JUndefined) = Ok J
    ∧ validateCrit JweInvalid None (opt_crit options) (JObj P) J = Ok names
    ∧ prop J "alg" = JStr "ECDH-ES" ∧ prop J "enc" = JStr enc ∧ isEnc enc = true
    ∧ isPlainObject jwkPrivateKey = true ∧ truthy (get jwkPrivateKey "crv") = true
    ∧ createEcdhCurve Pf (get jwkPrivateKey "crv") (aes_randomBytes (fe_aes this))
      = Returned curve
    ∧ toRawPrivateKey curve jwkPrivateKey = Returned sk
    ∧ ecdhesDeriveDecryptionKey Pf enc curve sk (JObj P) = (t_agree, Ok cek)
    ∧ aes_decrypt (fe_aes this) enc cek ct iv tag
        (encodeAesAad (encodeBase64UrlHeader Pf (JObj P)) (encodeBase64Url <$> fe_aad this))
      = Returned pt
    ∧ aes_encrypt (fe_aes this) enc pt cek
        (encodeAesAad (encodeBase64UrlHeader Pf (JObj P)) (encodeBase64Url <$> fe_aad this))
      = Returned (ct, tag, iv).
Proof.
  intros Hrun Hb64 Haead (HprivPlain & HcrvEq & Hkp) Hnames.
  pose proof (encrypt_ok_checks _ _ _ _ _ _ _ Hrun) as [_ Hcrv].
  apply encrypt_ok_try in Hrun as (pt & -> & Hrun).
  apply encrypt_try_run in Hrun
    as (curve & pk & J & names & alg & enc & cek & ek & parameters & t_d & ct & tag & iv
        & Hcurve & Hpk & HJ & HcritOk & Halg & Henc & Hderive & Hupd & Haes & -> & ->).
  pose proof HJ as HJeq. apply mergeJweHeaders_ok_eq in HJeq.
  assert (∃ J, mergeJweHeaders (fe_protectedHeader this) (fe_sharedUnprotectedHeader this)
                 (fe_unprotectedHeader this) = Ok J) as Hm by eauto.
  apply mergeJweHeaders_ok_iff in Hm
    as ((h & Hh & Hne) & Hs & Hu & Hps & Hpu & Hsu & Hzp & Hzs & Hzu).
  rewrite Hh in *.
  apply validateJweAlg_ok in Halg as [Halg ->].
  apply validateJweEnc_ok in Henc as [Henc HisEnc].
  apply deriveEncryptionKey_ecdhes in Hderive as [_ Hderive].
  destruct (Hkp curve pk Hcurve Hpk) as (sk & Hsk & Hdh).
  pose proof (ecdhesDeriveEncryptionKey_ok _ _ _ _ _ _ _ _ _ Hderive)
    as (esk & epub & epk & apu & apv & bits & ss & oi & Hesk & Hepub & Hepk & _ & _
        & _ & _ & _ & _ & _ & -> & Hparams & _).
  destruct (Hdh esk epub epk Hesk Hepub Hepk) as (Hvalid & _).
  destruct (ecdhes_parameters_dom epk apu apv) as [Hdom Hvals]. rewrite <- Hparams in *.
  assert (is_nullish epk = false) as Hepknn.
  { revert Hvalid. unfold validateJweEpk. by destruct (is_nullish epk). }
  assert (∀ name v, parameters !! name = Some v → is_nullish v = false) as Hnn.
  { intros name v [->|[s ->]]%Hvals; done. }
  assert (∀ name, name ∉ key_agreement_names → parameters !! name = None) as Hnone.
  { intros name Hn. apply not_elem_of_dom. set_solver. }
  apply (updateProtectedHeader_obj _ _ h) in Hupd; [|done]. subst this'.
  cbn [with_protectedHeader fe_protectedHeader fe_aad fe_aes
       fe_sharedUnprotectedHeader fe_unprotectedHeader] in *.
  (* the headers of the serialization merge to the old merged header plus the parameters *)
  assert (mergeJweHeaders (JObj (parameters ∪ h))
            (if truthy (fe_sharedUnprotectedHeader this) then fe_sharedUnprotectedHeader this
             else JUndefined)
            (if truthy (fe_unprotectedHeader this) then fe_unprotectedHeader this
             else JUndefined) = Ok (parameters ∪ J)) as HJ'.
  { assert (∃ J', mergeJweHeaders (JObj (parameters ∪ h))
              (if truthy (fe_sharedUnprotectedHeader this) then fe_sharedUnprotectedHeader this
               else JUndefined)
              (if truthy (fe_unprotectedHeader this) then fe_unprotectedHeader this
               else JUndefined) = Ok J') as [J' HJ'].
    { apply mergeJweHeaders_ok_iff.
      pose proof (Hnames (JObj h) ltac:(set_solver)) as Np.
      pose proof (Hnames (fe_sharedUnprotectedHeader this) ltac:(set_solver)) as Ns.
      pose proof (Hnames (fe_unprotectedHeader this) ltac:(set_solver)) as Nu.
      rewrite !get_own_props in *. unfold Object_keys in *.
      rewrite !own_props_if_truthy. cbn [own_props] in *.
      repeat split.
      - exists (parameters ∪ h). split; [done|]. intros Hempty.
        apply map_positive_l in Hempty. rewrite Hempty in Hdom. rewrite Hparams in Hempty.
        destruct (ecdhes_parameters_lookup epk apu apv) as (L & _).
        rewrite Hempty in L. unfold prop in L. rewrite lookup_empty in L. cbn in L.
        by rewrite <- L in Hepknn.
      - destruct (truthy (fe_sharedUnprotectedHeader this)); [intros _; by apply Hs|done].
      - destruct (truthy (fe_unprotectedHeader this)); [intros _; by apply Hu|done].
      - rewrite dom_union. set_solver.
      - rewrite dom_union. set_solver.
      - done.
      - rewrite prop_union_r; [done|]. apply Hnone. unfold key_agreement_names. set_solver.
      - done.
      - done. }
    rewrite HJ'. f_equal. apply mergeJweHeaders_ok_eq in HJ' as ->.
    unfold spread3. rewrite !own_props_if_truthy. cbn [own_props].
    rewrite HJeq. unfold spread3. cbn [own_props]. symmetry. apply (assoc_L (∪)). }
  (* key agreement on the recipient's side *)
  destruct (ecdhes_agreement Pf enc curve pk sk _ _ _ _ _ (JObj (parameters ∪ h))
              Hderive Hb64 Hdh) as (raw & ss' & bits' & oi' & Hagree).
  { intros name Hname. cbn [get]. rewrite prop_union.
    destruct (parameters !! name) as [v|] eqn:Hl; [by unfold prop; rewrite Hl|].
    unfold prop at 2. rewrite Hl. cbn.
    pose proof (Hnames (JObj h) ltac:(set_solver)) as Np.
    unfold prop. rewrite (proj1 (not_elem_of_dom h name)); [done|].
    unfold Object_keys, key_agreement_names in Np. cbn in Np. set_solver. }
  exists pt, (parameters ∪ h), (parameters ∪ J), names, enc, curve, sk. eexists _, cek, iv, ct, tag.
  split; [done|]. split; [done|]. split; [done|]. split; [done|]. split; [done|].
  split; [done|]. split; [done|]. split; [done|]. split; [done|].
  split.
  { apply (validateCrit_key_agreement _ _ _ _ _ _ _ HcritOk); [|done].
    apply Hnone. unfold key_agreement_names. set_solver. }
  split.
  { rewrite prop_union_r by (apply Hnone; unfold key_agreement_names; set_solver).
    rewrite HJeq. unfold spread3. cbn [own_props]. cbn [get] in Halg.
    rewrite prop_union_l; [done|]. by rewrite Halg. }
  split.
  { rewrite prop_union_r by (apply Hnone; unfold key_agreement_names; set_solver).
    rewrite HJeq. unfold spread3. cbn [own_props]. cbn [get] in Henc.
    rewrite prop_union_l; [done|]. by rewrite Henc. }
  split; [done|]. split; [done|]. split; [by rewrite HcrvEq|].
  split; [by rewrite HcrvEq|]. split; [done|]. split; [exact Hagree|].
  split; [by apply (Haead _ _ _ _ _ _ _ Haes)|done].
Qed.

(** X9. Decryption undoes encryption.  When the base64url decoder undoes
    the encoder, the final protected header survives JSON serialization,
    the AEAD decrypts what it encrypted and the recipient's private key
    is the private key of the public key encrypted to, [decrypt] on the
    flattened JWE returned by a successful [encrypt] returns the
    plaintext, the final protected header, the additional authenticated
    data and the unprotected headers, provided no header position names
    [epk], [apu] or [apv] itself and the recipient uses the same [crit]
    option and no allow-lists. *)
Theorem decrypt_encrypt (Pf : Platform) (this : FlattenedEncrypter)
    (plaintext jwkPublicKey jwkPrivateKey : JsValue) (options options' : Options)
    (tr : list Event) (this' : FlattenedEncrypter) (jwe : JsValue) :
  encrypt Pf this plaintext jwkPublicKey options = (tr, Ok (this', jwe)) →
  base64url_contract Pf →
  json_contract Pf (fe_protectedHeader this') →
  aead_contract (fe_aes this) →
  ecdh_key_pair Pf (aes_randomBytes (fe_aes this)) jwkPublicKey jwkPrivateKey →
  (∀ h, h ∈ [fe_protectedHeader this; fe_sharedUnprotectedHeader this;
             fe_unprotectedHeader this] → Object_keys h ## key_agreement_names) →
  opt_crit options' = opt_crit options →
  opt_keyManagementAlgorithms options' = JUndefined →
  opt_contentEncryptionAlgorithms options' = JUndefined →
  ∃ tr' result,
    decrypt Pf (fe_aes this) jwe jwkPrivateKey options' = (tr', Ok result)
    ∧ get result "plaintext" = plaintext
    ∧ get result "protectedHeader" = fe_protectedHeader this'
    ∧ get result "additionalAuthenticatedData" = from_option JBytes JUndefined (fe_aad this)
    ∧ get result "sharedUnprotectedHeader" = get jwe "unprotected"
    ∧ get result "unprotectedHeader" = get jwe "header".
Proof.
  intros Hrun Hb64 Hjson Haead Hpair Hnames Hcrit Hkma Hcea.
  destruct (encrypt_steps _ _ _ _ _ _ _ _ _ Hrun Hb64 Haead Hpair Hnames)
    as (pt & P & J & names & enc & curve & sk & t_agree & cek & iv & ct & tag
        & -> & HP & -> & Haad & Hs' & Hu' & Hs & Hu & HJ & HcritOk & Halg & Henc & HisEnc
        & Hplain & Hcrv & Hcurve & Hsk & Hagree & Hdec & _).
  rewrite HP in *. rewrite <- Hcrit in HcritOk.
  pose proof (assemble_jwe_is_serialization Pf this' ct iv tag (JObj P)) as Hmem.
  rewrite Haad, Hs', Hu' in Hmem. rewrite Haad.
  by apply (decrypt_forward Pf (fe_aes this) _ jwkPrivateKey options' P J names enc curve sk
              t_agree cek iv ct tag (fe_aad this) (fe_sharedUnprotectedHeader this)
              (fe_unprotectedHeader this) pt).
Qed.

Lemma p256_key_pair (parsed : JsValue) (randomBytes : Z → bytes) :
  ecdh_key_pair (codec_platform parsed) randomBytes p256_jwk p256_private_jwk.
Proof.
  split; [done|]. split; [vm_compute; reflexivity|].
  intros curve pk [= <-] [= <-]. exists (replicate 32 x02). split; [done|].
  apply p256_ecdh_contract.
Qed.

Lemma reversing_aes_contract : aead_contract reversing_aes.
Proof. intros enc pt cek aad ct tag iv [= <- _ _]. cbn. by rewrite reverse_involutive. Qed.

Lemma decrypt_encrypt_witness :
  ∃ tr' result,
    decrypt (codec_platform (JObj ecdh_header_with_epk)) reversing_aes
      (JObj {[ "ciphertext" := JStr (encodeBase64Url (reverse hello));
               "iv" := JStr (encodeBase64Url (replicate 12 x00));
               "tag" := JStr (encodeBase64Url (replicate 16 x00));
               "protected" := JStr "e30";
               "aad" := JStr (encodeBase64Url (utf8 "Alice"));
               "header" := JObj {[ "kid" := JStr "key-1" ]} ]})
      p256_private_jwk noOptions = (tr', Ok result)
    ∧ get result "plaintext" = JBytes hello
    ∧ get result "protectedHeader" = JObj ecdh_header_with_epk
    ∧ get result "additionalAuthenticatedData"
      = from_option JBytes JUndefined (Some (utf8 "Alice"))
    ∧ get result "sharedUnprotectedHeader"
      = get (JObj {[ "ciphertext" := JStr (encodeBase64Url (reverse hello));
               "iv" := JStr (encodeBase64Url (replicate 12 x00));
               "tag" := JStr (encodeBase64Url (replicate 16 x00));
               "protected" := JStr "e30";
               "aad" := JStr (encodeBase64Url (utf8 "Alice"));
               "header" := JObj {[ "kid" := JStr "key-1" ]} ]}) "unprotected"
    ∧ get result "unprotectedHeader"
      = get (JObj {[ "ciphertext" := JStr (encodeBase64Url (reverse hello));
               "iv" := JStr (encodeBase64Url (replicate 12 x00));
               "tag" := JStr (encodeBase64Url (replicate 16 x00));
               "protected" := JStr "e30";
               "aad" := JStr (encodeBase64Url (utf8 "Alice"));
               "header" := JObj {[ "kid" := JStr "key-1" ]} ]}) "header".
Proof.
  eapply (decrypt_encrypt (codec_platform (JObj ecdh_header_with_epk))
            {| fe_aes := reversing_aes;
               fe_protectedHeader := JObj ecdh_header;
               fe_sharedUnprotectedHeader := JUndefined;
               fe_unprotectedHeader := JObj {[ "kid" := JStr "key-1" ]};
               fe_aad := Some (utf8 "Alice");
               fe_keyManagementParameters := JUndefined |}
            (JBytes hello) p256_jwk p256_private_jwk noOptions noOptions _
            {| fe_aes := reversing_aes;
               fe_protectedHeader := JObj ecdh_header_with_epk;
               fe_sharedUnprotectedHeader := JUndefined;
               fe_unprotectedHeader := JObj {[ "kid" := JStr "key-1" ]};
               fe_aad := Some (utf8 "Alice");
               fe_keyManagementParameters := JUndefined |}).
  - vm_compute. reflexivity.
  - apply codec_platform_base64url.
  - reflexivity.
  - apply reversing_aes_contract.
  - apply p256_key_pair.
  - intros h Hh. cbn in Hh. unfold key_agreement_names.
    repeat (apply elem_of_cons in Hh as [->|Hh];
            [unfold Object_keys, ecdh_header; cbn [own_props];
             rewrite ?dom_insert_L, ?dom_singleton_L, ?dom_empty_L; set_solver|]).
    by apply elem_of_nil in Hh.
  - reflexivity.
  - reflexivity.
  - reflexivity.
Defined.

(** X10. [encrypt] checks that the header positions are disjoint before
    the key-agreement step adds [epk] to the protected header, and not
    after: with [epk] as a parameter of an unprotected header it can
    succeed, and the flattened JWE it returns is then rejected by
    [decrypt], whatever the key and the options, because its protected
    and unprotected headers share the name. *)
Theorem encrypt_epk_unprotected (Pf : Platform) (this : FlattenedEncrypter)
    (plaintext jwkPublicKey : JsValue) (options : Options)
    (tr : list Event) (this' : FlattenedEncrypter) (jwe : JsValue) :
  encrypt Pf this plaintext jwkPublicKey options = (tr, Ok (this', jwe)) →
  base64url_contract Pf →
  json_contract Pf (fe_protectedHeader this') →
  "epk" ∈ Object_keys (fe_sharedUnprotectedHeader this)
          ∪ Object_keys (fe_unprotectedHeader this) →
  "epk" ∈ Object_keys (fe_protectedHeader this')
  ∧ ∀ aes jwkPrivateKey options',
      ∃ tr' msg, decrypt Pf aes jwe jwkPrivateKey options' = (tr', Throw (JweInvalid msg)).
Proof.
  intros Hrun Hb64 Hjson Hepk.
  apply encrypt_ok_try in Hrun as (pt & -> & Hrun).
  apply encrypt_try_run in Hrun
    as (curve & pk & J & names & alg & enc & cek & ek & parameters & t_d & ct & tag & iv
        & Hcurve & Hpk & HJ & HcritOk & Halg & Henc & Hderive & Hupd & Haes & -> & ->).
  assert (∃ J, mergeJweHeaders (fe_protectedHeader this) (fe_sharedUnprotectedHeader this)
                 (fe_unprotectedHeader this) = Ok J) as Hm by eauto.
  apply mergeJweHeaders_ok_iff in Hm as ((h & Hh & Hne) & _).
  apply (updateProtectedHeader_obj _ _ h) in Hupd; [|done]. subst this'.
  cbn [with_protectedHeader fe_protectedHeader fe_aad fe_aes
       fe_sharedUnprotectedHeader fe_unprotectedHeader] in *.
  apply deriveEncryptionKey_parameters in Hderive as [[v Hv] _].
  assert ("epk" ∈ Object_keys (JObj (parameters ∪ h))) as Hin.
  { unfold Object_keys. cbn [own_props]. apply elem_of_dom. exists v.
    by apply lookup_union_Some_l. }
  split; [done|]. intros aes jwkPrivateKey options'.
  set (this' := with_protectedHeader this (JObj (parameters ∪ h))).
  destruct (decrypt Pf aes _ jwkPrivateKey options') as [tr' [r|e]] eqn:Hdec.
  - exfalso. apply decrypt_ok_validated in Hdec as [vj Hvj].
    apply validateFlattenedJwe_ok in Hvj as [Hparse Hmerge].
    destruct (assemble_jwe_members this' ct iv tag
                (encodeBase64UrlHeader Pf (JObj (parameters ∪ h))) ek
                (encodeBase64Url <$> fe_aad this)) as (_ & _ & _ & Lp & _ & _ & Ls & Lu).
    cbn [get] in Hparse, Hmerge. rewrite Lp in Hparse. rewrite Ls, Lu in Hmerge.
    rewrite parseBase64UrlHeader_encoded in Hparse by done. injection Hparse as Hparse.
    rewrite <- Hparse in Hmerge.
    assert (∃ J', mergeJweHeaders (JObj (parameters ∪ h))
              (if truthy (fe_sharedUnprotectedHeader this') then fe_sharedUnprotectedHeader this'
               else JUndefined)
              (if truthy (fe_unprotectedHeader this') then fe_unprotectedHeader this'
               else JUndefined) = Ok J') as Hm' by eauto.
    apply mergeJweHeaders_ok_iff in Hm' as (_ & _ & _ & Hps & Hpu & _).
    unfold Object_keys in Hps, Hpu, Hepk, Hin. rewrite !own_props_if_truthy in Hps, Hpu.
    cbn [this' with_protectedHeader fe_sharedUnprotectedHeader fe_unprotectedHeader] in *.
    set_solver.
  - apply decrypt_throws_invalid in Hdec as [msg ->]. eauto.
Qed.

Lemma encrypt_epk_unprotected_witness :
  "epk" ∈ Object_keys (JObj (<[ "epk" := p256_jwk ]> ecdh_header))
  ∧ ∀ aes jwkPrivateKey options',
      ∃ tr' msg,
        decrypt (codec_platform (JObj ecdh_header_with_epk)) aes
          (JObj {[ "ciphertext" := JStr (encodeBase64Url (reverse hello));
                   "iv" := JStr (encodeBase64Url (replicate 12 x00));
                   "tag" := JStr (encodeBase64Url (replicate 16 x00));
                   "protected" := JStr "e30";
                   "unprotected" := JObj {[ "epk" := JStr "mine" ]} ]})
          jwkPrivateKey options' = (tr', Throw (JweInvalid msg)).
Proof.
  eapply (encrypt_epk_unprotected (codec_platform (JObj ecdh_header_with_epk))
            {| fe_aes := reversing_aes;
               fe_protectedHeader := JObj ecdh_header;
               fe_sharedUnprotectedHeader := JObj {[ "epk" := JStr "mine" ]};
               fe_unprotectedHeader := JUndefined;
               fe_aad := None;
               fe_keyManagementParameters := JUndefined |}
            (JBytes hello) p256_jwk noOptions _
            {| fe_aes := reversing_aes;
               fe_protectedHeader := JObj ecdh_header_with_epk;
               fe_sharedUnprotectedHeader := JObj {[ "epk" := JStr "mine" ]};
               fe_unprotectedHeader := JUndefined;
               fe_aad := None;
               fe_keyManagementParameters := JUndefined |}).
  - vm_compute. reflexivity.
  - apply codec_platform_base64url.
  - reflexivity.
  - apply elem_of_union_l. unfold Object_keys. cbn [fe_sharedUnprotectedHeader own_props].
    rewrite dom_singleton_L. set_solver.
Defined.

(** ** Signing followed by verification *)

Lemma sign_ok_try (Pf : Platform) (this : FlattenedSigner) (payload jwkPrivateKey : JsValue)
    (options : Options) (tr : list Event) (jws : JsValue) :
  sign Pf this payload jwkPrivateKey options = (tr, Ok jws) →
  ∃ pl, payload = JBytes pl
        ∧ sign_try Pf this pl jwkPrivateKey options = (tr, Ok jws).
Proof.
  unfold sign. destruct payload as [| | | | |pl| | |]; try done. cbn [is_nullish].
  destruct (is_nullish jwkPrivateKey); [done|].
  destruct (isPlainObject jwkPrivateKey); cbn [negb]; [|done].
  destruct (truthy (get jwkPrivateKey "crv")); cbn [negb]; [|done].
  intros [(a & [= <-] & Htry)|[? _]]%try_catch_uniform; [|done].
  by exists pl.
Qed.

(** Everything a successful run of the [try] block of [sign] went through. *)
Lemma sign_try_run (Pf : Platform) (this : FlattenedSigner) (pl : bytes)
    (jwk : JsValue) (options : Options) (tr : list Event) (jws : JsValue) :
  sign_try Pf this pl jwk options = (tr, Ok jws) →
  ∃ curve sk J names b64 alg signature,
    createSignatureCurve Pf (get jwk "crv") (fs_randomBytes this) = Returned curve
    ∧ sig_toRawPrivateKey curve jwk = Returned sk
    ∧ mergeJwsHeaders (fs_protectedHeader this) (fs_unprotectedHeader this) = Ok J
    ∧ sign_validateCrit this options J = Ok names
    ∧ parseB64 (get (fs_protectedHeader this) "b64") names = Ok b64
    ∧ validateJwsAlg (get (fs_protectedHeader this) "alg") (signatureAlgorithmName curve)
      = Ok alg
    ∧ sig_sign curve sk (encodeSignTarget Pf (fs_protectedHeader this) pl b64).1.1
      = Returned signature
    ∧ tr = [EvCreateCurve (get jwk "crv"); EvToRawPrivateKey jwk;
            EvSign sk (encodeSignTarget Pf (fs_protectedHeader this) pl b64).1.1]
    ∧ jws = JObj (let jws : Header :=
                    {[ "signature" := JStr (encodeBase64Url signature);
                       "protected" := JStr (encodeBase64UrlHeader Pf (fs_protectedHeader this));
                       "payload" := JStr (if b64 then encodeBase64Url pl else "") ]} in
                  if truthy (fs_unprotectedHeader this)
                  then <[ "header" := fs_unprotectedHeader this ]> jws else jws).
Proof.
  unfold sign_try. intros H.
  apply M_bind_ok in H as (t1 & curve & t1' & [-> Hcurve]%call_ok & H & ->).
  apply M_bind_ok in H as (t2 & sk & t2' & [-> Hsk]%call_ok & H & ->).
  apply M_bind_ok in H as (t3 & J & t3' & [-> HJ]%lift_inv & H & ->).
  apply M_bind_ok in H as (t4 & names & t4' & [-> Hcrit]%lift_inv & H & ->).
  apply M_bind_ok in H as (t5 & b64 & t5' & [-> Hb64]%lift_inv & H & ->).
  apply M_bind_ok in H as (t6 & alg & t6' & [-> Halg]%lift_inv & H & ->).
  exists curve, sk, J, names, b64, alg.
  unfold encodeSignTarget in *. destruct b64; cbn [fst snd] in *.
  - apply M_bind_ok in H as (t7 & sg & t7' & [-> Hsig]%call_ok & H & ->).
    injection H as <- <-. exists sg. repeat split; done.
  - apply M_bind_ok in H as (t7 & sg & t7' & [-> Hsig]%call_ok & H & ->).
    injection H as <- <-. exists sg. repeat split; done.
Qed.

Lemma validateCrit_any_error (E1 E2 : string → Exn) (D O : option (gmap string bool))
    (P : JsValue) (J : Header) (names : gset string) :
  validateCrit E1 D O P J = Ok names → validateCrit E2 D O P J = Ok names.
Proof.
  intros H1.
  destruct (validateCrit_decision E1 D O P J) as [(msg & Ht & _)|[Hok Hnv]]; [congruence|].
  destruct (validateCrit_decision E2 D O P J) as [(msg & _ & Hv)|[Hok2 _]]; [done|].
  congruence.
Qed.

Lemma signed_jws_members (signature H : string) (pl : bytes) (u : JsValue) (b64 : bool) :
  let jws : Header :=
    {[ "signature" := JStr signature; "protected" := JStr H;
       "payload" := JStr (if b64 then encodeBase64Url pl else "") ]} in
  let jws := if truthy u then <[ "header" := u ]> jws else jws in
  ∀ name,
    get (with_detached_payload (JObj jws) pl b64) name
    = if String.eqb name "payload"
      then (if b64 then JStr (encodeBase64Url pl) else JBytes pl)
      else prop jws name.
Proof.
  intros jws0 jws name. unfold with_detached_payload.
  destruct (String.eqb_spec name "payload") as [->|Hne].
  - destruct b64; cbn [get own_props]; unfold prop.
    + subst jws jws0. destruct (truthy u);
        repeat first [rewrite lookup_insert_eq | rewrite lookup_insert_ne by done
                      | rewrite lookup_singleton_eq]; done.
    + by rewrite lookup_insert_eq.
  - destruct b64; cbn [get own_props]; [done|]. unfold prop.
    by rewrite lookup_insert_ne.
Qed.

Lemma signed_jws_lookup (signature H payload : string) (u : JsValue) :
  let jws : Header :=
    {[ "signature" := JStr signature; "protected" := JStr H; "payload" := JStr payload ]} in
  let jws := if truthy u then <[ "header" := u ]> jws else jws in
  prop jws "signature" = JStr signature
  ∧ prop jws "protected" = JStr H
  ∧ prop jws "payload" = JStr payload
  ∧ prop jws "header" = (if truthy u then u else JUndefined).
Proof.
  cbn zeta. unfold prop. destruct (truthy u); repeat split;
    repeat first [rewrite lookup_insert_eq | rewrite lookup_insert_ne by done
                  | rewrite lookup_singleton_eq | rewrite lookup_singleton_ne by done];
    done.
Qed.

Lemma mergeJwsHeaders_ok_inv (p u : JsValue) (J : Header) :
  mergeJwsHeaders p u = Ok J →
  verifyJwsHeaders p u = Ok () ∧ J = spread2 u p.
Proof.
  unfold mergeJwsHeaders. destruct (verifyJwsHeaders p u) as [[]|]; [|done].
  cbn. by intros [= <-].
Qed.

(** [verify] on what a successful [sign] returned. *)
Lemma sign_then_verify (Pf : Platform) (this : FlattenedSigner)
    (payload jwkPrivateKey jwkPublicKey : JsValue) (options options' : Options)
    (verifierRandomBytes : Z → bytes) (tr : list Event) (jws : JsValue) :
  sign Pf this payload jwkPrivateKey options = (tr, Ok jws) →
  base64url_contract Pf →
  json_contract Pf (fs_protectedHeader this) →
  signature_key_pair Pf (fs_randomBytes this) verifierRandomBytes jwkPrivateKey jwkPublicKey →
  opt_crit options' = opt_crit options →
  ∃ pl b64 tr' result,
    payload = JBytes pl
    ∧ parseB64 (get (fs_protectedHeader this) "b64")
        (list_to_set (protected_crit_names (fs_protectedHeader this))) = Ok b64
    ∧ get jws "payload" = JStr (if b64 then encodeBase64Url pl else "")
    ∧ verify Pf verifierRandomBytes (with_detached_payload jws pl b64) jwkPublicKey options'
      = (tr', Ok result)
    ∧ get result "payload" = payload
    ∧ get result "protectedHeader" = fs_protectedHeader this.
Proof.
  intros Hrun Hb64c Hjson (Hplain & Hcrv & Hkp) Hcrit.
  apply sign_ok_try in Hrun as (pl & -> & Hrun).
  apply sign_try_run in Hrun
    as (curve & sk & J & names & b64 & alg & sg & Hcurve & Hsk & HJ & HcritOk & HparseB64
        & Halg & Hsig & -> & ->).
  destruct (Hkp curve sk Hcurve Hsk) as (curve' & pk & Hcurve' & Hname & Hpk & Hver).
  apply mergeJwsHeaders_ok_inv in HJ as [Hv HJ].
  pose proof Hv as Hv'. apply verifyJwsHeaders_spec in Hv' as ((h & Hh & Hne) & Hu & Hpu).
  unfold sign_validateCrit in HcritOk.
  assert (names = list_to_set (protected_crit_names (fs_protectedHeader this))) as Hnames.
  { destruct (validateCrit_decision JweInvalid (Some {[ "b64" := true ]}) (opt_crit options)
                (fs_protectedHeader this) J) as [(msg & Ht & _)|[Hok _]]; congruence. }
  apply (validateCrit_any_error _ JwsInvalid) in HcritOk.
  set (H := encodeBase64UrlHeader Pf (fs_protectedHeader this)) in *.
  set (u := fs_unprotectedHeader this) in *.
  pose proof (signed_jws_members (encodeBase64Url sg) H pl u b64) as Hmem. cbn zeta in Hmem.
  destruct (signed_jws_lookup (encodeBase64Url sg) H (if b64 then encodeBase64Url pl else "") u)
    as (Lsig & Lprot & Lpay & Lhdr).
  exists pl, b64. eexists _, _. split; [done|]. split; [by rewrite <- Hnames|].
  split; [exact Lpay|].
  assert (verify_prepare Pf verifierRandomBytes
            (with_detached_payload
               (JObj (if truthy u
                      then <[ "header" := u ]>
                             {[ "signature" := JStr (encodeBase64Url sg);
                                "protected" := JStr H;
                                "payload" := JStr (if b64 then encodeBase64Url pl else "") ]}
                      else {[ "signature" := JStr (encodeBase64Url sg);
                              "protected" := JStr H;
                              "payload" := JStr (if b64 then encodeBase64Url pl else "") ]}))
               pl b64)
            jwkPublicKey options'
          = ([EvCreateCurve (get jwkPublicKey "crv"); EvToRawPublicKey jwkPublicKey],
             Ok {| vi_curve := curve'; vi_publicKey := pk;
                   vi_verifyTarget := (encodeSignTarget Pf (fs_protectedHeader this) pl b64).1.1;
                   vi_signature := sg; vi_payload := pl;
                   vi_parsedProtected := fs_protectedHeader this |})) as Hprep.
  { unfold verify_prepare.
    rewrite Hcurve', M_bind_call_returned, Hpk, M_bind_call_returned.
    assert (validateFlattenedJws Pf
              (with_detached_payload
                 (JObj (if truthy u
                        then <[ "header" := u ]>
                               {[ "signature" := JStr (encodeBase64Url sg);
                                  "protected" := JStr H;
                                  "payload" := JStr (if b64 then encodeBase64Url pl else "") ]}
                        else {[ "signature" := JStr (encodeBase64Url sg);
                                "protected" := JStr H;
                                "payload" := JStr (if b64 then encodeBase64Url pl else "") ]}))
                 pl b64)
            = Ok (sg, J, fs_protectedHeader this)) as ->.
    { unfold validateFlattenedJws.
      assert (∀ o, is_nullish (with_detached_payload (JObj o) pl b64) = false
                   ∧ isPlainObject (with_detached_payload (JObj o) pl b64) = true) as Hobj.
      { intros o. by destruct b64. }
      rewrite (proj1 (Hobj _)), (proj2 (Hobj _)). cbn [negb].
      rewrite !Hmem. cbn [String.eqb Ascii.eqb Bool.eqb]. rewrite Lsig, Lhdr, Lprot.
      rewrite decodeRequiredBase64Url_encoded by done. cbn [mbind result_bind].
      assert (negb (is_undefined (if truthy u then u else JUndefined))
              && negb (isPlainObject (if truthy u then u else JUndefined)) = false) as ->.
      { destruct (truthy u); [rewrite Hu by done; apply andb_false_r|done]. }
      subst H. rewrite Hh in *. rewrite parseBase64UrlHeader_encoded by done.
      cbn [mbind result_bind].
      assert (mergeJwsHeaders (JObj h) (if truthy u then u else JUndefined) = Ok J) as ->.
      { unfold mergeJwsHeaders.
        rewrite (proj2 (verifyJwsHeaders_spec (JObj h) (if truthy u then u else JUndefined))).
        - cbn [mbind result_bind]. rewrite HJ. unfold spread2.
          by rewrite own_props_if_truthy.
        - split; [eauto|]. unfold Object_keys. rewrite own_props_if_truthy. split; [|done].
          destruct (truthy u); [intros _; by apply Hu|done]. }
      cbn [mbind result_bind]. by destruct b64. }
    rewrite M_bind_lift_ok. rewrite Hcrit, HcritOk, M_bind_lift_ok.
    rewrite HparseB64, M_bind_lift_ok. rewrite Hname, Halg, M_bind_lift_ok.
    rewrite !Hmem. cbn [String.eqb Ascii.eqb Bool.eqb]. rewrite Lprot.
    cbn [optional_string default from_option id].
    unfold encodeVerifyTarget, encodeSignTarget. fold H. destruct b64.
    - rewrite Hb64c. cbn [of_provider mbind result_bind]. by rewrite M_bind_lift_ok.
    - by rewrite M_bind_lift_ok. }
  split.
  - unfold verify.
    assert (∀ o, is_nullish (with_detached_payload (JObj o) pl b64) = false
                 ∧ isPlainObject (with_detached_payload (JObj o) pl b64) = true) as Hobj.
    { intros o. by destruct b64. }
    rewrite (proj1 (Hobj _)), (proj2 (Hobj _)). cbn [negb].
    destruct jwkPublicKey as [| | | | | | |pub|]; try done. cbn [is_nullish isPlainObject negb].
    rewrite Hcrv. cbn [negb].
    unfold verify_try. rewrite Hprep, M_bind_ok_eq.
    unfold verify_primitive.
    cbn [vi_curve vi_publicKey vi_verifyTarget vi_signature vi_payload vi_parsedProtected].
    rewrite (Hver _ _ Hsig), M_bind_call_returned. cbn [negb].
    rewrite !Hmem. cbn [String.eqb Ascii.eqb Bool.eqb]. rewrite Lprot, Lhdr.
    cbn [is_undefined negb M_ret fst snd app try_catch]. reflexivity.
  - unfold prop.
    destruct (is_undefined (if truthy u then u else JUndefined)); cbn [negb get]; unfold prop;
      repeat first [rewrite lookup_insert_eq | rewrite lookup_insert_ne by done
                    | rewrite lookup_singleton_eq | rewrite lookup_singleton_ne by done];
      done.
Qed.

(** X11. Verification undoes signing.  When the base64url decoder undoes
    the encoder, the protected header survives JSON serialization and
    the public key is the public key of the signing key, [verify]
    accepts the flattened JWS returned by a successful [sign] and
    returns the payload and the protected header; with [b64] false in
    effect the JWS carries an empty payload member, and [verify] accepts
    it once the payload is put back in its place. *)
Theorem verify_sign (Pf : Platform) (this : FlattenedSigner)
    (payload jwkPrivateKey jwkPublicKey : JsValue) (options options' : Options)
    (verifierRandomBytes : Z → bytes) (tr : list Event) (jws : JsValue) :
  sign Pf this payload jwkPrivateKey options = (tr, Ok jws) →
  base64url_contract Pf →
  json_contract Pf (fs_protectedHeader this) →
  signature_key_pair Pf (fs_randomBytes this) verifierRandomBytes jwkPrivateKey jwkPublicKey →
  opt_crit options' = opt_crit options →
  ∃ pl b64 tr' result,
    payload = JBytes pl
    ∧ parseB64 (get (fs_protectedHeader this) "b64")
        (list_to_set (protected_crit_names (fs_protectedHeader this))) = Ok b64
    ∧ get jws "payload" = JStr (if b64 then encodeBase64Url pl else "")
    ∧ verify Pf verifierRandomBytes (with_detached_payload jws pl b64) jwkPublicKey options'
      = (tr', Ok result)
    ∧ get result "payload" = payload
    ∧ get result "protectedHeader" = fs_protectedHeader this.
Proof. apply sign_then_verify. Qed.

Lemma stub_signature_key_pair (parsed : JsValue) (rb rb' : Z → bytes) (jwk : JsValue) :
  signature_key_pair (codec_platform parsed) rb rb' jwk stub_jwk.
Proof.
  split; [done|]. split; [done|].
  intros curve sk [= <-] [= <-]. eexists _, _. repeat split.
Qed.

Lemma verify_sign_witness :
  ∃ pl b64 tr' result,
    JBytes hello = JBytes pl
    ∧ parseB64 (get unencoded_payload_header "b64")
        (list_to_set (protected_crit_names unencoded_payload_header)) = Ok b64
    ∧ get (JObj {[ "signature" := JStr (encodeBase64Url (replicate 64 x00));
                   "protected" := JStr "e30";
                   "payload" := JStr "" ]}) "payload"
      = JStr (if b64 then encodeBase64Url pl else "")
    ∧ verify (codec_platform unencoded_payload_header) stub_randomBytes
        (with_detached_payload
           (JObj {[ "signature" := JStr (encodeBase64Url (replicate 64 x00));
                    "protected" := JStr "e30";
                    "payload" := JStr "" ]}) pl b64)
        stub_jwk noOptions = (tr', Ok result)
    ∧ get result "payload" = JBytes hello
    ∧ get result "protectedHeader" = unencoded_payload_header.
Proof.
  eapply (verify_sign (codec_platform unencoded_payload_header)
            {| fs_randomBytes := stub_randomBytes;
               fs_protectedHeader := unencoded_payload_header;
               fs_unprotectedHeader := JUndefined |}
            (JBytes hello) stub_jwk stub_jwk noOptions noOptions stub_randomBytes).
  - vm_compute. reflexivity.
  - apply codec_platform_base64url.
  - reflexivity.
  - apply stub_signature_key_pair.
  - reflexivity.
Defined.

(** ** Compact serialization *)

Lemma split_dot_nonempty (s : string) : split_dot s ≠ [].
Proof.
  unfold split_dot. induction s as [|c s IH]; [done|]. cbn [split_on].
  destruct (Ascii.eqb c "."); [done|]. by destruct (split_on "." s).
Qed.

Lemma split_dot_cons (c : ascii) (s : string) :
  split_dot (String c s)
  = if Ascii.eqb c "."%char then "" :: split_dot s
    else match split_dot s with
         | part :: rest => String c part :: rest
         | [] => [String c ""]
         end.
Proof. done. Qed.

Lemma length_split_dot (s : string) : length (split_dot s) = S (count_dots s).
Proof.
  induction s as [|c s IH]; [done|]. rewrite split_dot_cons. cbn [count_dots].
  destruct (Ascii.eqb c "."); cbn [length]; [by rewrite IH|].
  pose proof (split_dot_nonempty s). destruct (split_dot s); [done|]. cbn in *. lia.
Qed.

Lemma join_dot_cons (part : string) (rest : list string) :
  rest ≠ [] → join_dot (part :: rest) = part +:+ "." +:+ join_dot rest.
Proof. by destruct rest. Qed.

(** Joining what [split] gives restores the string. *)
Lemma join_dot_split_dot (s : string) : join_dot (split_dot s) = s.
Proof.
  induction s as [|c s IH]; [done|]. rewrite split_dot_cons.
  pose proof (split_dot_nonempty s) as Hne.
  destruct (Ascii.eqb_spec c ".") as [->|Hc].
  - rewrite join_dot_cons by done. by rewrite IH.
  - destruct (split_dot s) as [|part rest]; [done|].
    destruct rest as [|part' rest].
    + cbn in *. by rewrite IH.
    + rewrite join_dot_cons by done. rewrite join_dot_cons in IH by done.
      by rewrite <- IH.
Qed.

Lemma split_dot_dot_free (s : string) : dot_free s = true → split_dot s = [s].
Proof.
  induction s as [|c s IH]; [done|]. cbn [dot_free]. rewrite split_dot_cons.
  destruct (Ascii.eqb c "."); [done|]. cbn [negb andb]. intros H. by rewrite IH.
Qed.

Lemma split_dot_app (a b : string) :
  dot_free a = true → split_dot (a +:+ "." +:+ b) = a :: split_dot b.
Proof.
  induction a as [|c a IH]; [done|]. cbn [dot_free].
  change (String c a +:+ "." +:+ b) with (String c (a +:+ "." +:+ b)).
  rewrite split_dot_cons.
  destruct (Ascii.eqb c "."); [done|]. cbn [negb andb]. intros H. by rewrite IH.
Qed.

Lemma split_dot_join_dot (parts : list string) :
  parts ≠ [] → Forall (λ part, dot_free part = true) parts →
  split_dot (join_dot parts) = parts.
Proof.
  induction parts as [|part rest IH]; [done|]. intros _ [Hp Hrest]%Forall_cons.
  destruct rest as [|part' rest].
  - by apply split_dot_dot_free.
  - rewrite join_dot_cons by done. rewrite split_dot_app by done. by rewrite IH.
Qed.

Lemma dot_free_app (a b : string) : dot_free (a +:+ b) = dot_free a && dot_free b.
Proof.
  induction a as [|c a IH]; [done|].
  change (String c a +:+ b) with (String c (a +:+ b)). cbn [dot_free].
  by rewrite IH, andb_assoc.
Qed.

Lemma dot_free_b64u_char (i : Z) : dot_free (b64u_char i) = true.
Proof.
  unfold b64u_char. destruct (decide (Z.to_nat i < 64)%nat) as [Hlt|Hge].
  - assert (Forall (λ n, dot_free match String.get n b64u_alphabet with
                                  | Some c => String c ""
                                  | None => ""
                                  end = true) (seq 0 64)) as Hall.
    { apply (bool_decide_unpack _). by vm_compute. }
    rewrite Forall_forall in Hall. apply Hall, elem_of_seq. lia.
  - replace (Z.to_nat i) with (64 + (Z.to_nat i - 64))%nat by lia. done.
Qed.

Lemma dot_free_b64u_groups (fuel : nat) : ∀ l, dot_free (b64u_groups fuel l) = true.
Proof.
  induction fuel as [|fuel IH]; intros l.
  - destruct l as [|b0 [|b1 [|b2 rest]]]; cbn [b64u_groups];
      rewrite ?dot_free_app, ?dot_free_b64u_char; done.
  - destruct l as [|b0 [|b1 [|b2 rest]]]; cbn [b64u_groups];
      rewrite ?dot_free_app, ?dot_free_b64u_char, ?IH; done.
Qed.

Lemma dot_free_encodeBase64Url (b : bytes) : dot_free (encodeBase64Url b) = true.
Proof. apply dot_free_b64u_groups. Qed.

Lemma dot_free_encodeBase64UrlHeader (Pf : Platform) (h : JsValue) :
  dot_free (encodeBase64UrlHeader Pf h) = true.
Proof.
  unfold encodeBase64UrlHeader. destruct (negb (truthy h)); [done|].
  apply dot_free_encodeBase64Url.
Qed.

Lemma dot_free_split_dot (s : string) : Forall (λ part, dot_free part = true) (split_dot s).
Proof.
  induction s as [|c s IH]; [by repeat constructor|]. rewrite split_dot_cons.
  destruct (Ascii.eqb c ".") eqn:Hc; [by constructor|].
  destruct (split_dot s) as [|part rest]; [repeat constructor; cbn; by rewrite Hc|].
  apply Forall_cons in IH as [Hp Hrest]. constructor; [|done]. cbn. by rewrite Hc, Hp.
Qed.

Lemma truthy_JStr (s : string) : truthy (JStr s) = true ↔ s ≠ "".
Proof. cbn. destruct (String.eqb_spec s ""); cbn; split; congruence. Qed.

Lemma M_bind_ret_throw {A B : Type} (m : M A) (f : A → B) (tr : list Event) (e : Exn) :
  M_bind m (λ a, M_ret (f a)) = (tr, Throw e) → m = (tr, Throw e).
Proof. destruct m as [t [a|e']]; cbn; [done|]. by intros [= <- <-]. Qed.

(** X12. [compact_decrypt] never throws anything but [JweInvalid].  It
    makes no external call unless its input is a string of exactly five
    dot-separated parts of which the first, third, fourth and fifth are
    not empty: a value that is not a string, and a string whose number
    of dots is not four, are rejected at once. *)
Theorem compact_decrypt_shape (Pf : Platform) (aes : AesCipher)
    (compactJwe myJwkPrivateKey : JsValue) (options : Options) :
  (∀ tr e, compact_decrypt Pf aes compactJwe myJwkPrivateKey options = (tr, Throw e) →
           ∃ msg, e = JweInvalid msg)
  ∧ ((∀ s, compactJwe ≠ JStr s) →
     compact_decrypt Pf aes compactJwe myJwkPrivateKey options
     = ([], Throw (JweInvalid "Compact JWE must be a string")))
  ∧ (∀ s, compactJwe = JStr s → count_dots s ≠ 4%nat →
     compact_decrypt Pf aes compactJwe myJwkPrivateKey options
     = ([], Throw (JweInvalid "Invalid Compact JWE: must have 5 parts")))
  ∧ (∀ tr r, compact_decrypt Pf aes compactJwe myJwkPrivateKey options = (tr, r) →
     tr ≠ [] →
     ∃ protectedHeader encrypted_key iv ciphertext tag,
       compactJwe = JStr (join_dot [protectedHeader; encrypted_key; iv; ciphertext; tag])
       ∧ Forall (λ part, dot_free part = true)
           [protectedHeader; encrypted_key; iv; ciphertext; tag]
       ∧ protectedHeader ≠ "" ∧ iv ≠ "" ∧ ciphertext ≠ "" ∧ tag ≠ "").
Proof.
  unfold compact_decrypt. repeat split.
  - intros tr e. destruct compactJwe as [| | | |s| | | |]; try (intros [= _ <-]; eauto).
    destruct (split_dot s) as [|p [|ek [|iv [|ct [|tag [|x rest]]]]]];
      try (intros [= _ <-]; eauto).
    repeat (match goal with |- context [if ?b then _ else _] => destruct b end;
            [intros [= _ <-]; eauto|]).
    intros H%M_bind_ret_throw. by apply decrypt_throws_invalid in H.
  - intros Hns. destruct compactJwe; try done. by destruct (Hns s).
  - intros s -> Hdots. pose proof (length_split_dot s) as Hlen.
    destruct (split_dot s) as [|p [|ek [|iv [|ct [|tag [|x rest]]]]]]; try done.
    cbn in Hlen. lia.
  - intros tr r. destruct compactJwe as [| | | |s| | | |]; try (intros [= <- _]; done).
    pose proof (join_dot_split_dot s) as Hjoin. pose proof (dot_free_split_dot s) as Hfree.
    destruct (split_dot s) as [|p [|ek [|iv [|ct [|tag [|x rest]]]]]];
      try (intros [= <- _]; done).
    destruct (truthy (JStr p)) eqn:Hp; cbn [negb]; [|intros [= <- _]; done].
    destruct (truthy (JStr iv)) eqn:Hiv; cbn [negb]; [|intros [= <- _]; done].
    destruct (truthy (JStr ct)) eqn:Hct; cbn [negb]; [|intros [= <- _]; done].
    destruct (truthy (JStr tag)) eqn:Htag; cbn [negb]; [|intros [= <- _]; done].
    intros _ _. exists p, ek, iv, ct, tag. rewrite Hjoin.
    apply truthy_JStr in Hp, Hiv, Hct, Htag. done.
Qed.

Lemma compact_encrypt_ok (Pf : Platform) (this : FlattenedEncrypter)
    (plaintext jwkPublicKey : JsValue) (options : Options) (tr : list Event)
    (this' : FlattenedEncrypter) (compactJwe : string) :
  compact_encrypt Pf this plaintext jwkPublicKey options = (tr, Ok (this', compactJwe)) →
  ∃ jwe,
    encrypt Pf this plaintext jwkPublicKey options = (tr, Ok (this', jwe))
    ∧ compactJwe
      = join_dot [ string_member jwe "protected";
                   (if truthy (get jwe "encrypted_key")
                    then string_member jwe "encrypted_key" else "");
                   string_member jwe "iv"; string_member jwe "ciphertext";
                   string_member jwe "tag" ].
Proof.
  unfold compact_encrypt. intros H.
  apply M_bind_ok in H as (t1 & [this1 jwe] & t2 & Hrun & H & ->).
  injection H as <- <- <-. exists jwe. by rewrite app_nil_r.
Qed.




(** X14. An empty plaintext does not survive the compact serialization
    when the AEAD is length-preserving, as AES-GCM is: the string that
    a successful [compact_encrypt] returns has an empty ciphertext part,
    and [compact_decrypt] rejects it without any external call, whatever
    the key and the options. *)
Theorem compact_empty_plaintext (Pf : Platform) (this : FlattenedEncrypter)
    (jwkPublicKey : JsValue) (options : Options)
    (tr : list Event) (this' : FlattenedEncrypter) (compactJwe : string) :
  compact_encrypt Pf this (JBytes []) jwkPublicKey options = (tr, Ok (this', compactJwe)) →
  aead_length_preserving (fe_aes this) →
  (∃ protectedHeader iv tag,
     split_dot compactJwe = [protectedHeader; ""; iv; ""; tag])
  ∧ ∀ aes jwkPrivateKey options',
      ∃ msg, compact_decrypt Pf aes (JStr compactJwe) jwkPrivateKey options'
             = ([], Throw (JweInvalid msg)).
Proof.
  intros Hrun Hlen.
  apply compact_encrypt_ok in Hrun as (jwe & Hrun & ->).
  apply encrypt_ok_try in Hrun as (pt & [= <-] & Hrun).
  apply encrypt_try_run in Hrun
    as (curve & pk & J & names & alg & enc & cek & ek & parameters & t_d & ct & tag & iv
        & _ & _ & _ & _ & _ & _ & Hderive & _ & Haes & _ & ->).
  apply deriveEncryptionKey_ecdhes in Hderive as [_ Hderive].
  apply ecdhesDeriveEncryptionKey_ok in Hderive
    as (? & ? & ? & ? & ? & ? & ? & ? & _ & _ & _ & _ & _ & _ & _ & _ & _ & _ & -> & _).
  apply Hlen in Haes. destruct ct; [|done].
  destruct (assemble_jwe_members this' [] iv tag
              (encodeBase64UrlHeader Pf (fe_protectedHeader this')) None
              (encodeBase64Url <$> fe_aad this')) as (L1 & L2 & L3 & L4 & L5 & _).
  unfold string_member. cbn [get]. rewrite L1, L2, L3, L4, L5.
  cbn [from_option truthy optional_string default id].
  assert (split_dot (join_dot [encodeBase64UrlHeader Pf (fe_protectedHeader this'); "";
                               encodeBase64Url iv; encodeBase64Url []; encodeBase64Url tag])
          = [encodeBase64UrlHeader Pf (fe_protectedHeader this'); "";
             encodeBase64Url iv; ""; encodeBase64Url tag]) as Hsplit.
  { apply (split_dot_join_dot [_; _; _; _; _]); [done|].
    repeat (constructor; [first [done | apply dot_free_encodeBase64UrlHeader
                                 | apply dot_free_encodeBase64Url]|]). constructor. }
  split; [eauto|]. intros aes jwkPrivateKey options'.
  unfold compact_decrypt. rewrite Hsplit.
  destruct (truthy (JStr (encodeBase64UrlHeader Pf (fe_protectedHeader this'))));
    cbn [negb]; [|eauto].
  destruct (truthy (JStr (encodeBase64Url iv))); cbn [negb]; [|eauto].
  cbn [truthy String.eqb negb]. eauto.
Qed.



Lemma compact_empty_plaintext_witness :
  (∃ protectedHeader iv tag,
     split_dot (join_dot ["e30"; ""; encodeBase64Url (replicate 12 x00); "";
                          encodeBase64Url (replicate 16 x00)])
     = [protectedHeader; ""; iv; ""; tag])
  ∧ ∀ aes jwkPrivateKey options',
      ∃ msg, compact_decrypt (codec_platform (JObj ecdh_header_with_epk)) aes
               (JStr (join_dot ["e30"; ""; encodeBase64Url (replicate 12 x00); "";
                                encodeBase64Url (replicate 16 x00)]))
               jwkPrivateKey options'
             = ([], Throw (JweInvalid msg)).
Proof.
  eapply (compact_empty_plaintext (codec_platform (JObj ecdh_header_with_epk))
            (with_protectedHeader (newFlattenedEncrypter reversing_aes) (JObj ecdh_header))
            p256_jwk noOptions _
            (with_protectedHeader (newFlattenedEncrypter reversing_aes)
               (JObj ecdh_header_with_epk))).
  - vm_compute. reflexivity.
  - intros enc pt cek aad ct tag iv [= <- _ _]. apply length_reverse.
Defined.

Lemma all_space_no_dot (n : nat) : ∀ units : list Z,
  (length units ≤ n)%nat → all_space units = true → 46 ∉ units.
Proof.
  induction n as [|n IH]; intros units Hlen.
  - destruct units; [intros _; apply not_elem_of_nil|cbn in Hlen; lia].
  - destruct units as [|a rest1]; [intros _; apply not_elem_of_nil|].
    cbn [all_space]. cbn [length] in Hlen.
    destruct (is_space1 a) eqn:H1.
    { intros Hrest. apply not_elem_of_cons. split.
      - intros <-. done.
      - apply IH; [lia|done]. }
    destruct rest1 as [|b rest2]; [done|]. cbn [length] in Hlen.
    destruct (is_space2 a b) eqn:H2.
    { intros Hrest. unfold is_space2 in H2.
      apply andb_prop in H2 as [Ha%Z.eqb_eq Hb%Z.eqb_eq]. subst a b.
      rewrite !not_elem_of_cons. split; [done|]. split; [done|]. apply IH; [lia|done]. }
    destruct rest2 as [|c rest3]; [done|]. cbn [length] in Hlen.
    destruct (is_space3 a b c) eqn:H3; [|done].
    intros Hrest. rewrite !not_elem_of_cons.
    assert (a ≠ 46 ∧ b ≠ 46 ∧ c ≠ 46) as (? & ? & ?).
    { unfold is_space3 in H3.
      repeat match goal with
             | H : _ || _ = true |- _ => apply orb_prop in H as [H|H]
             | H : _ && _ = true |- _ => apply andb_prop in H as [? ?]
             | H : (_ =? _) = true |- _ => apply Z.eqb_eq in H
             | H : (_ <=? _) = true |- _ => apply Z.leb_le in H
             end; lia. }
    split; [done|]. split; [done|]. split; [done|]. apply IH; [lia|done].
Qed.

Lemma dot_in_units (s : string) : (0 < count_dots s)%nat → 46 ∈ Z_of_byte <$> utf8 s.
Proof.
  induction s as [|c s IH]; [cbn; lia|].
  cbn [count_dots]. unfold utf8. cbn [list_byte_of_string fmap list_fmap].
  destruct (Ascii.eqb_spec c ".") as [->|Hc].
  - intros _. apply elem_of_cons. by left.
  - intros H. apply elem_of_cons. right. apply IH. lia.
Qed.

Lemma trim_is_empty_no_dot (s : string) : trim_is_empty s = true → count_dots s = 0%nat.
Proof.
  intros H. destruct (count_dots s) eqn:Hc; [done|]. exfalso.
  apply (all_space_no_dot _ _ (le_n _)) in H. apply H, dot_in_units. lia.
Qed.

Lemma jws_literal_eq (a b c : JsValue) :
  ({[ "payload" := a; "protected" := b; "signature" := c ]} : Header)
  = {[ "signature" := c; "protected" := b; "payload" := a ]}.
Proof.
  rewrite <- !insert_empty.
  rewrite (insert_insert_ne _ "payload" "protected") by done.
  rewrite (insert_insert_ne _ "payload" "signature") by done.
  by rewrite (insert_insert_ne _ "protected" "signature") by done.
Qed.

Lemma parseB64_ok (b64 : JsValue) (names : gset string) (b : bool) :
  parseB64 b64 names = Ok b
  ↔ (("b64" ∉ names) ∧ b = true)
    ∨ ("b64" ∈ names ∧ ((is_nullish b64 = true ∧ b = true) ∨ b64 = JBool b)).
Proof.
  unfold parseB64. case_bool_decide as Hin.
  - destruct b64; cbn [is_nullish]; split;
      try (intros [= <-]; right; split; [done|]; first [by left | by right]);
      try (intros [[? _]|[_ [[? ->]|?]]]; done);
      try done.
    intros [[? _]|[_ [[? ->]|[= ->]]]]; done.
  - split.
    + intros [= <-]. by left.
    + intros [[_ ->]|[? _]]; done.
Qed.

Lemma parseB64_false (b64 : JsValue) (names : gset string) (b : bool) :
  parseB64 b64 names = Ok b →
  (b = false ↔ "b64" ∈ names ∧ b64 = JBool false).
Proof.
  intros [[Hn ->]|[Hin [[Hnull ->]| ->]]]%parseB64_ok; split; try done.
  - by intros [? _].
  - intros [_ ->]. done.
  - intros ->. done.
  - by intros [_ [= ->]].
Qed.

(** What [compact_sign] does with the flattened JWS of a successful [sign]. *)
Lemma compact_sign_run (Pf : Platform) (this : FlattenedSigner)
    (payload jwkPrivateKey : JsValue) (options : Options) (tr : list Event) (jws : JsValue) :
  sign Pf this payload jwkPrivateKey options = (tr, Ok jws) →
  base64url_contract Pf →
  json_contract Pf (fs_protectedHeader this) →
  ∃ pl b64 sg,
    payload = JBytes pl
    ∧ parseB64 (get (fs_protectedHeader this) "b64")
        (list_to_set (protected_crit_names (fs_protectedHeader this))) = Ok b64
    ∧ get jws "signature" = JStr (encodeBase64Url sg)
    ∧ get jws "protected" = JStr (encodeBase64UrlHeader Pf (fs_protectedHeader this))
    ∧ get jws "payload" = JStr (if b64 then encodeBase64Url pl else "")
    ∧ (fs_unprotectedHeader this = JUndefined →
       jws = JObj {[ "signature" := JStr (encodeBase64Url sg);
                     "protected" := JStr (encodeBase64UrlHeader Pf (fs_protectedHeader this));
                     "payload" := JStr (if b64 then encodeBase64Url pl else "") ]})
    ∧ compact_sign Pf this payload jwkPrivateKey options
      = (tr,
         if negb (truthy (JStr (if b64 then encodeBase64Url pl else "")))
            && match get (fs_protectedHeader this) "b64" with JBool false => true | _ => false end
         then Throw (JwsInvalid "use the flattened module for creating JWS with b64: false")
         else Ok (encodeBase64UrlHeader Pf (fs_protectedHeader this) +:+ "."
                  +:+ (if b64 then encodeBase64Url pl else "") +:+ "."
                  +:+ encodeBase64Url sg)).
Proof.
  intros Hrun Hb64c Hjson. unfold compact_sign. rewrite Hrun, M_bind_ok_eq.
  apply sign_ok_try in Hrun as (pl & -> & Hrun).
  apply sign_try_run in Hrun
    as (curve & sk & J & names & b64 & alg & sg & Hcurve & Hsk & HJ & HcritOk & HparseB64
        & Halg & Hsig & -> & ->).
  apply mergeJwsHeaders_ok_inv in HJ as [Hv HJ].
  apply verifyJwsHeaders_spec in Hv as ((h & Hh & Hne) & Hu & Hpu).
  unfold sign_validateCrit in HcritOk.
  assert (names = list_to_set (protected_crit_names (fs_protectedHeader this))) as Hnames.
  { destruct (validateCrit_decision JweInvalid (Some {[ "b64" := true ]}) (opt_crit options)
                (fs_protectedHeader this) J) as [(msg & Ht & _)|[Hok _]]; congruence. }
  destruct (signed_jws_lookup (encodeBase64Url sg)
              (encodeBase64UrlHeader Pf (fs_protectedHeader this))
              (if b64 then encodeBase64Url pl else "") (fs_unprotectedHeader this))
    as (Lsig & Lprot & Lpay & Lhdr).
  exists pl, b64, sg. split; [done|]. split; [by rewrite <- Hnames|].
  split; [exact Lsig|]. split; [exact Lprot|]. split; [exact Lpay|].
  split; [by intros ->|].
  unfold string_member. cbn [get] in *. rewrite Lsig, Lprot, Lpay.
  cbn [optional_string default from_option id].
  rewrite Hh. rewrite Hh in Hjson. rewrite parseBase64UrlHeader_encoded, M_bind_lift_ok by done.
  destruct (negb _ && _); cbn [lift M_ret fst snd]; by rewrite app_nil_r.
Qed.

(** X15. [compact_sign] refuses the unencoded payload, and a little
    more.  On top of a successful flattened [sign], with a base64url
    decoder that undoes the encoder and a protected header that survives
    JSON serialization, [compact_sign] throws [JwsInvalid] exactly when
    the protected header holds [b64: false] and either names [b64] in
    [crit], or the payload is empty; otherwise it returns the three
    base64url parts joined by dots. *)
Theorem compact_sign_outcome (Pf : Platform) (this : FlattenedSigner)
    (payload jwkPrivateKey : JsValue) (options : Options) (tr : list Event) (jws : JsValue) :
  sign Pf this payload jwkPrivateKey options = (tr, Ok jws) →
  base64url_contract Pf →
  json_contract Pf (fs_protectedHeader this) →
  ∃ pl,
    payload = JBytes pl
    ∧ (get (fs_protectedHeader this) "b64" = JBool false
       ∧ (pl = [] ∨ "b64" ∈ protected_crit_names (fs_protectedHeader this)) →
       compact_sign Pf this payload jwkPrivateKey options
       = (tr, Throw (JwsInvalid "use the flattened module for creating JWS with b64: false")))
    ∧ (¬ (get (fs_protectedHeader this) "b64" = JBool false
          ∧ (pl = [] ∨ "b64" ∈ protected_crit_names (fs_protectedHeader this))) →
       compact_sign Pf this payload jwkPrivateKey options
       = (tr, Ok (string_member jws "protected" +:+ "." +:+ encodeBase64Url pl +:+ "."
                  +:+ string_member jws "signature"))).
Proof.
  intros Hrun Hb64c Hjson.
  destruct (compact_sign_run _ _ _ _ _ _ _ Hrun Hb64c Hjson)
    as (pl & b64 & sg & -> & Hparse & Lsig & Lprot & Lpay & _ & ->).
  exists pl. split; [done|].
  pose proof (parseB64_false _ _ _ Hparse) as Hfalse.
  rewrite elem_of_list_to_set in Hfalse.
  unfold string_member. rewrite Lsig, Lprot. cbn [optional_string default from_option id].
  split.
  - intros [Hb Hor]. rewrite Hb.
    assert ((if b64 then encodeBase64Url pl else "") = "") as ->.
    { destruct b64; [|done]. destruct Hor as [->|Hin]; [done|].
      by pose proof (proj2 Hfalse (conj Hin Hb)). }
    done.
  - intros Hnot.
    destruct b64.
    + destruct (get (fs_protectedHeader this) "b64") as [| |[|]| | | | | |] eqn:Hb;
        cbn [andb]; rewrite ?andb_false_r; try done.
      assert (encodeBase64Url pl ≠ "") as Hne.
      { rewrite encodeBase64Url_empty. intros ->. apply Hnot. split; [done|]. by left. }
      by rewrite (proj2 (truthy_JStr _) Hne).
    + destruct (proj1 Hfalse eq_refl) as [Hin Hb]. exfalso. apply Hnot. split; [done|]. by right.
Qed.

Lemma compact_sign_outcome_witness :
  ∃ pl,
    JBytes [] = JBytes pl
    ∧ (get uncritical_b64_header "b64" = JBool false
       ∧ (pl = [] ∨ "b64" ∈ protected_crit_names uncritical_b64_header) →
       compact_sign (codec_platform uncritical_b64_header)
         {| fs_randomBytes := stub_randomBytes;
            fs_protectedHeader := uncritical_b64_header;
            fs_unprotectedHeader := JUndefined |}
         (JBytes []) stub_jwk noOptions
       = ([EvCreateCurve (JStr "P-256"); EvToRawPrivateKey stub_jwk;
           EvSign (replicate 32 x02) (utf8 "e30.")],
          Throw (JwsInvalid "use the flattened module for creating JWS with b64: false")))
    ∧ (¬ (get uncritical_b64_header "b64" = JBool false
          ∧ (pl = [] ∨ "b64" ∈ protected_crit_names uncritical_b64_header)) →
       compact_sign (codec_platform uncritical_b64_header)
         {| fs_randomBytes := stub_randomBytes;
            fs_protectedHeader := uncritical_b64_header;
            fs_unprotectedHeader := JUndefined |}
         (JBytes []) stub_jwk noOptions
       = ([EvCreateCurve (JStr "P-256"); EvToRawPrivateKey stub_jwk;
           EvSign (replicate 32 x02) (utf8 "e30.")],
          Ok (string_member
                (JObj {[ "signature" := JStr (encodeBase64Url (replicate 64 x00));
                         "protected" := JStr "e30"; "payload" := JStr "" ]}) "protected"
              +:+ "." +:+ encodeBase64Url pl +:+ "."
              +:+ string_member
                    (JObj {[ "signature" := JStr (encodeBase64Url (replicate 64 x00));
                             "protected" := JStr "e30"; "payload" := JStr "" ]})
                    "signature"))).
Proof.
  apply (compact_sign_outcome (codec_platform uncritical_b64_header)
           {| fs_randomBytes := stub_randomBytes;
              fs_protectedHeader := uncritical_b64_header;
              fs_unprotectedHeader := JUndefined |}
           (JBytes []) stub_jwk noOptions).
  - vm_compute. reflexivity.
  - apply codec_platform_base64url.
  - reflexivity.
Defined.

Lemma verify_throws (Pf : Platform) (randomBytes : Z → bytes) (jws jwk : JsValue)
    (options : Options) (tr : list Event) (e : Exn) :
  verify Pf randomBytes jws jwk options = (tr, Throw e) →
  (∃ msg, e = JwsInvalid msg) ∨ is_signature_verification_failed e = true.
Proof.
  unfold verify.
  repeat (match goal with |- context [if ?b then _ else _] => destruct b end;
          [intros [= _ <-]; eauto|]).
  destruct (verify_try Pf randomBytes jws jwk options) as [t [a|e']]; cbn [try_catch]; [done|].
  destruct (is_signature_verification_failed e') eqn:He; cbn; intros [= _ <-]; eauto.
Qed.

(** X16. [compact_verify] throws nothing but [JwsInvalid] and the
    signature-verification error.  It makes no external call unless its
    input is a string of exactly three dot-separated parts: [null] and
    [undefined], a value that is not a string, a string of white space
    only, and a string whose number of dots is not two are rejected at
    once, each with its own message. *)
Theorem compact_verify_shape (Pf : Platform) (randomBytes : Z → bytes)
    (jws jwkPublicKey : JsValue) (options : Options) :
  (∀ tr e, compact_verify Pf randomBytes jws jwkPublicKey options = (tr, Throw e) →
           (∃ msg, e = JwsInvalid msg) ∨ is_signature_verification_failed e = true)
  ∧ (is_nullish jws = true →
     compact_verify Pf randomBytes jws jwkPublicKey options
     = ([], Throw (JwsInvalid "Compact JWS is missing")))
  ∧ (is_nullish jws = false → (∀ s, jws ≠ JStr s) →
     compact_verify Pf randomBytes jws jwkPublicKey options
     = ([], Throw (JwsInvalid "Compact JWS must be a string")))
  ∧ (∀ s, jws = JStr s → trim_is_empty s = true →
     compact_verify Pf randomBytes jws jwkPublicKey options
     = ([], Throw (JwsInvalid "Compact JWS cannot be empty")))
  ∧ (∀ s, jws = JStr s → trim_is_empty s = false → count_dots s ≠ 2%nat →
     compact_verify Pf randomBytes jws jwkPublicKey options
     = ([], Throw (JwsInvalid "Compact JWS must have 3 parts")))
  ∧ (∀ tr r, compact_verify Pf randomBytes jws jwkPublicKey options = (tr, r) →
     tr ≠ [] →
     ∃ protectedHeader payload signature,
       jws = JStr (join_dot [protectedHeader; payload; signature])
       ∧ Forall (λ part, dot_free part = true) [protectedHeader; payload; signature]).
Proof.
  unfold compact_verify. repeat split.
  - intros tr e. destruct (is_nullish jws); [intros [= _ <-]; eauto|].
    destruct jws as [| | | |s| | | |]; try (intros [= _ <-]; eauto).
    destruct (trim_is_empty s); [intros [= _ <-]; eauto|].
    destruct (split_dot s) as [|p [|pl [|sg [|x rest]]]]; try (intros [= _ <-]; eauto).
    intros H%M_bind_ret_throw. by apply verify_throws in H.
  - by intros ->.
  - intros -> Hns. destruct jws; try done. by destruct (Hns s).
  - by intros s -> ->.
  - intros s -> -> Hdots. cbn [is_nullish]. pose proof (length_split_dot s) as Hlen.
    destruct (split_dot s) as [|p [|pl [|sg [|x rest]]]]; try done.
    cbn in Hlen. lia.
  - intros tr r. destruct (is_nullish jws); [intros [= <- _]; done|].
    destruct jws as [| | | |s| | | |]; try (intros [= <- _]; done).
    destruct (trim_is_empty s); [intros [= <- _]; done|].
    pose proof (join_dot_split_dot s) as Hjoin. pose proof (dot_free_split_dot s) as Hfree.
    destruct (split_dot s) as [|p [|pl [|sg [|x rest]]]]; try (intros [= <- _]; done).
    intros _ _. exists p, pl, sg. by rewrite Hjoin.
Qed.

(** X17. Compact verification undoes compact signing.  Under the
    contracts of the flattened round trip, [compact_verify] accepts the
    string returned by a successful [compact_sign] and returns the
    payload and the protected header. *)
Theorem compact_verify_sign (Pf : Platform) (this : FlattenedSigner)
    (payload jwkPrivateKey jwkPublicKey : JsValue) (options options' : Options)
    (verifierRandomBytes : Z → bytes) (tr : list Event) (compactJws : string) :
  compact_sign Pf this payload jwkPrivateKey options = (tr, Ok compactJws) →
  fs_unprotectedHeader this = JUndefined →
  base64url_contract Pf →
  json_contract Pf (fs_protectedHeader this) →
  signature_key_pair Pf (fs_randomBytes this) verifierRandomBytes jwkPrivateKey jwkPublicKey →
  opt_crit options' = opt_crit options →
  count_dots compactJws = 2%nat
  ∧ ∃ tr' result,
      compact_verify Pf verifierRandomBytes (JStr compactJws) jwkPublicKey options'
      = (tr', Ok result)
      ∧ get result "payload" = payload
      ∧ get result "protectedHeader" = fs_protectedHeader this.
Proof.
  intros Hrun Hu0 Hb64c Hjson Hpair Hcrit.
  assert (∃ t jws, sign Pf this payload jwkPrivateKey options = (t, Ok jws)) as (t & jws & Hsign).
  { unfold compact_sign in Hrun.
    destruct (sign Pf this payload jwkPrivateKey options) as [t [jws|e]]; [eauto|done]. }
  destruct (compact_sign_run _ _ _ _ _ _ _ Hsign Hb64c Hjson)
    as (pl & b64 & sg & -> & Hparse & Lsig & Lprot & Lpay & Hjws & Hcs).
  specialize (Hjws Hu0). rewrite Hcs in Hrun.
  destruct (sign_then_verify _ _ _ _ _ _ _ _ _ _ Hsign Hb64c Hjson Hpair Hcrit)
    as (pl' & b64' & tr' & result & [= <-] & Hparse' & _ & Hver & Hpl & Hph).
  rewrite Hparse in Hparse'. injection Hparse' as <-.
  (* the unencoded payload never gets through [compact_sign] *)
  assert (b64 = true) as ->.
  { destruct b64; [done|]. exfalso.
    destruct (proj1 (parseB64_false _ _ _ Hparse) eq_refl) as [_ Hb].
    rewrite Hb in Hrun. cbn in Hrun. by injection Hrun. }
  unfold with_detached_payload in Hver.
  assert (compactJws = encodeBase64UrlHeader Pf (fs_protectedHeader this) +:+ "."
                       +:+ encodeBase64Url pl +:+ "." +:+ encodeBase64Url sg) as ->.
  { destruct (negb _ && _); [by injection Hrun|]. by injection Hrun as [= <-]. }
  assert (split_dot (encodeBase64UrlHeader Pf (fs_protectedHeader this) +:+ "."
                     +:+ encodeBase64Url pl +:+ "." +:+ encodeBase64Url sg)
          = [encodeBase64UrlHeader Pf (fs_protectedHeader this); encodeBase64Url pl;
             encodeBase64Url sg]) as Hsplit.
  { apply (split_dot_join_dot [_; _; _]); [done|].
    repeat (constructor; [first [apply dot_free_encodeBase64UrlHeader
                                 | apply dot_free_encodeBase64Url]|]). constructor. }
  assert (count_dots (encodeBase64UrlHeader Pf (fs_protectedHeader this) +:+ "."
                      +:+ encodeBase64Url pl +:+ "." +:+ encodeBase64Url sg) = 2%nat) as Hdots.
  { pose proof (length_split_dot (encodeBase64UrlHeader Pf (fs_protectedHeader this) +:+ "."
                      +:+ encodeBase64Url pl +:+ "." +:+ encodeBase64Url sg)) as Hlen.
    rewrite Hsplit in Hlen. cbn in Hlen. lia. }
  split; [done|].
  unfold compact_verify. cbn [is_nullish].
  destruct (trim_is_empty _) eqn:Htrim.
  { apply trim_is_empty_no_dot in Htrim. congruence. }
  rewrite Hsplit, jws_literal_eq, <- Hjws, Hver, M_bind_ok_eq. cbn [M_ret fst snd].
  eexists _, _. split; [reflexivity|]. cbn [get]. unfold prop.
  rewrite lookup_insert_eq, lookup_insert_ne, lookup_singleton_eq by done. done.
Qed.

Lemma compact_verify_sign_witness :
  count_dots ("e30." +:+ encodeBase64Url hello +:+ "." +:+ encodeBase64Url (replicate 64 x00))
  = 2%nat
  ∧ ∃ tr' result,
      compact_verify (codec_platform es256_header) stub_randomBytes
        (JStr ("e30." +:+ encodeBase64Url hello +:+ "."
               +:+ encodeBase64Url (replicate 64 x00)))
        stub_jwk noOptions
      = (tr', Ok result)
      ∧ get result "payload" = JBytes hello
      ∧ get result "protectedHeader" = es256_header.
Proof.
  eapply (compact_verify_sign (codec_platform es256_header)
            {| fs_randomBytes := stub_randomBytes;
               fs_protectedHeader := es256_header;
               fs_unprotectedHeader := JUndefined |}
            (JBytes hello) stub_jwk stub_jwk noOptions noOptions stub_randomBytes).
  - vm_compute. reflexivity.
  - reflexivity.
  - apply codec_platform_base64url.
  - reflexivity.
  - apply stub_signature_key_pair.
  - reflexivity.
Defined.

(** ** Errors of the flattened operations *)

(** X18. Once their arguments have passed the checks made before the
    [try] block, [encrypt], [decrypt] and [sign] throw one error each,
    whatever went wrong inside, a provider's exception included:
    [JweInvalid] "Failed to encrypt plaintext", [JweInvalid] "Failed to
    decrypt JWE" and [JwsInvalid] "Failed to sign payload". *)
Theorem uniform_errors (Pf : Platform) (options : Options) (tr : list Event) (e : Exn) :
  (∀ this plaintext yourJwkPublicKey,
     encrypt Pf this (JBytes plaintext) yourJwkPublicKey options = (tr, Throw e) →
     isPlainObject yourJwkPublicKey = true → truthy (get yourJwkPublicKey "crv") = true →
     e = JweInvalid "Failed to encrypt plaintext")
  ∧ (∀ aes jwe myJwkPrivateKey,
       decrypt Pf aes jwe myJwkPrivateKey options = (tr, Throw e) →
       isPlainObject jwe = true → isPlainObject myJwkPrivateKey = true →
       truthy (get myJwkPrivateKey "crv") = true →
       e = JweInvalid "Failed to decrypt JWE")
  ∧ (∀ this payload jwkPrivateKey,
       sign Pf this (JBytes payload) jwkPrivateKey options = (tr, Throw e) →
       isPlainObject jwkPrivateKey = true → truthy (get jwkPrivateKey "crv") = true →
       e = JwsInvalid "Failed to sign payload").
Proof.
  repeat split.
  - intros this pt jwk. unfold encrypt. cbn [truthy negb].
    destruct jwk as [| | | | | | |o|]; try done. cbn [truthy isPlainObject negb].
    intros H _ Hcrv. rewrite Hcrv in H. cbn [negb] in H.
    by apply try_catch_uniform in H as [(a & [=] & _)|[[= ->] _]].
  - intros aes jwe jwk. unfold decrypt.
    destruct jwe as [| | | | | | |o|]; try done.
    destruct jwk as [| | | | | | |k|]; try done. cbn [truthy isPlainObject negb].
    intros H _ _ Hcrv. rewrite Hcrv in H. cbn [negb] in H.
    by apply try_catch_uniform in H as [(a & [=] & _)|[[= ->] _]].
  - intros this pl jwk. unfold sign. cbn [is_nullish].
    destruct jwk as [| | | | | | |k|]; try done. cbn [is_nullish isPlainObject negb].
    intros H _ Hcrv. rewrite Hcrv in H. cbn [negb] in H.
    by apply try_catch_uniform in H as [(a & [=] & _)|[[= ->] _]].
Qed.

Lemma uniform_errors_witness :
  thrown (encrypt (stub_platform (JObj ∅) true) (newFlattenedEncrypter stub_aes)
            (JBytes hello) stub_jwk noOptions)
  = JweInvalid "Failed to encrypt plaintext"
  ∧ thrown (decrypt (stub_platform (JObj ∅) true) stub_aes (JObj ∅) stub_jwk noOptions)
    = JweInvalid "Failed to decrypt JWE"
  ∧ thrown (sign (stub_platform (JObj ∅) true) (newFlattenedSigner stub_randomBytes)
              (JBytes hello) stub_jwk noOptions)
    = JwsInvalid "Failed to sign payload".
Proof.
  split; [|split].
  - apply (proj1 (uniform_errors (stub_platform (JObj ∅) true) noOptions
                    (encrypt (stub_platform (JObj ∅) true) (newFlattenedEncrypter stub_aes)
                       (JBytes hello) stub_jwk noOptions).1
                    (thrown (encrypt (stub_platform (JObj ∅) true)
                               (newFlattenedEncrypter stub_aes) (JBytes hello) stub_jwk
                               noOptions)))
             (newFlattenedEncrypter stub_aes) hello stub_jwk).
    + vm_compute. reflexivity.
    + reflexivity.
    + reflexivity.
  - apply (proj1 (proj2 (uniform_errors (stub_platform (JObj ∅) true) noOptions
                    (decrypt (stub_platform (JObj ∅) true) stub_aes (JObj ∅) stub_jwk
                       noOptions).1
                    (thrown (decrypt (stub_platform (JObj ∅) true) stub_aes (JObj ∅) stub_jwk
                               noOptions))))
             stub_aes (JObj ∅) stub_jwk).
    + vm_compute. reflexivity.
    + reflexivity.
    + reflexivity.
    + reflexivity.
  - apply (proj2 (proj2 (uniform_errors (stub_platform (JObj ∅) true) noOptions
                    (sign (stub_platform (JObj ∅) true) (newFlattenedSigner stub_randomBytes)
                       (JBytes hello) stub_jwk noOptions).1
                    (thrown (sign (stub_platform (JObj ∅) true)
                               (newFlattenedSigner stub_randomBytes) (JBytes hello) stub_jwk
                               noOptions))))
             (newFlattenedSigner stub_randomBytes) hello stub_jwk).
    + vm_compute. reflexivity.
    + reflexivity.
    + reflexivity.
Defined.

(** ** What the operations return *)

Lemma assemble_jwe_dom (this : FlattenedEncrypter) (ciphertext iv tag : bytes)
    (H : string) (aadB64U : option string) :
  dom (assemble_jwe this ciphertext iv tag H None aadB64U)
  = {[ "ciphertext"; "iv"; "tag"; "protected" ]}
    ∪ (match fe_aad this with Some _ => {[ "aad" ]} | None => ∅ end)
    ∪ (if truthy (fe_sharedUnprotectedHeader this) then {[ "unprotected" ]} else ∅)
    ∪ (if truthy (fe_unprotectedHeader this) then {[ "header" ]} else ∅).
Proof.
  unfold assemble_jwe.
  destruct (fe_aad this), (truthy (fe_sharedUnprotectedHeader this)),
    (truthy (fe_unprotectedHeader this));
    rewrite ?dom_insert_L, dom_singleton_L; set_solver.
Qed.

(** X19. The flattened JWE of a successful [encrypt] has the members
    [ciphertext], [iv], [tag] and [protected], then [aad] exactly when
    additional authenticated data was set, [unprotected] and [header]
    exactly when the corresponding header was set, and no other: in
    particular no [encrypted_key].  The first five hold base64url
    strings, with no dot in them; the last two hold the unprotected
    headers as given. *)
Theorem encrypt_members (Pf : Platform) (this : FlattenedEncrypter)
    (plaintext yourJwkPublicKey : JsValue) (options : Options)
    (tr : list Event) (this' : FlattenedEncrypter) (jwe : JsValue) :
  encrypt Pf this plaintext yourJwkPublicKey options = (tr, Ok (this', jwe)) →
  Object_keys jwe
  = {[ "ciphertext"; "iv"; "tag"; "protected" ]}
    ∪ (match fe_aad this with Some _ => {[ "aad" ]} | None => ∅ end)
    ∪ (if truthy (fe_sharedUnprotectedHeader this) then {[ "unprotected" ]} else ∅)
    ∪ (if truthy (fe_unprotectedHeader this) then {[ "header" ]} else ∅)
  ∧ ("encrypted_key" ∉ Object_keys jwe)
  ∧ (∀ name, name ∈ ["ciphertext"; "iv"; "tag"; "protected"; "aad"] →
       name ∈ Object_keys jwe → ∃ s, get jwe name = JStr s ∧ dot_free s = true)
  ∧ get jwe "protected" = JStr (encodeBase64UrlHeader Pf (fe_protectedHeader this'))
  ∧ get jwe "aad" = from_option (λ aad, JStr (encodeBase64Url aad)) JUndefined (fe_aad this)
  ∧ ("unprotected" ∈ Object_keys jwe → get jwe "unprotected" = fe_sharedUnprotectedHeader this)
  ∧ ("header" ∈ Object_keys jwe → get jwe "header" = fe_unprotectedHeader this).
Proof.
  intros Hrun.
  apply encrypt_ok_try in Hrun as (pt & -> & Hrun).
  apply encrypt_try_run in Hrun
    as (curve & pk & J & names & alg & enc & cek & ek & parameters & t_d & ct & tag & iv
        & _ & _ & HJ & _ & _ & _ & Hderive & Hupd & _ & _ & ->).
  apply deriveEncryptionKey_ecdhes in Hderive as [_ Hderive].
  apply ecdhesDeriveEncryptionKey_ok in Hderive
    as (? & ? & ? & ? & ? & ? & ? & ? & _ & _ & _ & _ & _ & _ & _ & _ & _ & _ & -> & _).
  assert (∃ J, mergeJweHeaders (fe_protectedHeader this) (fe_sharedUnprotectedHeader this)
                 (fe_unprotectedHeader this) = Ok J) as Hm by eauto.
  apply mergeJweHeaders_ok_iff in Hm as ((h & Hh & _) & _).
  apply (updateProtectedHeader_obj _ _ h) in Hupd; [|done]. subst this'.
  cbn [with_protectedHeader fe_protectedHeader fe_aad fe_aes
       fe_sharedUnprotectedHeader fe_unprotectedHeader] in *.
  set (this' := with_protectedHeader this (JObj (parameters ∪ h))).
  pose proof (assemble_jwe_dom this' ct iv tag
                (encodeBase64UrlHeader Pf (JObj (parameters ∪ h)))
                (encodeBase64Url <$> fe_aad this)) as Hdom.
  destruct (assemble_jwe_members this' ct iv tag
              (encodeBase64UrlHeader Pf (JObj (parameters ∪ h))) None
              (encodeBase64Url <$> fe_aad this)) as (L1 & L2 & L3 & L4 & L5 & L6 & L7 & L8).
  cbn [this' with_protectedHeader fe_aad fe_sharedUnprotectedHeader fe_unprotectedHeader]
    in Hdom, L6, L7, L8.
  unfold Object_keys. cbn [own_props get]. rewrite Hdom, L4, L6, L7, L8.
  split; [done|]. split.
  { destruct (fe_aad this), (truthy (fe_sharedUnprotectedHeader this)),
      (truthy (fe_unprotectedHeader this)); set_solver. }
  split.
  { intros name Hname Hin.
    repeat (apply elem_of_cons in Hname as [->|Hname]).
    - rewrite L1. eexists. split; [done|]. apply dot_free_encodeBase64Url.
    - rewrite L2. eexists. split; [done|]. apply dot_free_encodeBase64Url.
    - rewrite L3. eexists. split; [done|]. apply dot_free_encodeBase64Url.
    - rewrite L4. eexists. split; [done|]. apply dot_free_encodeBase64UrlHeader.
    - rewrite L6. destruct (fe_aad this) as [aad|].
      + eexists. split; [done|]. apply dot_free_encodeBase64Url.
      + exfalso. destruct (truthy (fe_sharedUnprotectedHeader this)),
          (truthy (fe_unprotectedHeader this)); set_solver.
    - by apply elem_of_nil in Hname. }
  split; [done|]. split; [by destruct (fe_aad this)|].
  split.
  - destruct (truthy (fe_sharedUnprotectedHeader this)); [done|].
    intros Hin. exfalso. destruct (fe_aad this), (truthy (fe_unprotectedHeader this)); set_solver.
  - destruct (truthy (fe_unprotectedHeader this)); [done|].
    intros Hin. exfalso.
    destruct (fe_aad this), (truthy (fe_sharedUnprotectedHeader this)); set_solver.
Qed.

Lemma encrypt_members_witness :
  Object_keys (JObj {[ "ciphertext" := JStr (encodeBase64Url (reverse hello));
                       "iv" := JStr (encodeBase64Url (replicate 12 x00));
                       "tag" := JStr (encodeBase64Url (replicate 16 x00));
                       "protected" := JStr "e30";
                       "aad" := JStr (encodeBase64Url (utf8 "Alice"));
                       "header" := JObj {[ "kid" := JStr "key-1" ]} ]})
  = {[ "ciphertext"; "iv"; "tag"; "protected" ]}
    ∪ (match Some (utf8 "Alice") with Some _ => {[ "aad" ]} | None => ∅ end)
    ∪ (if truthy JUndefined then {[ "unprotected" ]} else ∅)
    ∪ (if truthy (JObj {[ "kid" := JStr "key-1" ]}) then {[ "header" ]} else ∅).
Proof.
  eapply proj1.
  eapply (encrypt_members (codec_platform (JObj ecdh_header_with_epk))
            {| fe_aes := reversing_aes;
               fe_protectedHeader := JObj ecdh_header;
               fe_sharedUnprotectedHeader := JUndefined;
               fe_unprotectedHeader := JObj {[ "kid" := JStr "key-1" ]};
               fe_aad := Some (utf8 "Alice");
               fe_keyManagementParameters := JUndefined |}
            (JBytes hello) p256_jwk noOptions _
            {| fe_aes := reversing_aes;
               fe_protectedHeader := JObj ecdh_header_with_epk;
               fe_sharedUnprotectedHeader := JUndefined;
               fe_unprotectedHeader := JObj {[ "kid" := JStr "key-1" ]};
               fe_aad := Some (utf8 "Alice");
               fe_keyManagementParameters := JUndefined |}).
  vm_compute. reflexivity.
Defined.

(** X20. What [sign] signs and returns.  A successful [sign] makes one
    signature, over the protected header in base64url, a dot, and the
    payload: in base64url, unless the protected header names [b64] in
    [crit] and holds [b64: false], in which case the payload bytes are
    signed as they are and the [payload] member is the empty string.  A
    [b64: false] that is not critical changes nothing. *)
Theorem sign_signing_input (Pf : Platform) (this : FlattenedSigner)
    (payload jwkPrivateKey : JsValue) (options : Options) (tr : list Event) (jws : JsValue) :
  sign Pf this payload jwkPrivateKey options = (tr, Ok jws) →
  ∃ pl curve privateKey message signature,
    payload = JBytes pl
    ∧ createSignatureCurve Pf (get jwkPrivateKey "crv") (fs_randomBytes this) = Returned curve
    ∧ sig_toRawPrivateKey curve jwkPrivateKey = Returned privateKey
    ∧ sig_sign curve privateKey message = Returned signature
    ∧ tr = [EvCreateCurve (get jwkPrivateKey "crv"); EvToRawPrivateKey jwkPrivateKey;
            EvSign privateKey message]
    ∧ get jws "protected" = JStr (encodeBase64UrlHeader Pf (fs_protectedHeader this))
    ∧ get jws "signature" = JStr (encodeBase64Url signature)
    ∧ get jws "header"
      = (if truthy (fs_unprotectedHeader this) then fs_unprotectedHeader this else JUndefined)
    ∧ ("b64" ∈ protected_crit_names (fs_protectedHeader this)
       ∧ get (fs_protectedHeader this) "b64" = JBool false →
       message = utf8 (encodeBase64UrlHeader Pf (fs_protectedHeader this) +:+ ".") ++ pl
       ∧ get jws "payload" = JStr "")
    ∧ (¬ ("b64" ∈ protected_crit_names (fs_protectedHeader this)
          ∧ get (fs_protectedHeader this) "b64" = JBool false) →
       message = utf8 (encodeBase64UrlHeader Pf (fs_protectedHeader this) +:+ "."
                       +:+ encodeBase64Url pl)
       ∧ get jws "payload" = JStr (encodeBase64Url pl)).
Proof.
  intros Hrun.
  apply sign_ok_try in Hrun as (pl & -> & Hrun).
  apply sign_try_run in Hrun
    as (curve & sk & J & names & b64 & alg & sg & Hcurve & Hsk & HJ & HcritOk & HparseB64
        & Halg & Hsig & -> & ->).
  unfold sign_validateCrit in HcritOk.
  assert (names = list_to_set (protected_crit_names (fs_protectedHeader this))) as Hnames.
  { destruct (validateCrit_decision JweInvalid (Some {[ "b64" := true ]}) (opt_crit options)
                (fs_protectedHeader this) J) as [(msg & Ht & _)|[Hok _]]; congruence. }
  pose proof (parseB64_false _ _ _ HparseB64) as Hfalse.
  rewrite Hnames, elem_of_list_to_set in Hfalse.
  destruct (signed_jws_lookup (encodeBase64Url sg)
              (encodeBase64UrlHeader Pf (fs_protectedHeader this))
              (if b64 then encodeBase64Url pl else "") (fs_unprotectedHeader this))
    as (Lsig & Lprot & Lpay & Lhdr).
  exists pl, curve, sk, (encodeSignTarget Pf (fs_protectedHeader this) pl b64).1.1, sg.
  cbn [get]. rewrite Lsig, Lprot, Lpay, Lhdr.
  repeat (split; [done|]). unfold encodeSignTarget. split.
  - intros Hd. apply Hfalse in Hd as ->. done.
  - intros Hnd. destruct b64; [done|]. exfalso. by apply Hnd, Hfalse.
Qed.

Lemma sign_signing_input_witness :
  ∃ pl curve privateKey message signature,
    JBytes hello = JBytes pl
    ∧ createSignatureCurve (codec_platform uncritical_b64_header) (get stub_jwk "crv")
        stub_randomBytes = Returned curve
    ∧ sig_toRawPrivateKey curve stub_jwk = Returned privateKey
    ∧ sig_sign curve privateKey message = Returned signature
    ∧ [EvCreateCurve (JStr "P-256"); EvToRawPrivateKey stub_jwk;
       EvSign (replicate 32 x02) (utf8 ("e30." +:+ encodeBase64Url hello))]
      = [EvCreateCurve (get stub_jwk "crv"); EvToRawPrivateKey stub_jwk;
         EvSign privateKey message]
    ∧ get (JObj {[ "signature" := JStr (encodeBase64Url (replicate 64 x00));
                   "protected" := JStr "e30";
                   "payload" := JStr (encodeBase64Url hello) ]}) "protected"
      = JStr (encodeBase64UrlHeader (codec_platform uncritical_b64_header)
                uncritical_b64_header)
    ∧ get (JObj {[ "signature" := JStr (encodeBase64Url (replicate 64 x00));
                   "protected" := JStr "e30";
                   "payload" := JStr (encodeBase64Url hello) ]}) "signature"
      = JStr (encodeBase64Url signature)
    ∧ get (JObj {[ "signature" := JStr (encodeBase64Url (replicate 64 x00));
                   "protected" := JStr "e30";
                   "payload" := JStr (encodeBase64Url hello) ]}) "header"
      = (if truthy JUndefined then JUndefined else JUndefined)
    ∧ ("b64" ∈ protected_crit_names uncritical_b64_header
       ∧ get uncritical_b64_header "b64" = JBool false →
       message = utf8 (encodeBase64UrlHeader (codec_platform uncritical_b64_header)
                         uncritical_b64_header +:+ ".") ++ pl
       ∧ get (JObj {[ "signature" := JStr (encodeBase64Url (replicate 64 x00));
                      "protected" := JStr "e30";
                      "payload" := JStr (encodeBase64Url hello) ]}) "payload" = JStr "")
    ∧ (¬ ("b64" ∈ protected_crit_names uncritical_b64_header
          ∧ get uncritical_b64_header "b64" = JBool false) →
       message = utf8 (encodeBase64UrlHeader (codec_platform uncritical_b64_header)
                         uncritical_b64_header +:+ "." +:+ encodeBase64Url pl)
       ∧ get (JObj {[ "signature" := JStr (encodeBase64Url (replicate 64 x00));
                      "protected" := JStr "e30";
                      "payload" := JStr (encodeBase64Url hello) ]}) "payload"
         = JStr (encodeBase64Url pl)).
Proof.
  apply (sign_signing_input (codec_platform uncritical_b64_header)
           {| fs_randomBytes := stub_randomBytes;
              fs_protectedHeader := uncritical_b64_header;
              fs_unprotectedHeader := JUndefined |}
           (JBytes hello) stub_jwk noOptions).
  vm_compute. reflexivity.
Defined.

(** ** What a successful decryption or verification went through *)










(** ** The timing mitigation inside [decrypt] *)

Lemma quiet_lift {A : Type} (r : result A) : quiet (lift r).
Proof. constructor. Qed.

Lemma quiet_call {A : Type} (ev : Event) (p : provided A) :
  is_sleep ev = false → quiet (call ev p).
Proof. intros H. by repeat constructor. Qed.

Lemma quiet_bind {A B : Type} (m : M A) (k : A → M B) :
  quiet m → (∀ a, quiet (k a)) → quiet (M_bind m k).
Proof.
  unfold quiet, M_bind. destruct m as [t [a|e]]; [|done]. intros Hm Hk.
  specialize (Hk a). destruct (k a) as [t2 r]. cbn in *. by apply Forall_app.
Qed.

Lemma deriveDecryptionKey_quiet (Pf : Platform) (alg enc : string) (curve : EcdhCurve)
    (sk : bytes) (ek : option bytes) (P : JsValue) :
  quiet (deriveDecryptionKey Pf alg enc curve sk ek P).
Proof.
  unfold deriveDecryptionKey. destruct (String.eqb alg "ECDH-ES"); [|apply quiet_lift].
  unfold ecdhesDeriveDecryptionKey.
  repeat (apply quiet_bind; [first [apply quiet_lift | by apply quiet_call]|intros ?]).
  by repeat constructor.
Qed.

Lemma M_bind_inv {A B : Type} (m : M A) (k : A → M B) (tr : list Event) (r : result B) :
  M_bind m k = (tr, r) →
  (∃ e, m = (tr, Throw e) ∧ r = Throw e)
  ∨ (∃ t1 a t2, m = (t1, Ok a) ∧ k a = (t2, r) ∧ tr = t1 ++ t2).
Proof.
  unfold M_bind. destruct m as [t1 [a|e]].
  - destruct (k a) as [t2 r'] eqn:Hk. intros [= <- <-]. right. by exists t1, a, t2.
  - intros [= <- <-]. left. by exists e.
Qed.

Lemma lift_trace {A : Type} (r r' : result A) (t : list Event) : lift r = (t, r') → t = [].
Proof. by intros [= <- _]. Qed.

Lemma call_trace {A : Type} (ev : Event) (p : provided A) (t : list Event) (r : result A) :
  call ev p = (t, r) → t = [ev].
Proof. by intros [= <- _]. Qed.

Lemma generateMitigatedCek_run (Pf : Platform) (curve : EcdhCurve) (enc : string) :
  isEnc enc = true →
  ∃ bits, cekBitLengthByEnc enc = Ok bits
          ∧ generateMitigatedCek Pf curve enc
            = ([EvMathRandom; EvSleep (200 + Math_random Pf * 300)%Q;
                EvRandomBytes (js_shr bits 3)], Ok (randomBytes curve (js_shr bits 3))).
Proof.
  intros (bits & Hbits & _)%cekBitLengthByEnc_isEnc. exists bits. split; [done|].
  unfold generateMitigatedCek, sleep. cbn [M_bind app]. by rewrite Hbits.
Qed.

Lemma quiet_existsb (t : list Event) :
  Forall (λ ev, is_sleep ev = false) t → existsb is_sleep t = false.
Proof. induction 1 as [|ev t Hev _ IH]; [done|]. cbn. by rewrite Hev, IH. Qed.

Lemma bind_sleep {A B : Type} (m : M A) (k : A → M B) (tr : list Event) (r : result B) :
  M_bind m k = (tr, r) → quiet m → existsb is_sleep tr = true →
  ∃ t1 a t2, m = (t1, Ok a) ∧ k a = (t2, r) ∧ tr = t1 ++ t2
             ∧ Forall (λ ev, is_sleep ev = false) t1 ∧ existsb is_sleep t2 = true.
Proof.
  intros [(e & Hm & ->)|(t1 & a & t2 & Hm & Hk & ->)]%M_bind_inv Hq Hs;
    rewrite Hm in Hq; unfold quiet in Hq; cbn in Hq.
  - by rewrite (quiet_existsb _ Hq) in Hs.
  - rewrite existsb_app, (quiet_existsb _ Hq) in Hs. by exists t1, a, t2.
Qed.

(** X23. [decrypt] waits only as part of the timing mitigation: when its
    trace holds a timer, the curve was created, the private key
    converted, the flattened JWE validated with [alg] = ECDH-ES and a
    registered [enc], and the key derivation failed; [decrypt] then drew
    one random number for the delay of 200 + 300 * random milliseconds,
    drew a random key of the size of the content encryption algorithm,
    and still called the provider's AEAD decryption with this key as its
    last external call, on the decoded members of the JWE.  No timer
    precedes that one, and the outcome is the one of the AEAD call: its
    plaintext when it returns, and the uniform error when it raises. *)
Theorem decrypt_mitigation (Pf : Platform) (aes : AesCipher) (jwe myJwkPrivateKey : JsValue)
    (options : Options) (tr : list Event) (r : result JsValue) :
  decrypt Pf aes jwe myJwkPrivateKey options = (tr, r) →
  existsb is_sleep tr = true →
  ∃ t0 curve myPrivateKey v enc bits t_key e,
    createEcdhCurve Pf (get myJwkPrivateKey "crv") (aes_randomBytes aes) = Returned curve
    ∧ toRawPrivateKey curve myJwkPrivateKey = Returned myPrivateKey
    ∧ validateFlattenedJwe Pf jwe = Ok v
    ∧ prop (vj_joseHeader v) "alg" = JStr "ECDH-ES"
    ∧ prop (vj_joseHeader v) "enc" = JStr enc
    ∧ cekBitLengthByEnc enc = Ok bits
    ∧ deriveDecryptionKey Pf "ECDH-ES" enc curve myPrivateKey (vj_encryptedKey v)
        (vj_parsedProtected v) = (t_key, Throw e)
    ∧ let cek := randomBytes curve (js_shr bits 3) in
      let aesAad := encodeAesAad (string_member jwe "protected")
                      (optional_string (get jwe "aad")) in
      tr = t0 ++ [EvMathRandom; EvSleep (200 + Math_random Pf * 300)%Q;
                  EvRandomBytes (js_shr bits 3);
                  EvAeadDecrypt enc cek (vj_ciphertext v) (vj_iv v) (vj_tag v) aesAad]
      ∧ Forall (λ ev, is_sleep ev = false) t0
      ∧ r = match aes_decrypt aes enc cek (vj_ciphertext v) (vj_iv v) (vj_tag v) aesAad with
            | Returned plaintext => Ok (JObj (assemble_decrypt_result jwe plaintext v))
            | Raised _ => Throw (JweInvalid "Failed to decrypt JWE")
            end.
Proof.
  intros Hrun Hs. unfold decrypt in Hrun.
  repeat match type of Hrun with
         | (if ?b then _ else _) = _ =>
             destruct b; [by apply lift_trace in Hrun as ->|]
         end.
  destruct (decrypt_try Pf aes jwe myJwkPrivateKey options) as [t r0] eqn:H.
  assert (tr = t ∧ r = match r0 with
                       | Ok a => Ok a
                       | Throw _ => Throw (JweInvalid "Failed to decrypt JWE")
                       end) as [-> ->].
  { destruct r0; cbn in Hrun; injection Hrun as <- <-; by rewrite ?app_nil_r. }
  clear Hrun. unfold decrypt_try in H.
  apply bind_sleep in H as (t1 & curve & t1' & [-> Hcurve]%call_ok & H & -> & Q1 & Hs');
    [|by apply quiet_call|done].
  clear Hs; rename Hs' into Hs.
  apply bind_sleep in H as (t2 & sk & t2' & [-> Hsk]%call_ok & H & -> & Q2 & Hs');
    [|by apply quiet_call|done].
  clear Hs; rename Hs' into Hs.
  apply bind_sleep in H as (t3 & v & t3' & [-> Hv]%lift_inv & H & -> & _ & _);
    [|by apply quiet_lift|done].
  apply bind_sleep in H as (t4 & names & t4' & [-> Hcrit]%lift_inv & H & -> & _ & _);
    [|by apply quiet_lift|done].
  apply bind_sleep in H as (t5 & alg & t5' & [-> Halg]%lift_inv & H & -> & _ & _);
    [|by apply quiet_lift|done].
  apply bind_sleep in H as (t6 & enc & t6' & [-> Henc]%lift_inv & H & -> & _ & _);
    [|by apply quiet_lift|done].
  apply bind_sleep in H as (t7 & [] & t7' & [-> Hkma]%lift_inv & H & -> & _ & _);
    [|by apply quiet_lift|done].
  apply bind_sleep in H as (t8 & [] & t8' & [-> Hcea]%lift_inv & H & -> & _ & _);
    [|by apply quiet_lift|done].
  cbn [app] in *.
  apply validateJweAlg_ok in Halg as [Halg ->].
  apply validateJweEnc_ok in Henc as [Henc HisEnc].
  destruct (generateMitigatedCek_run Pf curve enc HisEnc) as (bits & Hbits & Hgen).
  pose proof (deriveDecryptionKey_quiet Pf "ECDH-ES" enc curve sk (vj_encryptedKey v)
                (vj_parsedProtected v)) as Hq.
  unfold deriveDecryptionKeyWithMitigation in H.
  destruct (deriveDecryptionKey Pf "ECDH-ES" enc curve sk (vj_encryptedKey v)
              (vj_parsedProtected v)) as [t_key [cek|e]] eqn:Hd;
    unfold quiet in Hq; cbn [fst] in Hq; cbn [try_catch] in H.
  { exfalso. rewrite M_bind_ok_eq in H. injection H as <- _.
    rewrite existsb_app, (quiet_existsb _ Hq) in Hs. cbn [orb] in Hs.
    by destruct (aes_decrypt _ _ _ _ _ _ _). }
  rewrite Hgen, M_bind_ok_eq in H. injection H as <- <-.
  exists ([EvCreateCurve (get myJwkPrivateKey "crv"); EvToRawPrivateKey myJwkPrivateKey]
          ++ t_key), curve, sk, v, enc, bits, t_key, e.
  repeat (split; [done|]). cbn zeta. split; [|split].
  - unfold string_member.
    destruct (aes_decrypt _ _ _ _ _ _ _); cbn; by rewrite <- ?(assoc_L (++)).
  - apply Forall_app. split; [|done]. by repeat constructor.
  - unfold string_member. by destruct (aes_decrypt _ _ _ _ _ _ _).
Qed.

Lemma decrypt_mitigation_witness :
  ∃ t0 curve myPrivateKey v enc bits t_key e,
    createEcdhCurve (codec_platform (JObj ecdh_header)) (get p256_private_jwk "crv")
      (aes_randomBytes reversing_aes) = Returned curve
    ∧ toRawPrivateKey curve p256_private_jwk = Returned myPrivateKey
    ∧ validateFlattenedJwe (codec_platform (JObj ecdh_header)) hello_jwe = Ok v
    ∧ prop (vj_joseHeader v) "alg" = JStr "ECDH-ES"
    ∧ prop (vj_joseHeader v) "enc" = JStr enc
    ∧ cekBitLengthByEnc enc = Ok bits
    ∧ deriveDecryptionKey (codec_platform (JObj ecdh_header)) "ECDH-ES" enc curve myPrivateKey
        (vj_encryptedKey v) (vj_parsedProtected v) = (t_key, Throw e)
    ∧ let cek := randomBytes curve (js_shr bits 3) in
      let aesAad := encodeAesAad (string_member hello_jwe "protected")
                      (optional_string (get hello_jwe "aad")) in
      (decrypt (codec_platform (JObj ecdh_header)) reversing_aes hello_jwe p256_private_jwk
         noOptions).1
      = t0 ++ [EvMathRandom;
               EvSleep (200 + Math_random (codec_platform (JObj ecdh_header)) * 300)%Q;
               EvRandomBytes (js_shr bits 3);
               EvAeadDecrypt enc cek (vj_ciphertext v) (vj_iv v) (vj_tag v) aesAad]
      ∧ Forall (λ ev, is_sleep ev = false) t0
      ∧ (decrypt (codec_platform (JObj ecdh_header)) reversing_aes hello_jwe p256_private_jwk
           noOptions).2
        = match aes_decrypt reversing_aes enc cek (vj_ciphertext v) (vj_iv v) (vj_tag v) aesAad
          with
          | Returned plaintext => Ok (JObj (assemble_decrypt_result hello_jwe plaintext v))
          | Raised _ => Throw (JweInvalid "Failed to decrypt JWE")
          end.
Proof.
  apply (decrypt_mitigation (codec_platform (JObj ecdh_header)) reversing_aes hello_jwe
           p256_private_jwk noOptions).
  - vm_compute. reflexivity.
  - vm_compute. reflexivity.
Defined.

(** ** The ephemeral public key *)

Lemma decodeRequiredBase64Url_ok (Pf : Platform) (v : JsValue) (label : string) (b : bytes) :
  decodeRequiredBase64Url Pf v label = Ok b ↔ ∃ s, v = JStr s ∧ decodeB64U Pf s = Returned b.
Proof.
  unfold decodeRequiredBase64Url, decodeBase64Url, result_catch. split.
  - destruct v; try done. destruct (decodeB64U Pf s) as [b'|] eqn:Hs; [|done].
    cbn. intros [= <-]. by exists s.
  - intros (s & -> & Hs). cbn [is_nullish]. by rewrite Hs.
Qed.

Lemma decodeRequiredBase64Url_invalid (Pf : Platform) (v : JsValue) (label : string) (e : Exn) :
  decodeRequiredBase64Url Pf v label = Throw e → is_invalid e = true.
Proof.
  unfold decodeRequiredBase64Url, decodeBase64Url, result_catch.
  destruct v; try by intros [= <-].
  destruct (decodeB64U Pf s); [done|by intros [= <-]].
Qed.

Lemma isJweCrv_cases (crv : JsValue) :
  isJweCrv crv = true ↔ ∃ s, crv = JStr s ∧ s ∈ ["P-256"; "P-384"; "P-521"; "X25519"].
Proof.
  unfold isJweCrv. split.
  - destruct crv; try done. intros H%bool_decide_eq_true. by exists s.
  - intros (s & -> & H). by apply bool_decide_eq_true.
Qed.

Lemma keyLengthByCrv_jwe_crv (crv : string) :
  crv ∈ ["P-256"; "P-384"; "P-521"; "X25519"] → ∃ n, keyLengthByCrv crv = Ok n.
Proof.
  intros H. repeat (apply elem_of_cons in H as [->|H]); [..|by apply elem_of_nil in H];
    by eexists.
Qed.

Lemma validateKeyLengthByCrv_ok (key : bytes) (crv label : string) (n : Z) :
  keyLengthByCrv crv = Ok n →
  validateKeyLengthByCrv key crv label = Ok () ↔ Z.of_nat (length key) = n.
Proof.
  intros Hn. unfold validateKeyLengthByCrv. rewrite Hn. cbn.
  destruct (Z.eqb_spec (Z.of_nat (length key)) n); cbn; split; done.
Qed.

Lemma validateKeyLengthByCrv_invalid (key : bytes) (crv label : string) (n : Z) (e : Exn) :
  keyLengthByCrv crv = Ok n →
  validateKeyLengthByCrv key crv label = Throw e → is_invalid e = true.
Proof.
  intros Hn. unfold validateKeyLengthByCrv. rewrite Hn. cbn.
  destruct (_ =? _); cbn; [done|by intros [= <-]].
Qed.

(** X24. [validateJweEpk] returns the [epk] it is given, and it accepts
    exactly a plain object whose [kty] is EC or OKP, whose [crv] is one
    of P-256, P-384, P-521 and X25519, whose [x] is a string that the
    base64url decoder turns into as many bytes as the curve's key has,
    and, when [kty] is EC, whose [y] is such a string too; [kty] is not
    checked against [crv], and [y] is not read for OKP.  Every rejection
    is an error of the kind invalid: the "not supported" error of the
    key-length table is never thrown. *)
Theorem validateJweEpk_spec (Pf : Platform) (epk : JsValue) :
  (∀ r, validateJweEpk Pf epk = Ok r ↔
        r = epk ∧ isPlainObject epk = true
        ∧ ∃ kty crv n sx x,
            get epk "kty" = JStr kty ∧ (kty = "EC" ∨ kty = "OKP")
            ∧ get epk "crv" = JStr crv ∧ crv ∈ ["P-256"; "P-384"; "P-521"; "X25519"]
            ∧ keyLengthByCrv crv = Ok n
            ∧ get epk "x" = JStr sx ∧ decodeB64U Pf sx = Returned x
            ∧ Z.of_nat (length x) = n
            ∧ (kty = "EC" →
               ∃ sy y, get epk "y" = JStr sy ∧ decodeB64U Pf sy = Returned y
                       ∧ Z.of_nat (length y) = n))
  ∧ (∀ e, validateJweEpk Pf epk = Throw e → is_invalid e = true).
Proof.
  unfold validateJweEpk.
  destruct (is_nullish epk) eqn:Hnull.
  { split; [|by intros e [= <-]]. intros r. split; [done|].
    intros (_ & Hobj & _). by destruct epk. }
  destruct (isPlainObject epk) eqn:Hobj; cbn [negb].
  2:{ split; [|by intros e [= <-]]. intros r. split; [done|]. by intros (_ & ? & _). }
  destruct (get epk "kty") as [| | | |kty| | | |] eqn:Hkty;
    try (split; [|by intros e [= <-]]; intros r; split; [done|];
         by intros (_ & _ & ? & ? & ? & ? & ? & ? & _)).
  destruct (String.eqb_spec kty "EC") as [HEC|HEC];
    [|destruct (String.eqb_spec kty "OKP") as [HOKP|HOKP]]; cbn [negb andb].
  3:{ split; [|by intros e [= <-]]. intros r. split; [done|].
      intros (_ & _ & ? & ? & ? & ? & ? & [= <-] & [?|?] & _); done. }
  all: destruct (isJweCrv (get epk "crv")) eqn:Hcrv; cbn [negb];
    [apply isJweCrv_cases in Hcrv as (crv & Hcrv & Hin)
    |split; [|by intros e [= <-]]; intros r; split; [done|];
     intros (_ & _ & ? & crv & ? & ? & ? & _ & _ & Hc & Hin & _);
     by rewrite (proj2 (isJweCrv_cases _) (ex_intro _ crv (conj Hc Hin))) in Hcrv].
  all: rewrite Hcrv; destruct (keyLengthByCrv_jwe_crv crv Hin) as [n Hn].
  - (* EC *)
    split.
    + intros r. split.
      * intros (x & Hx & H)%result_bind_ok. apply result_bind_ok in H as ([] & Hlx & H).
        apply result_bind_ok in H as ([] & Hy & [= <-]).
        apply result_bind_ok in Hy as (y & Hy & Hly).
        apply decodeRequiredBase64Url_ok in Hx as (sx & Hsx & Hx).
        apply decodeRequiredBase64Url_ok in Hy as (sy & Hsy & Hy).
        apply (validateKeyLengthByCrv_ok _ _ _ _ Hn) in Hlx, Hly.
        do 2 (split; [done|]). exists kty, crv, n, sx, x.
        repeat (split; [by auto|]). intros _. by exists sy, y.
      * intros (-> & _ & kty' & crv' & n' & sx & x & [= <-] & _ & [= <-] & _ & Hn' & Hsx
                & Hx & Hlx & Hy).
        rewrite Hn in Hn'. injection Hn' as <-.
        destruct (Hy HEC) as (sy & y & Hsy & Hy' & Hly).
        rewrite (proj2 (decodeRequiredBase64Url_ok Pf _ _ x) (ex_intro _ sx (conj Hsx Hx))).
        cbn. rewrite (proj2 (validateKeyLengthByCrv_ok x crv _ n Hn) Hlx). cbn.
        rewrite (proj2 (decodeRequiredBase64Url_ok Pf _ _ y) (ex_intro _ sy (conj Hsy Hy'))).
        cbn. by rewrite (proj2 (validateKeyLengthByCrv_ok y crv _ n Hn) Hly).
    + intros e [H|(x & _ & H)]%result_bind_throw;
        [by eapply decodeRequiredBase64Url_invalid|].
      apply result_bind_throw in H as [H|([] & _ & H)];
        [by eapply validateKeyLengthByCrv_invalid|].
      apply result_bind_throw in H as [H|([] & _ & H)]; [|done].
      apply result_bind_throw in H as [H|(y & _ & H)];
        [by eapply decodeRequiredBase64Url_invalid|by eapply validateKeyLengthByCrv_invalid].
  - (* OKP *)
    split.
    + intros r. split.
      * intros (x & Hx & H)%result_bind_ok. apply result_bind_ok in H as ([] & Hlx & H).
        injection H as <-.
        apply decodeRequiredBase64Url_ok in Hx as (sx & Hsx & Hx).
        apply (validateKeyLengthByCrv_ok _ _ _ _ Hn) in Hlx.
        do 2 (split; [done|]). exists kty, crv, n, sx, x.
        repeat (split; [by auto|]). done.
      * intros (-> & _ & kty' & crv' & n' & sx & x & [= <-] & _ & [= <-] & _ & Hn' & Hsx
                & Hx & Hlx & _).
        rewrite Hn in Hn'. injection Hn' as <-.
        rewrite (proj2 (decodeRequiredBase64Url_ok Pf _ _ x) (ex_intro _ sx (conj Hsx Hx))).
        cbn. by rewrite (proj2 (validateKeyLengthByCrv_ok x crv _ n Hn) Hlx).
    + intros e [H|(x & _ & H)]%result_bind_throw;
        [by eapply decodeRequiredBase64Url_invalid|].
      apply result_bind_throw in H as [H|([] & _ & H)];
        [by eapply validateKeyLengthByCrv_invalid|done].
Qed.
